(** * Property-rental backend: booking and property route handlers

    A shallow embedding of [routes/bookings.js], [routes/properties.js],
    [models/Booking.js], [models/Property.js] and [config/cloudinary.js].

    Conventions of the embedding:
    - a JavaScript [Date] is the integer number of milliseconds since the
      epoch; the ISO 8601 strings the validators accept are given by the
      instant they denote;
    - a JavaScript number is an integer ([Z]); all the arithmetic below is
      exact on doubles as long as the values stay under 2^53;
    - the document store is a pair of lists of documents, in insertion
      order; every request runs to completion before the next one starts;
    - an [async] handler is a state transformer over the [World] that can
      send a response ([Reply]) or throw ([Raise]); [try_catch] is the
      handler's [try { ... } catch (error) { ... }];
    - object ids are strings and every id received is well formed; the
      [createdAt]/[updatedAt] stamps of bookings and the populated
      sub-documents of the responses are left out. *)

From Stdlib Require Import ZArith List Bool Lia String Ascii.
From stdpp Require Import base option list gmap strings pretty sorting.

#[local] Open Scope string_scope.
#[local] Open Scope list_scope.
#[local] Open Scope Z_scope.

(** ** JavaScript values *)

(** The values a parsed JSON body can hold, and [JDate] for the [Date]
    objects the handlers build themselves.  [JObj] stands for any object
    or array: it is truthy, it is not a string and it does not cast to a
    string or a number.  [undefined] is the absence of a key. *)
Inductive JsVal : Type :=
| JNull
| JBool (b : bool)
| JNum (n : Z)
| JStr (s : string)
| JDate (t : Z)
| JObj.

#[global] Instance JsVal_eq_dec : EqDecision JsVal.
Proof. solve_decision. Defined.

(** [if (v)] *)
Definition truthy (v : JsVal) : bool :=
  match v with
  | JNull => false
  | JBool b => b
  | JNum n => negb (n =? 0)
  | JStr s => negb (String.eqb s "")
  | JDate _ => true
  | JObj => true
  end.

(** [if (obj.key)] where the key may be missing *)
Definition truthy_field (o : option JsVal) : bool :=
  match o with
  | Some v => truthy v
  | None => false
  end.

(** [v === 'literal'] *)
Definition strict_eq_str (v : JsVal) (lit : string) : bool :=
  match v with
  | JStr s => String.eqb s lit
  | _ => false
  end.

Definition mem_string (s : string) (l : list string) : bool :=
  existsb (String.eqb s) l.

(** ** Documents *)

Definition ObjectId := string.

(** [req.user], as the authentication middleware leaves it *)
Record User := mkUser {
  user_id : ObjectId;
  role : string
}.

(** models/Property.js, [location] flattened *)
Record Property := mkProperty {
  property_id : ObjectId;
  title : string;
  description : string;
  price : Z;
  address : string;
  city : string;
  country : string;
  images : list string;
  propertyType : string;
  bedrooms : option Z;
  owner : ObjectId;
  isAvailable : bool;
  views : Z;
  createdAt : Z
}.

(** models/Booking.js *)
Record Booking := mkBooking {
  booking_id : ObjectId;
  property : ObjectId;
  user : ObjectId;
  checkIn : Z;
  checkOut : Z;
  guests : Z;
  totalPrice : Z;
  status : string;
  paymentStatus : string;
  specialRequests : option string;
  cancellationReason : option string;
  cancelledAt : option Z
}.

Definition status_enum : list string :=
  ["pending"; "confirmed"; "cancelled"; "completed"].

Definition paymentStatus_enum : list string :=
  ["pending"; "paid"; "refunded"].

Definition propertyType_enum : list string :=
  ["apartment"; "house"; "villa"; "condo"; "studio"; "other"].

(** ** Responses, exceptions, the world *)

Definition FieldError := (string * string)%type.

Inductive Payload : Type :=
| NoData
| ErrorList (errors : list FieldError)
| BookingData (booking : option Booking)
| PropertyData (doc : Property)
| PropertyList (docs : list Property) (totalPages : option Z)
               (currentPage : Z) (total : Z).

(** [res.status(statusCode).json({ success, message, ... })] *)
Record Response := mkResponse {
  statusCode : Z;
  success : bool;
  message : option string;
  data : Payload
}.

Inductive Exn : Type :=
| HookError (msg : string)
| ValidationError (model : string) (errors : list FieldError)
| CastError (path : string)
| TypeError (msg : string)
| SyntaxError (msg : string)
| MongoError (msg : string)
| FsError (path : string).

Definition show_field_error (e : FieldError) : string :=
  fst e +:+ ": " +:+ snd e.

Fixpoint join_comma (l : list string) : string :=
  match l with
  | [] => ""
  | [x] => x
  | x :: rest => x +:+ ", " +:+ join_comma rest
  end.

(** [error.message] *)
Definition exn_message (e : Exn) : string :=
  match e with
  | HookError msg => msg
  | ValidationError model errors =>
      model +:+ " validation failed: " +:+ join_comma (map show_field_error errors)
  | CastError path => "Cast failed for path " +:+ path
  | TypeError msg => msg
  | SyntaxError msg => msg
  | MongoError msg => msg
  | FsError path => "unlink failed: " +:+ path
  end.

(** Operations issued against the document store, in the order issued *)
Inductive DbOp : Type :=
| Property_findById_op (id : ObjectId)
| Property_find_op
| Property_countDocuments_op
| Property_create_op
| Property_save_op (id : ObjectId)
| Property_findByIdAndDelete_op (id : ObjectId)
| Booking_findById_op (id : ObjectId)
| Booking_findOne_op
| Booking_create_op
| Booking_findByIdAndUpdate_op (id : ObjectId).

#[global] Instance DbOp_eq_dec : EqDecision DbOp.
Proof. solve_decision. Defined.

(** The state a handler runs in.  [disk] maps the path of every file
    that exists to whether [fs.unlinkSync] succeeds on it; [cloud] maps
    the public id of every hosted asset to whether
    [cloudinary.uploader.destroy] resolves for it. *)
Record World := mkWorld {
  properties : list Property;
  bookings : list Booking;
  disk : gmap string bool;
  cloud : gmap string bool;
  console : list string;
  dbLog : list DbOp;
  clock : Z;
  nextId : N
}.

Definition set_properties (ps : list Property) (w : World) : World :=
  mkWorld ps (bookings w) (disk w) (cloud w) (console w) (dbLog w) (clock w) (nextId w).

Definition set_bookings (bs : list Booking) (w : World) : World :=
  mkWorld (properties w) bs (disk w) (cloud w) (console w) (dbLog w) (clock w) (nextId w).

Definition set_disk (d : gmap string bool) (w : World) : World :=
  mkWorld (properties w) (bookings w) d (cloud w) (console w) (dbLog w) (clock w) (nextId w).

Definition set_cloud (c : gmap string bool) (w : World) : World :=
  mkWorld (properties w) (bookings w) (disk w) c (console w) (dbLog w) (clock w) (nextId w).

Definition set_console (c : list string) (w : World) : World :=
  mkWorld (properties w) (bookings w) (disk w) (cloud w) c (dbLog w) (clock w) (nextId w).

Definition set_dbLog (l : list DbOp) (w : World) : World :=
  mkWorld (properties w) (bookings w) (disk w) (cloud w) (console w) l (clock w) (nextId w).

Definition set_nextId (n : N) (w : World) : World :=
  mkWorld (properties w) (bookings w) (disk w) (cloud w) (console w) (dbLog w) (clock w) n.

(** ** The handler monad *)

Inductive Step (A : Type) : Type :=
| Next (a : A)
| Reply (r : Response)
| Raise (e : Exn).

Arguments Next {A} a.
Arguments Reply {A} r.
Arguments Raise {A} e.

Definition Handler (A : Type) : Type := World -> Step A * World.

Definition ret {A} (a : A) : Handler A := fun w => (Next a, w).

Definition bind {A B} (m : Handler A) (k : A -> Handler B) : Handler B :=
  fun w =>
    match m w with
    | (Next a, w') => k a w'
    | (Reply r, w') => (Reply r, w')
    | (Raise e, w') => (Raise e, w')
    end.

Notation "'let*' x ':=' m 'in' k" := (bind m (fun x => k))
  (at level 10, x name, m at level 100, k at level 200).

Notation "m ';;' k" := (bind m (fun _ => k))
  (at level 100, k at level 200, right associativity).

(** [return res.status(c).json(...)] *)
Definition reply {A} (r : Response) : Handler A := fun w => (Reply r, w).

(** [throw e] *)
Definition raise {A} (e : Exn) : Handler A := fun w => (Raise e, w).

Definition get_world : Handler World := fun w => (Next w, w).

Definition modify (f : World -> World) : Handler unit := fun w => (Next tt, f w).

(** [console.error(line, ...)] *)
Definition console_error (line : string) : Handler unit :=
  modify (fun w => set_console (console w ++ [line]) w).

Definition db_log (op : DbOp) : Handler unit :=
  modify (fun w => set_dbLog (dbLog w ++ [op]) w).

(** What the client sees: a response, or nothing when an exception
    escapes the handler's own [catch] block. *)
Inductive Outcome : Type :=
| Sent (r : Response)
| Unhandled (e : Exn).

(** [try { body } catch (error) { on_error(error) }] around a whole
    handler; every path of a body ends in a response or an exception. *)
Definition try_catch (body : Handler Empty_set)
    (on_error : Exn -> Handler Empty_set) (w : World) : Outcome * World :=
  match body w with
  | (Next x, _) => match x with end
  | (Reply r, w') => (Sent r, w')
  | (Raise e, w') =>
      match on_error e w' with
      | (Next x, _) => match x with end
      | (Reply r, w'') => (Sent r, w'')
      | (Raise e', w'') => (Unhandled e', w'')
      end
  end.

Definition json_error (code : Z) (msg : string) : Response :=
  mkResponse code false (Some msg) NoData.

(** ** Store primitives *)

Definition fresh_id (w : World) : ObjectId := "oid" +:+ pretty (nextId w).

Definition Property_findById (id : ObjectId) : Handler (option Property) :=
  db_log (Property_findById_op id) ;;
  let* w := get_world in
  ret (find (fun p => String.eqb (property_id p) id) (properties w)).

Definition Booking_findById (id : ObjectId) : Handler (option Booking) :=
  db_log (Booking_findById_op id) ;;
  let* w := get_world in
  ret (find (fun b => String.eqb (booking_id b) id) (bookings w)).

(** [Booking.findOne(query)]: the first document the query matches *)
Definition Booking_findOne (query : Booking -> bool) : Handler (option Booking) :=
  db_log Booking_findOne_op ;;
  let* w := get_world in
  ret (find query (bookings w)).

(** *** Booking schema *)

(** [bookingSchema.pre('validate', ...)] *)
Definition pre_validate (doc : Booking) : option Exn :=
  if checkOut doc <=? checkIn doc
  then Some (HookError "Check-out date must be after check-in date")
  else None.

Definition maxlength_ok (limit : nat) (o : option string) : bool :=
  match o with
  | Some s => (String.length s <=? limit)%nat
  | None => true
  end.

(** The validators declared on the paths of [bookingSchema] *)
Definition booking_validators (doc : Booking) : list FieldError :=
  (if guests doc <? 1 then [("guests", "At least one guest is required")] else []) ++
  (if totalPrice doc <? 0
   then [("totalPrice", "Path `totalPrice` is less than minimum allowed value (0).")]
   else []) ++
  (if mem_string (status doc) status_enum then []
   else [("status", "not a valid enum value for path `status`.")]) ++
  (if mem_string (paymentStatus doc) paymentStatus_enum then []
   else [("paymentStatus", "not a valid enum value for path `paymentStatus`.")]) ++
  (if maxlength_ok 500 (specialRequests doc) then []
   else [("specialRequests", "Special requests cannot be more than 500 characters")]) ++
  (if maxlength_ok 500 (cancellationReason doc) then []
   else [("cancellationReason", "Cancellation reason cannot be more than 500 characters")]).

(** The fields [routes/bookings.js] passes to [Booking.create] *)
Record BookingFields := mkBookingFields {
  f_property : ObjectId;
  f_user : ObjectId;
  f_checkIn : Z;
  f_checkOut : Z;
  f_guests : Z;
  f_totalPrice : Z;
  f_specialRequests : option string
}.

(** [new Booking(fields)]: the schema defaults fill [status] and
    [paymentStatus]. *)
Definition new_Booking (id : ObjectId) (f : BookingFields) : Booking :=
  mkBooking id (f_property f) (f_user f) (f_checkIn f) (f_checkOut f)
            (f_guests f) (f_totalPrice f) "pending" "pending"
            (f_specialRequests f) None None.

(** [Booking.create(fields)]: the [pre('validate')] hook, then the path
    validators, then the insert. *)
Definition Booking_create (f : BookingFields) : Handler Booking :=
  db_log Booking_create_op ;;
  let* w := get_world in
  let doc := new_Booking (fresh_id w) f in
  match pre_validate doc with
  | Some e => raise e
  | None =>
      match booking_validators doc with
      | [] =>
          modify (fun w => set_nextId (N.succ (nextId w))
                             (set_bookings (bookings w ++ [doc]) w)) ;;
          ret doc
      | errors => raise (ValidationError "Booking" errors)
      end
  end.

(** ** POST /api/bookings *)

(** The request body after JSON parsing.  [body_checkIn] is [Some t] for
    an ISO 8601 string denoting the instant [t] and [None] for anything
    else; [body_guests] is [Some n] for an integer and [None] for
    anything else; [body_property] is [None] when the key is missing. *)
Record BookingBody := mkBookingBody {
  body_property : option ObjectId;
  body_checkIn : option Z;
  body_checkOut : option Z;
  body_guests : option Z;
  body_specialRequests : option string
}.

(** The express-validator chain of the route *)
Definition validationResult (body : BookingBody) : list FieldError :=
  (match body_property body with
   | Some s => if String.eqb s "" then [("property", "Property ID is required")] else []
   | None => [("property", "Property ID is required")]
   end) ++
  (match body_checkIn body with
   | Some _ => []
   | None => [("checkIn", "Valid check-in date is required")]
   end) ++
  (match body_checkOut body with
   | Some _ => []
   | None => [("checkOut", "Valid check-out date is required")]
   end) ++
  (match body_guests body with
   | Some n => if 1 <=? n then [] else [("guests", "Number of guests must be at least 1")]
   | None => [("guests", "Number of guests must be at least 1")]
   end).

Definition isEmpty {A} (l : list A) : bool :=
  match l with
  | [] => true
  | _ => false
  end.

(** The filter of the conflict query:
    [{ property, status: {$in: ['pending','confirmed']},
       $or: [{ checkIn: {$lte: checkOutDate}, checkOut: {$gte: checkInDate} }] }] *)
Definition conflict_query (propertyId : ObjectId) (checkInDate checkOutDate : Z)
    (b : Booking) : bool :=
  String.eqb (property b) propertyId
  && mem_string (status b) ["pending"; "confirmed"]
  && ((checkIn b <=? checkOutDate) && (checkOut b >=? checkInDate)).

(** [Math.ceil(a / b)] for a positive [b] *)
Definition ceil_div (a b : Z) : Z := - ((- a) / b).

Definition MS_PER_DAY : Z := 1000 * 60 * 60 * 24.

(** The part of the handler after the availability check *)
Definition book_dates (requser : User) (prop : Property) (propertyId : ObjectId)
    (checkInDate checkOutDate guests : Z) (specialRequests : option string)
    : Handler Empty_set :=
  let* conflictingBooking :=
    Booking_findOne (conflict_query propertyId checkInDate checkOutDate) in
  match conflictingBooking with
  | Some _ => reply (json_error 400 "Property is already booked for selected dates")
  | None =>
      let days := ceil_div (checkOutDate - checkInDate) MS_PER_DAY in
      let totalPrice := price prop * days in
      let* booking :=
        Booking_create (mkBookingFields propertyId (user_id requser)
                          checkInDate checkOutDate guests totalPrice specialRequests) in
      let* populatedBooking := Booking_findById (booking_id booking) in
      reply (mkResponse 201 true (Some "Booking created successfully")
               (BookingData populatedBooking))
  end.

Definition post_booking_body (requser : User) (body : BookingBody) : Handler Empty_set :=
  let errors := validationResult body in
  if negb (isEmpty errors)
  then reply (mkResponse 400 false (Some "Validation failed") (ErrorList errors))
  else
    match body_property body, body_checkIn body, body_checkOut body, body_guests body with
    | Some propertyId, Some checkIn, Some checkOut, Some guests =>
        let* found := Property_findById propertyId in
        match found with
        | None => reply (json_error 404 "Property not found")
        | Some prop =>
            if negb (isAvailable prop)
            then reply (json_error 400 "Property is not available for booking")
            else book_dates requser prop propertyId checkIn checkOut guests
                   (body_specialRequests body)
        end
    | _, _, _, _ => raise (TypeError "unreachable: the validators passed")
    end.

Definition post_booking_catch (error : Exn) : Handler Empty_set :=
  console_error ("Create booking error: " +:+ exn_message error) ;;
  reply (json_error 500
           (if String.eqb (exn_message error) ""
            then "Server error while creating booking"
            else exn_message error)).

Definition post_booking (requser : User) (body : BookingBody) : World -> Outcome * World :=
  try_catch (post_booking_body requser body) post_booking_catch.

(** A booking that counts toward availability *)
Definition active (b : Booking) : Prop :=
  status b = "pending" \/ status b = "confirmed".

(** The fields the handler passes to [Booking.create] *)
Definition requested_fields (requser : User) (prop : Property) (propertyId : ObjectId)
    (c d g : Z) (sr : option string) : BookingFields :=
  mkBookingFields propertyId (user_id requser) c d g
    (price prop * ceil_div (d - c) MS_PER_DAY) sr.

(** ** PUT /api/bookings/:id *)

(** mongoose's cast of an update value to a [String] path.  [null],
    [Date] and object values never reach a string path from the handlers
    below; they are given as cast failures. *)
Definition cast_String (path : string) (v : JsVal) : Exn + string :=
  match v with
  | JStr s => inr s
  | JNum n => inr (pretty n)
  | JBool b => inr (if b then "true" else "false")
  | JNull | JDate _ | JObj => inl (CastError path)
  end.

Definition cast_Number (path : string) (v : JsVal) : Exn + Z :=
  match v with
  | JNum n => inr n
  | JBool b => inr (if b then 1 else 0)
  | JNull | JStr _ | JDate _ | JObj => inl (CastError path)
  end.

Definition cast_Date (path : string) (v : JsVal) : Exn + Z :=
  match v with
  | JDate t => inr t
  | JNum n => inr n
  | JNull | JBool _ | JStr _ | JObj => inl (CastError path)
  end.

Definition cast_ObjectId (path : string) (v : JsVal) : Exn + ObjectId :=
  match v with
  | JStr s => inr s
  | JNull | JBool _ | JNum _ | JDate _ | JObj => inl (CastError path)
  end.

Definition booking_paths : list string :=
  ["property"; "user"; "checkIn"; "checkOut"; "guests"; "totalPrice"; "status";
   "paymentStatus"; "specialRequests"; "cancellationReason"; "cancelledAt"].

(** Field updates of a booking document *)
Definition upd_property (x : ObjectId) (b : Booking) : Booking :=
  mkBooking (booking_id b) x (user b) (checkIn b) (checkOut b) (guests b)
            (totalPrice b) (status b) (paymentStatus b) (specialRequests b)
            (cancellationReason b) (cancelledAt b) .

Definition upd_user (x : ObjectId) (b : Booking) : Booking :=
  mkBooking (booking_id b) (property b) x (checkIn b) (checkOut b) (guests b)
            (totalPrice b) (status b) (paymentStatus b) (specialRequests b)
            (cancellationReason b) (cancelledAt b) .

Definition upd_checkIn (x : Z) (b : Booking) : Booking :=
  mkBooking (booking_id b) (property b) (user b) x (checkOut b) (guests b)
            (totalPrice b) (status b) (paymentStatus b) (specialRequests b)
            (cancellationReason b) (cancelledAt b) .

Definition upd_checkOut (x : Z) (b : Booking) : Booking :=
  mkBooking (booking_id b) (property b) (user b) (checkIn b) x (guests b)
            (totalPrice b) (status b) (paymentStatus b) (specialRequests b)
            (cancellationReason b) (cancelledAt b) .

Definition upd_guests (x : Z) (b : Booking) : Booking :=
  mkBooking (booking_id b) (property b) (user b) (checkIn b) (checkOut b) x
            (totalPrice b) (status b) (paymentStatus b) (specialRequests b)
            (cancellationReason b) (cancelledAt b) .

Definition upd_totalPrice (x : Z) (b : Booking) : Booking :=
  mkBooking (booking_id b) (property b) (user b) (checkIn b) (checkOut b) (guests b) x
            (status b) (paymentStatus b) (specialRequests b) (cancellationReason b)
            (cancelledAt b) .

Definition upd_status (x : string) (b : Booking) : Booking :=
  mkBooking (booking_id b) (property b) (user b) (checkIn b) (checkOut b) (guests b)
            (totalPrice b) x (paymentStatus b) (specialRequests b)
            (cancellationReason b) (cancelledAt b) .

Definition upd_paymentStatus (x : string) (b : Booking) : Booking :=
  mkBooking (booking_id b) (property b) (user b) (checkIn b) (checkOut b) (guests b)
            (totalPrice b) (status b) x (specialRequests b) (cancellationReason b)
            (cancelledAt b) .

Definition upd_specialRequests (x : option string) (b : Booking) : Booking :=
  mkBooking (booking_id b) (property b) (user b) (checkIn b) (checkOut b) (guests b)
            (totalPrice b) (status b) (paymentStatus b) x (cancellationReason b)
            (cancelledAt b) .

Definition upd_cancellationReason (x : option string) (b : Booking) : Booking :=
  mkBooking (booking_id b) (property b) (user b) (checkIn b) (checkOut b) (guests b)
            (totalPrice b) (status b) (paymentStatus b) (specialRequests b) x
            (cancelledAt b) .

Definition upd_cancelledAt (x : option Z) (b : Booking) : Booking :=
  mkBooking (booking_id b) (property b) (user b) (checkIn b) (checkOut b) (guests b)
            (totalPrice b) (status b) (paymentStatus b) (specialRequests b)
            (cancellationReason b) x.

(** The cast of an update value and the assignment to the field *)
Definition assign {A} (cast : string -> JsVal -> Exn + A) (upd : A -> Booking -> Booking)
    (path : string) (v : JsVal) (b : Booking) : Exn + Booking :=
  match cast path v with
  | inr x => inr (upd x b)
  | inl e => inl e
  end.

(** [$set] of one schema path of a booking; a key that is not a path of
    the schema is dropped (strict mode). *)
Definition set_path (path : string) (v : JsVal) (b : Booking) : Exn + Booking :=
  if String.eqb path "property" then assign cast_ObjectId upd_property path v b
  else if String.eqb path "user" then assign cast_ObjectId upd_user path v b
  else if String.eqb path "checkIn" then assign cast_Date upd_checkIn path v b
  else if String.eqb path "checkOut" then assign cast_Date upd_checkOut path v b
  else if String.eqb path "guests" then assign cast_Number upd_guests path v b
  else if String.eqb path "totalPrice" then assign cast_Number upd_totalPrice path v b
  else if String.eqb path "status" then assign cast_String upd_status path v b
  else if String.eqb path "paymentStatus" then assign cast_String upd_paymentStatus path v b
  else if String.eqb path "specialRequests" then
    assign cast_String (fun x => upd_specialRequests (Some x)) path v b
  else if String.eqb path "cancellationReason" then
    assign cast_String (fun x => upd_cancellationReason (Some x)) path v b
  else if String.eqb path "cancelledAt" then
    assign cast_Date (fun x => upd_cancelledAt (Some x)) path v b
  else inr b.

(** The update document applied path by path *)
Fixpoint apply_update (paths : list string) (updateData : gmap string JsVal)
    (b : Booking) : Exn + Booking :=
  match paths with
  | [] => inr b
  | path :: rest =>
      match updateData !! path with
      | None => apply_update rest updateData b
      | Some v =>
          match set_path path v b with
          | inr b' => apply_update rest updateData b'
          | inl e => inl e
          end
      end
  end.

(** [runValidators: true]: the validators of the paths the update sets *)
Definition update_validators (updateData : gmap string JsVal) (doc : Booking)
    : list FieldError :=
  filter (fun e => is_Some (updateData !! fst e)) (booking_validators doc).

Fixpoint replace_first (id : ObjectId) (doc : Booking) (l : list Booking) : list Booking :=
  match l with
  | [] => []
  | b :: rest =>
      if String.eqb (booking_id b) id then doc :: rest
      else b :: replace_first id doc rest
  end.

(** [Booking.findByIdAndUpdate(id, updateData, { new: true, runValidators: true })] *)
Definition Booking_findByIdAndUpdate (id : ObjectId) (updateData : gmap string JsVal)
    : Handler (option Booking) :=
  db_log (Booking_findByIdAndUpdate_op id) ;;
  let* w := get_world in
  match find (fun b => String.eqb (booking_id b) id) (bookings w) with
  | None => ret None
  | Some old =>
      match apply_update booking_paths updateData old with
      | inl e => raise e
      | inr doc =>
          match update_validators updateData doc with
          | [] =>
              modify (fun w => set_bookings (replace_first id doc (bookings w)) w) ;;
              ret (Some doc)
          | errors => raise (ValidationError "Booking" errors)
          end
      end
  end.

(** The [updateData] object the handler fills in *)
Definition build_updateData (body : gmap string JsVal) (isPropertyOwner isAdmin : bool)
    (now : Z) : gmap string JsVal :=
  let updateData : gmap string JsVal := ∅ in
  let updateData :=
    if truthy_field (body !! "status") then
      let updateData := <["status" := default JNull (body !! "status")]> updateData in
      if strict_eq_str (default JNull (body !! "status")) "cancelled" then
        let updateData := <["cancelledAt" := JDate now]> updateData in
        if truthy_field (body !! "cancellationReason")
        then <["cancellationReason" := default JNull (body !! "cancellationReason")]> updateData
        else updateData
      else updateData
    else updateData in
  if truthy_field (body !! "paymentStatus") && (isPropertyOwner || isAdmin)
  then <["paymentStatus" := default JNull (body !! "paymentStatus")]> updateData
  else updateData.

(** [Booking.findById(id).populate('property')] *)
Definition Booking_findById_populate (id : ObjectId)
    : Handler (option (Booking * option Property)) :=
  let* found := Booking_findById id in
  match found with
  | None => ret None
  | Some booking =>
      let* prop := Property_findById (property booking) in
      ret (Some (booking, prop))
  end.

Definition put_booking_body (requser : User) (id : ObjectId) (body : gmap string JsVal)
    : Handler Empty_set :=
  let* found := Booking_findById_populate id in
  match found with
  | None => reply (json_error 404 "Booking not found")
  | Some (booking, populated) =>
      let isOwner := String.eqb (user booking) (user_id requser) in
      match populated with
      | None => raise (TypeError "Cannot read properties of null (reading 'owner')")
      | Some prop =>
          let isPropertyOwner := String.eqb (owner prop) (user_id requser) in
          let isAdmin := String.eqb (role requser) "admin" in
          if negb isOwner && negb isPropertyOwner && negb isAdmin
          then reply (json_error 403 "Not authorized to update this booking")
          else
            let* w := get_world in
            let updateData := build_updateData body isPropertyOwner isAdmin (clock w) in
            let* updatedBooking := Booking_findByIdAndUpdate id updateData in
            reply (mkResponse 200 true (Some "Booking updated successfully")
                     (BookingData updatedBooking))
      end
  end.

Definition put_booking_catch (error : Exn) : Handler Empty_set :=
  console_error ("Update booking error: " +:+ exn_message error) ;;
  reply (json_error 500 "Server error while updating booking").

Definition put_booking (requser : User) (id : ObjectId) (body : gmap string JsVal)
    : World -> Outcome * World :=
  try_catch (put_booking_body requser id body) put_booking_catch.

(** ** config/cloudinary.js *)

(** [process.env.NAME]: a missing or empty variable is falsy *)
Definition env_set (env : gmap string string) (name : string) : bool :=
  match env !! name with
  | Some s => negb (String.eqb s "")
  | None => false
  end.

Definition env_is (env : gmap string string) (name value : string) : bool :=
  match env !! name with
  | Some s => String.eqb s value
  | None => false
  end.

Definition isCloudinaryConfigured (env : gmap string string) : bool :=
  env_set env "CLOUDINARY_CLOUD_NAME"
  && env_set env "CLOUDINARY_API_KEY"
  && env_set env "CLOUDINARY_API_SECRET"
  && negb (env_is env "CLOUDINARY_CLOUD_NAME" "your_cloud_name")
  && negb (env_is env "CLOUDINARY_API_KEY" "your_api_key")
  && negb (env_is env "CLOUDINARY_API_SECRET" "your_api_secret").

(** ** The asset store *)

(** The functions of the runtime and of the store that the routes call
    and that this development does not define: [Number(s)] on a string
    ([None] is [NaN]), the [$text] search of the store, the
    case-insensitive test of [new RegExp(src, 'i')] ([None] when the
    constructor throws), and [path.join(__dirname, '..', p)]. *)
Class Platform := {
  ToNumber : string -> option Z;
  text_search : string -> Property -> bool;
  RegExp_i : string -> option (string -> bool);
  path_join : string -> string
}.

(** An uploaded file as multer leaves it in [req.files] *)
Record File := mkFile {
  file_filename : string;
  file_path : string
}.

Fixpoint forEach {A} (l : list A) (f : A -> Handler unit) : Handler unit :=
  match l with
  | [] => ret tt
  | x :: rest => f x ;; forEach rest f
  end.

(** [cloudinary.uploader.destroy(id).catch(err => console.error(...))]:
    the rejection is logged and goes no further.  The call is not
    awaited; its effect is taken at the point of the call. *)
Definition cloudinary_destroy (publicId : string) : Handler unit :=
  let* w := get_world in
  match cloud w !! publicId with
  | Some true => modify (fun w => set_cloud (delete publicId (cloud w)) w)
  | Some false => console_error ("Error deleting from Cloudinary: " +:+ publicId)
  | None => ret tt
  end.

Definition fs_existsSync (p : string) : Handler bool :=
  let* w := get_world in
  ret (bool_decide (is_Some (disk w !! p))).

Definition fs_unlinkSync (p : string) : Handler unit :=
  let* w := get_world in
  match disk w !! p with
  | Some true => modify (fun w => set_disk (delete p (disk w)) w)
  | Some false => raise (FsError p)
  | None => raise (FsError p)
  end.

(** [if (fs.existsSync(p)) { fs.unlinkSync(p); }] *)
Definition unlink_if_present (p : string) : Handler unit :=
  let* present := fs_existsSync p in
  if present then fs_unlinkSync p else ret tt.

(** The block that deletes the files of the request, as it stands in
    every failure path of routes/properties.js *)
Definition delete_uploaded (USE_CLOUDINARY : bool) (files : list File) : Handler unit :=
  if negb (isEmpty files) then
    if USE_CLOUDINARY then
      forEach files (fun file =>
        if negb (String.eqb (file_filename file) "")
        then cloudinary_destroy (file_filename file)
        else ret tt)
    else
      forEach files (fun file => unlink_if_present (file_path file))
  else ret tt.

(** ** Property schema *)

Definition is_whitespace (c : ascii) : bool :=
  let n := nat_of_ascii c in
  ((9 <=? n) && (n <=? 13) || (n =? 32))%nat.

(** [s.trim() === ''] *)
Definition is_blank (s : string) : bool :=
  forallb is_whitespace (list_ascii_of_string s).

Fixpoint drop_space (l : list ascii) : list ascii :=
  match l with
  | [] => []
  | c :: rest => if is_whitespace c then drop_space rest else l
  end.

(** [s.trim()] *)
Definition trim (s : string) : string :=
  string_of_list_ascii (rev (drop_space (rev (drop_space (list_ascii_of_string s))))).

Definition required_string (path msg : string) (s : string) : list FieldError :=
  if String.eqb s "" then [(path, msg)] else [].

(** The validators declared on the paths of [propertySchema] *)
Definition property_validators (doc : Property) : list FieldError :=
  required_string "title" "Title is required" (title doc) ++
  (if (String.length (title doc) <=? 100)%nat then []
   else [("title", "Title cannot be more than 100 characters")]) ++
  required_string "description" "Description is required" (description doc) ++
  (if (String.length (description doc) <=? 1000)%nat then []
   else [("description", "Description cannot be more than 1000 characters")]) ++
  (if price doc <? 0 then [("price", "Price cannot be negative")] else []) ++
  required_string "location.address" "Address is required" (address doc) ++
  required_string "location.city" "City is required" (city doc) ++
  required_string "location.country" "Country is required" (country doc) ++
  (if forallb (fun i => negb (String.eqb i "")) (images doc) then []
   else [("images", "Path `images` is required.")]) ++
  (if mem_string (propertyType doc) propertyType_enum then []
   else [("propertyType", "not a valid enum value for path `propertyType`.")]) ++
  (match bedrooms doc with
   | Some n => if n <? 0
               then [("bedrooms", "Path `bedrooms` is less than minimum allowed value (0).")]
               else []
   | None => []
   end).

(** The [location] object of the submitted data *)
Record LocationInput := mkLocationInput {
  in_address : option JsVal;
  in_city : option JsVal;
  in_country : option JsVal
}.

(** The object [JSON.parse(req.body.data || '{}')] gives; [in_location]
    is [None] when the key is missing or does not hold an object. *)
Record PropertyInput := mkPropertyInput {
  in_title : option JsVal;
  in_description : option JsVal;
  in_price : option JsVal;
  in_location : option LocationInput;
  in_images : list string;
  in_propertyType : option JsVal;
  in_bedrooms : option JsVal;
  in_isAvailable : option bool;
  in_views : option JsVal
}.

Definition cast_opt {A} (cast : string -> JsVal -> Exn + A) (path : string)
    (o : option JsVal) (dflt : A) : Exn + A :=
  match o with
  | Some v => cast path v
  | None => inr dflt
  end.

(** The cast of a submitted price to the [Number] path *)
Definition cast_price `{Platform} (v : JsVal) : Exn + Z :=
  match v with
  | JStr s =>
      match ToNumber s with
      | Some n => inr n
      | None => inl (CastError "price")
      end
  | _ => cast_Number "price" v
  end.

Definition location_field (f : LocationInput -> option JsVal)
    (loc : option LocationInput) : option JsVal :=
  match loc with
  | Some l => f l
  | None => None
  end.

(** [new Property(propertyData)] with the schema's casts and defaults *)
Definition new_Property `{Platform} (id owner : ObjectId) (imgs : list string) (now : Z)
    (d : PropertyInput) : Exn + Property :=
  match cast_opt cast_String "title" (in_title d) "",
        cast_opt cast_String "description" (in_description d) "",
        cast_opt (fun _ => cast_price) "price" (in_price d) 0,
        cast_opt cast_String "location.address" (location_field in_address (in_location d)) "",
        cast_opt cast_String "location.city" (location_field in_city (in_location d)) "",
        cast_opt cast_String "location.country" (location_field in_country (in_location d)) "",
        cast_opt cast_String "propertyType" (in_propertyType d) "apartment",
        cast_opt cast_Number "views" (in_views d) 0 with
  | inr t, inr ds, inr pr, inr ad, inr ci, inr co, inr ty, inr vw =>
      match in_bedrooms d with
      | None =>
          inr (mkProperty id (trim t) ds pr ad ci co imgs ty None owner
                 (default true (in_isAvailable d)) vw now)
      | Some v =>
          match cast_Number "bedrooms" v with
          | inr n => inr (mkProperty id (trim t) ds pr ad ci co imgs ty (Some n) owner
                            (default true (in_isAvailable d)) vw now)
          | inl e => inl e
          end
      end
  | inl e, _, _, _, _, _, _, _ => inl e
  | _, inl e, _, _, _, _, _, _ => inl e
  | _, _, inl e, _, _, _, _, _ => inl e
  | _, _, _, inl e, _, _, _, _ => inl e
  | _, _, _, _, inl e, _, _, _ => inl e
  | _, _, _, _, _, inl e, _, _ => inl e
  | _, _, _, _, _, _, inl e, _ => inl e
  | _, _, _, _, _, _, _, inl e => inl e
  end.

(** [Property.create(propertyData)] *)
Definition Property_create `{Platform} (owner : ObjectId) (imgs : list string)
    (d : PropertyInput) : Handler Property :=
  db_log Property_create_op ;;
  let* w := get_world in
  match new_Property (fresh_id w) owner imgs (clock w) d with
  | inl e => raise e
  | inr doc =>
      match property_validators doc with
      | [] =>
          modify (fun w => set_nextId (N.succ (nextId w))
                             (set_properties (properties w ++ [doc]) w)) ;;
          ret doc
      | errors => raise (ValidationError "Property" errors)
      end
  end.

Fixpoint replace_property (id : ObjectId) (doc : Property) (l : list Property)
    : list Property :=
  match l with
  | [] => []
  | p :: rest =>
      if String.eqb (property_id p) id then doc :: rest
      else p :: replace_property id doc rest
  end.


Fixpoint remove_property (id : ObjectId) (l : list Property) : list Property :=
  match l with
  | [] => []
  | p :: rest =>
      if String.eqb (property_id p) id then rest
      else p :: remove_property id rest
  end.

Definition Property_findByIdAndDelete (id : ObjectId) : Handler unit :=
  db_log (Property_findByIdAndDelete_op id) ;;
  modify (fun w => set_properties (remove_property id (properties w)) w).

(** ** GET /api/properties/:id *)





(** ** POST /api/properties *)

(** [req.body.data] after [JSON.parse(req.body.data || '{}')]:
    [Malformed] when the parse throws, [Parsed] otherwise (a missing
    field parses as the empty object). *)
Inductive DataField : Type :=
| Malformed
| Parsed (propertyData : PropertyInput).

(** [isNaN(v)] *)
Definition isNaN `{Platform} (v : JsVal) : bool :=
  match v with
  | JStr s =>
      match ToNumber s with
      | Some _ => false
      | None => true
      end
  | JObj => true
  | JNull | JBool _ | JNum _ | JDate _ => false
  end.

(** A step that can throw, and the steps after it *)
Definition and_then {A B} (r : Exn + A) (k : A -> Exn + B) : Exn + B :=
  match r with
  | inr a => k a
  | inl e => inl e
  end.

(** The outcome of a computation without effects, inside a handler *)
Definition lift {A} (r : Exn + A) : Handler A :=
  match r with
  | inr a => ret a
  | inl e => raise e
  end.

(** [if (!v || v.trim() === '') errors.push({ field, message })]: a
    truthy value that is not a string has no [trim] method. *)
Definition check_text (field msg : string) (v : option JsVal) : Exn + list FieldError :=
  if negb (truthy_field v) then inr [(field, msg)]
  else
    match v with
    | Some (JStr s) => inr (if is_blank s then [(field, msg)] else [])
    | _ => inl (TypeError "trim is not a function")
    end.

(** [if (!propertyData.price || isNaN(propertyData.price)) errors.push(...)] *)
Definition check_price `{Platform} (v : option JsVal) : list FieldError :=
  if negb (truthy_field v) || from_option isNaN true v
  then [("price", "Price must be a valid number")]
  else [].

(** The manual validation of the handler: the [errors] array, or the
    exception of the first check that throws *)
Definition manual_validation `{Platform} (d : PropertyInput) : Exn + list FieldError :=
  and_then (check_text "title" "Title is required" (in_title d)) (fun e_title =>
  and_then (check_text "description" "Description is required" (in_description d))
    (fun e_description =>
  let e_price := check_price (in_price d) in
  and_then (check_text "location.address" "Address is required"
              (location_field in_address (in_location d))) (fun e_address =>
  and_then (check_text "location.city" "City is required"
              (location_field in_city (in_location d))) (fun e_city =>
  and_then (check_text "location.country" "Country is required"
              (location_field in_country (in_location d))) (fun e_country =>
  inr (e_title ++ e_description ++ e_price ++ e_address ++ e_city ++ e_country)))))).

Definition uploaded_images (USE_CLOUDINARY : bool) (files : list File) : list string :=
  if USE_CLOUDINARY then map file_path files
  else map (fun file => "/uploads/properties/" +:+ file_filename file) files.

Definition post_property_body `{Platform} (USE_CLOUDINARY : bool) (requser : User)
    (files : list File) (data : DataField) : Handler Empty_set :=
  match data with
  | Malformed => raise (SyntaxError "Unexpected token in JSON")
  | Parsed propertyData =>
      let* errors := lift (manual_validation propertyData) in
      if negb (isEmpty errors) then
        delete_uploaded USE_CLOUDINARY files ;;
        reply (mkResponse 400 false (Some "Validation failed") (ErrorList errors))
      else
        let imgs := if negb (isEmpty files) then uploaded_images USE_CLOUDINARY files
                    else in_images propertyData in
        let* prop := Property_create (user_id requser) imgs propertyData in
        reply (mkResponse 201 true (Some "Property created successfully")
                 (PropertyData prop))
  end.

Definition post_property_catch (USE_CLOUDINARY : bool) (files : list File) (error : Exn)
    : Handler Empty_set :=
  console_error ("Create property error: " +:+ exn_message error) ;;
  delete_uploaded USE_CLOUDINARY files ;;
  reply (json_error 500 "Server error while creating property").

Definition post_property `{Platform} (USE_CLOUDINARY : bool) (requser : User)
    (files : list File) (data : DataField) : World -> Outcome * World :=
  try_catch (post_property_body USE_CLOUDINARY requser files data)
            (post_property_catch USE_CLOUDINARY files).

(** ** DELETE /api/properties/:id *)

Definition folder_prefix : string := "/property-rental/properties/".

(** The longest prefix matching [[^/.]+] *)
Fixpoint segment (s : string) : string :=
  match s with
  | EmptyString => EmptyString
  | String c rest =>
      if Ascii.eqb c "/" || Ascii.eqb c "."
      then EmptyString
      else String c (segment rest)
  end.

Fixpoint string_drop (n : nat) (s : string) : string :=
  match n, s with
  | O, _ => s
  | S n', String _ rest => string_drop n' rest
  | S _, EmptyString => EmptyString
  end.

(** [imageUrl.match(/\/property-rental\/properties\/([^/.]+)/)], giving
    the captured group of the leftmost match *)
Fixpoint match_public_id (imageUrl : string) : option string :=
  let here :=
    if String.prefix folder_prefix imageUrl
    then segment (string_drop (String.length folder_prefix) imageUrl)
    else EmptyString in
  if negb (String.eqb here "") then Some here
  else
    match imageUrl with
    | EmptyString => None
    | String _ rest => match_public_id rest
    end.

Definition delete_images `{Platform} (USE_CLOUDINARY : bool) (imgs : list string)
    : Handler unit :=
  if negb (isEmpty imgs) then
    if USE_CLOUDINARY then
      forEach imgs (fun imageUrl =>
        match match_public_id imageUrl with
        | Some m => cloudinary_destroy ("property-rental/properties/" +:+ m)
        | None => ret tt
        end)
    else
      forEach imgs (fun imagePath =>
        let fullPath := path_join imagePath in
        unlink_if_present fullPath)
  else ret tt.

Definition delete_property_body `{Platform} (USE_CLOUDINARY : bool) (requser : User)
    (id : ObjectId) : Handler Empty_set :=
  let* found := Property_findById id in
  match found with
  | None => reply (json_error 404 "Property not found")
  | Some prop =>
      if negb (String.eqb (owner prop) (user_id requser))
         && negb (String.eqb (role requser) "admin")
      then reply (json_error 403 "Not authorized to delete this property")
      else
        delete_images USE_CLOUDINARY (images prop) ;;
        Property_findByIdAndDelete id ;;
        reply (mkResponse 200 true (Some "Property deleted successfully") NoData)
  end.

Definition delete_property_catch (error : Exn) : Handler Empty_set :=
  console_error ("Delete property error: " +:+ exn_message error) ;;
  reply (json_error 500 "Server error while deleting property").

Definition delete_property `{Platform} (USE_CLOUDINARY : bool) (requser : User)
    (id : ObjectId) : World -> Outcome * World :=
  try_catch (delete_property_body USE_CLOUDINARY requser id) delete_property_catch.

(** ** GET /api/properties *)

(** [req.query]: [q_page] and [q_limit] hold the integer a numeric
    parameter denotes, the other parameters are the strings received. *)
Record ListQuery := mkListQuery {
  q_page : option Z;
  q_limit : option Z;
  q_search : option string;
  q_city : option string;
  q_minPrice : option string;
  q_maxPrice : option string;
  q_propertyType : option string;
  q_bedrooms : option string;
  q_isAvailable : option string;
  q_sortBy : option string;
  q_order : option string
}.

(** [if (param)] on a query-string parameter *)
Definition given (o : option string) : bool :=
  match o with
  | Some s => negb (String.eqb s "")
  | None => false
  end.

(** The [query] object the handler fills in; a numeric bound is
    [Some None] when [Number(...)] gave [NaN]. *)
Record PropertyQuery := mkPropertyQuery {
  query_text : option string;
  query_city : option (string -> bool);
  query_price_gte : option (option Z);
  query_price_lte : option (option Z);
  query_propertyType : option string;
  query_bedrooms : option (option Z);
  query_isAvailable : option bool
}.

Definition empty_query : PropertyQuery :=
  mkPropertyQuery None None None None None None None.

Definition build_query `{Platform} (q : ListQuery) : Exn + PropertyQuery :=
  let text := if given (q_search q) then q_search q else None in
  let price_on := given (q_minPrice q) || given (q_maxPrice q) in
  let gte := if price_on && given (q_minPrice q)
             then Some (ToNumber (default "" (q_minPrice q))) else None in
  let lte := if price_on && given (q_maxPrice q)
             then Some (ToNumber (default "" (q_maxPrice q))) else None in
  let ptype := if given (q_propertyType q) then q_propertyType q else None in
  let beds := if given (q_bedrooms q)
              then Some (ToNumber (default "" (q_bedrooms q))) else None in
  let avail := match q_isAvailable q with
               | Some s => Some (String.eqb s "true")
               | None => None
               end in
  if given (q_city q) then
    match RegExp_i (default "" (q_city q)) with
    | Some re => inr (mkPropertyQuery text (Some re) gte lte ptype beds avail)
    | None => inl (SyntaxError "Invalid regular expression")
    end
  else inr (mkPropertyQuery text None gte lte ptype beds avail).

(** A bound that is [NaN] does not cast to the [Number] path. *)
Definition query_casts (query : PropertyQuery) : bool :=
  negb (bool_decide (query_price_gte query = Some None))
  && negb (bool_decide (query_price_lte query = Some None))
  && negb (bool_decide (query_bedrooms query = Some None)).

Definition opt_test {A} (o : option A) (test : A -> bool) : bool :=
  match o with
  | Some a => test a
  | None => true
  end.

Definition matches `{Platform} (query : PropertyQuery) (p : Property) : bool :=
  opt_test (query_text query) (fun s => text_search s p)
  && opt_test (query_city query) (fun re => re (city p))
  && opt_test (query_price_gte query) (fun b => opt_test b (fun n => n <=? price p))
  && opt_test (query_price_lte query) (fun b => opt_test b (fun n => price p <=? n))
  && opt_test (query_propertyType query) (fun s => String.eqb (propertyType p) s)
  && opt_test (query_bedrooms query)
       (fun b => opt_test b (fun n => bool_decide (bedrooms p = Some n)))
  && opt_test (query_isAvailable query) (fun b => Bool.eqb (isAvailable p) b).

(** The value a sort reads at a path, ordered as the store orders
    values of different types *)
Inductive Bson : Type :=
| BNull
| BNumber (n : Z)
| BString (s : string)
| BBool (b : bool)
| BDate (t : Z).

Definition field_value (path : string) (p : Property) : Bson :=
  if String.eqb path "createdAt" then BDate (createdAt p)
  else if String.eqb path "price" then BNumber (price p)
  else if String.eqb path "views" then BNumber (views p)
  else if String.eqb path "bedrooms" then
    match bedrooms p with
    | Some n => BNumber n
    | None => BNull
    end
  else if String.eqb path "title" then BString (title p)
  else if String.eqb path "description" then BString (description p)
  else if String.eqb path "location.address" then BString (address p)
  else if String.eqb path "location.city" then BString (city p)
  else if String.eqb path "location.country" then BString (country p)
  else if String.eqb path "propertyType" then BString (propertyType p)
  else if String.eqb path "isAvailable" then BBool (isAvailable p)
  else BNull.

Definition bson_rank (v : Bson) : Z :=
  match v with
  | BNull => 0
  | BNumber _ => 1
  | BString _ => 2
  | BBool _ => 3
  | BDate _ => 4
  end.

Definition bson_leb (a b : Bson) : bool :=
  match a, b with
  | BNumber x, BNumber y => x <=? y
  | BString x, BString y => String.leb x y
  | BBool x, BBool y => implb x y
  | BDate x, BDate y => x <=? y
  | _, _ => bson_rank a <=? bson_rank b
  end.

(** [sortOptions[sortBy] = direction]: ascending for [1], descending
    for [-1] *)
Definition sort_rel (sortBy : string) (direction : Z) : relation Property :=
  fun p q =>
    if direction =? -1
    then Is_true (bson_leb (field_value sortBy q) (field_value sortBy p))
    else Is_true (bson_leb (field_value sortBy p) (field_value sortBy q)).

#[global] Instance sort_rel_dec sortBy direction p q :
  Decision (sort_rel sortBy direction p q).
Proof. unfold sort_rel. destruct (direction =? -1); apply _. Defined.

(** [.limit(n)]: zero is no limit, a negative [n] limits to [-n] *)
Definition limit_docs {A} (n : Z) (l : list A) : list A :=
  if n =? 0 then l else take (Z.to_nat (Z.abs n)) l.

(** [Property.find(query).sort(sortOptions).limit(n).skip(k).exec()] *)
Definition Property_find `{Platform} (query : PropertyQuery) (sortBy : string)
    (direction : Z) (n k : Z) : Handler (list Property) :=
  db_log Property_find_op ;;
  let* w := get_world in
  if negb (query_casts query) then raise (CastError "query")
  else if k <? 0 then raise (MongoError "skip value must be non-negative")
  else ret (limit_docs n (drop (Z.to_nat k)
              (merge_sort (sort_rel sortBy direction)
                 (filter (fun p => Is_true (matches query p)) (properties w))))).

Definition Property_countDocuments `{Platform} (query : PropertyQuery) : Handler Z :=
  db_log Property_countDocuments_op ;;
  let* w := get_world in
  if negb (query_casts query) then raise (CastError "query")
  else ret (Z.of_nat (length (filter (fun p => Is_true (matches query p)) (properties w)))).

(** [Math.ceil(count / limit)]; the quotient by zero is not a finite
    number and is serialised as [null]. *)
Definition total_pages (count limit : Z) : option Z :=
  if limit =? 0 then None else Some (ceil_div count limit).

Definition get_properties_body `{Platform} (q : ListQuery) : Handler Empty_set :=
  let page := default 1 (q_page q) in
  let limit := default 10 (q_limit q) in
  let sortBy := default "createdAt" (q_sortBy q) in
  let order := default "desc" (q_order q) in
  match build_query q with
  | inl e => raise e
  | inr query =>
      let direction := if String.eqb order "desc" then -1 else 1 in
      let* docs := Property_find query sortBy direction (limit * 1) ((page - 1) * limit) in
      let* count := Property_countDocuments query in
      reply (mkResponse 200 true None
               (PropertyList docs (total_pages count limit) page count))
  end.

Definition get_properties_catch (error : Exn) : Handler Empty_set :=
  console_error ("Get properties error: " +:+ exn_message error) ;;
  reply (json_error 500 "Server error while fetching properties").

Definition get_properties `{Platform} (q : ListQuery) : World -> Outcome * World :=
  try_catch (get_properties_body q) get_properties_catch.

(** ** When the schema accepts the handler's update *)

(** A supplied value goes through the cast of its path and then through
    the validators of the path ([enum], [maxlength]). *)
Definition accepted_value (path : string) (ok : string -> bool) (v : JsVal) : bool :=
  match cast_String path v with
  | inr s => ok s
  | inl _ => false
  end.

Definition update_accepted (body : gmap string JsVal) (isPropertyOwner isAdmin : bool)
    : bool :=
  let status := default JNull (body !! "status") in
  (if truthy_field (body !! "status")
   then accepted_value "status" (fun s => mem_string s status_enum) status
   else true)
  && (if truthy_field (body !! "paymentStatus") && (isPropertyOwner || isAdmin)
      then accepted_value "paymentStatus" (fun s => mem_string s paymentStatus_enum)
             (default JNull (body !! "paymentStatus"))
      else true)
  && (if truthy_field (body !! "status") && strict_eq_str status "cancelled"
         && truthy_field (body !! "cancellationReason")
      then accepted_value "cancellationReason"
             (fun s => (String.length s <=? 500)%nat)
             (default JNull (body !! "cancellationReason"))
      else true).

(** ** Sample data *)

Definition alice : User := mkUser "alice" "user".
Definition bob : User := mkUser "bob" "user".
Definition olivia : User := mkUser "olivia" "user".
Definition root : User := mkUser "root" "admin".

(** Midnight UTC of a day of January 2024; 1704067200000 is
    2024-01-01T00:00:00.000Z. *)
Definition jan_2024 (day : Z) : Z := 1704067200000 + (day - 1) * MS_PER_DAY.

(** A listing of [olivia] at 100 a night *)
Definition flat : Property :=
  mkProperty "p1" "Flat" "Two rooms" 100 "1 Main St" "Paris" "France" []
             "apartment" (Some 2) "olivia" true 0 (jan_2024 1).

(** [alice]'s pending booking of [flat] for 1 to 5 January *)
Definition stay_alice : Booking :=
  mkBooking "b1" "p1" "alice" (jan_2024 1) (jan_2024 5) 2 400 "pending" "pending"
            None None None.


Definition world_booked : World :=
  mkWorld [flat] [stay_alice] ∅ ∅ [] [] (jan_2024 20) 0.

Definition request_dates (c d : Z) : BookingBody :=
  mkBookingBody (Some "p1") (Some c) (Some d) (Some 2) None.

Definition body_confirm_paid : gmap string JsVal :=
  {[ "status" := JStr "confirmed"; "paymentStatus" := JStr "paid" ]}.

Definition body_cancel : gmap string JsVal :=
  {[ "status" := JStr "cancelled"; "cancellationReason" := JStr "change of plans" ]}.



(** No filter parameter in the query string *)
Definition no_filters (q : ListQuery) : Prop :=
  q_search q = None /\ q_city q = None /\ q_minPrice q = None /\ q_maxPrice q = None /\
  q_propertyType q = None /\ q_bedrooms q = None /\ q_isAvailable q = None.

(** Creation time descending *)
Definition newest_first : relation Property :=
  fun a b => createdAt b <= createdAt a.

(** A platform for the sample runs: no string is numeric, nothing
    matches a text search, every pattern is rejected, and the
    application lives in [/srv/app]. *)
Definition sample_platform : Platform :=
  {| ToNumber := fun _ => None;
     text_search := fun _ _ => false;
     RegExp_i := fun _ => None;
     path_join := fun p => "/srv/app" +:+ p |}.

Definition loft : Property :=
  mkProperty "p2" "Loft" "Under the roof" 80 "2 Side St" "Lyon" "France" []
             "studio" (Some 1) "olivia" true 0 (jan_2024 10).

Definition world_two : World :=
  mkWorld [flat; loft] [] ∅ ∅ [] [] (jan_2024 20) 0.

Definition plain_listing : ListQuery :=
  mkListQuery None None None None None None None None None None None.

(** A listing whose picture is a local file that cannot be unlinked *)
Definition cottage : Property :=
  mkProperty "p3" "Cottage" "By the lake" 120 "3 Shore Rd" "Annecy" "France"
             ["/uploads/properties/property-1.jpg"]
             "house" (Some 3) "olivia" true 0 (jan_2024 12).

Definition world_locked_file : World :=
  mkWorld [cottage] [] {[ "/srv/app/uploads/properties/property-1.jpg" := false ]} ∅
          [] [] (jan_2024 20) 0.

(** A listing whose picture is a hosted asset the host refuses to
    destroy *)
Definition villa : Property :=
  mkProperty "p4" "Villa" "With a pool" 300 "4 Hill Rd" "Nice" "France"
             ["https://res.cloudinary.com/demo/image/upload/v1/property-rental/properties/abc.jpg"]
             "villa" (Some 5) "olivia" true 0 (jan_2024 13).

Definition world_host_down : World :=
  mkWorld [villa] [] ∅ {[ "property-rental/properties/abc" := false ]}
          [] [] (jan_2024 20) 0.




(** A picture uploaded to the local disk *)
Definition upload_local : File :=
  mkFile "property-9.jpg" "/srv/app/uploads/properties/property-9.jpg".

Definition world_upload_local : World :=
  mkWorld [] [] {[ "/srv/app/uploads/properties/property-9.jpg" := true ]} ∅
          [] [] (jan_2024 20) 0.

(** ** Proof automation *)

(** Unfolds the handler monad and the field updates of the world. *)
Ltac run_handler :=
  cbn [negb isEmpty];
  cbv beta iota zeta delta
    [try_catch bind ret reply raise get_world modify db_log console_error];
  cbn [fst snd properties bookings disk cloud console dbLog clock nextId
       set_properties set_bookings set_disk set_cloud set_console set_dbLog set_nextId].


(** Evaluates the comparisons of string literals. *)
Ltac eval_eqb :=
  repeat match goal with
         | |- context [String.eqb ?a ?b] =>
             let r := eval vm_compute in (String.eqb a b) in
             match r with
             | true => change (String.eqb a b) with true
             | false => change (String.eqb a b) with false
             end
         end.

(* ================================================================== *)
(** * The other routes *)

(** The handlers below answer with documents or lists the [Payload] of
    the handlers above has no case for: their success data travels as
    the value of the body ([send]), an early [return res.status(...)]
    stays a [reply].  [dbLog] traces the store operations of the
    handlers above; the primitives introduced here leave it alone. *)

(** [res.json({ success: true, data })] as the last statement of a body *)
Definition send {A} (data : A) : Handler A := ret data.

(** What the client of such a handler sees *)
Inductive Answer (A : Type) : Type :=
| Data (data : A)
| Refused (r : Response)
| Escaped (e : Exn).

Arguments Data {A} data.
Arguments Refused {A} r.
Arguments Escaped {A} e.

Definition try_catch_data {A} (body : Handler A)
    (on_error : Exn -> Handler Empty_set) (w : World) : Answer A * World :=
  match body w with
  | (Next a, w') => (Data a, w')
  | (Reply r, w') => (Refused r, w')
  | (Raise e, w') =>
      match on_error e w' with
      | (Next x, _) => match x with end
      | (Reply r, w'') => (Refused r, w'')
      | (Raise e', w'') => (Escaped e', w'')
      end
  end.

(** ** models/Booking.js: the [duration] virtual *)

(** [bookingSchema.virtual('duration')] *)
Definition duration (b : Booking) : Z :=
  ceil_div (checkOut b - checkIn b) (1000 * 60 * 60 * 24).

(** ** GET /api/bookings *)

(** [req.query] of the listing: [bq_page] and [bq_limit] hold the
    integer a numeric parameter denotes. *)
Record BookingListQuery := mkBookingListQuery {
  bq_page : option Z;
  bq_limit : option Z;
  bq_status : option string
}.

Record BookingPage := mkBookingPage {
  page_bookings : list Booking;
  page_totalPages : option Z;
  page_currentPage : Z;
  page_total : Z
}.

(** [const query = req.user.role === 'admin' ? {} : { user: req.user._id };
     if (status) { query.status = status; }] *)
Definition bookings_query (requser : User) (st : option string) (b : Booking) : bool :=
  (String.eqb (role requser) "admin" || String.eqb (user b) (user_id requser))
  && (if given st then String.eqb (status b) (default "" st) else true).

(** [Booking.find(query).sort({ createdAt: -1 })]: the collection is
    kept in creation order and an update leaves a document in place, so
    [createdAt] descending is the stored order reversed. *)
Definition Booking_find (query : Booking -> bool) : Handler (list Booking) :=
  let* w := get_world in
  ret (rev (List.filter query (bookings w))).

(** [Booking.find(query)...sort(...).limit(n).skip(k).exec()] *)
Definition Booking_find_page (query : Booking -> bool) (n k : Z)
    : Handler (list Booking) :=
  if k <? 0 then raise (MongoError "skip value must be non-negative")
  else
    let* sorted := Booking_find query in
    ret (limit_docs n (drop (Z.to_nat k) sorted)).

Definition Booking_countDocuments (query : Booking -> bool) : Handler Z :=
  let* w := get_world in
  ret (Z.of_nat (length (List.filter query (bookings w)))).

Definition get_bookings_body (requser : User) (q : BookingListQuery)
    : Handler BookingPage :=
  let page := default 1 (bq_page q) in
  let limit := default 10 (bq_limit q) in
  let query := bookings_query requser (bq_status q) in
  let* found := Booking_find_page query (limit * 1) ((page - 1) * limit) in
  let* count := Booking_countDocuments query in
  send (mkBookingPage found (total_pages count limit) page count).

Definition get_bookings_catch (error : Exn) : Handler Empty_set :=
  console_error ("Get bookings error: " +:+ exn_message error) ;;
  reply (json_error 500 "Server error while fetching bookings").

Definition get_bookings (requser : User) (q : BookingListQuery)
    : World -> Answer BookingPage * World :=
  try_catch_data (get_bookings_body requser q) get_bookings_catch.

(** ** GET /api/bookings/:id *)

(** [users] holds the ids of the stored users: [populate('user')] leaves
    [null] for a user that is gone, and [booking.user._id] then throws.
    The owner of the property is only read when the caller is neither
    the booking's user nor an admin. *)
Definition get_booking_body (users : list ObjectId) (requser : User) (id : ObjectId)
    : Handler Empty_set :=
  let* found := Booking_findById_populate id in
  match found with
  | None => reply (json_error 404 "Booking not found")
  | Some (booking, populated) =>
      if negb (mem_string (user booking) users)
      then raise (TypeError "Cannot read properties of null (reading '_id')")
      else if negb (String.eqb (user booking) (user_id requser))
              && negb (String.eqb (role requser) "admin")
      then
        match populated with
        | None => raise (TypeError "Cannot read properties of null (reading 'owner')")
        | Some prop =>
            if negb (String.eqb (owner prop) (user_id requser))
            then reply (json_error 403 "Not authorized to view this booking")
            else reply (mkResponse 200 true None (BookingData (Some booking)))
        end
      else reply (mkResponse 200 true None (BookingData (Some booking)))
  end.

Definition get_booking_catch (error : Exn) : Handler Empty_set :=
  console_error ("Get booking error: " +:+ exn_message error) ;;
  reply (json_error 500 "Server error while fetching booking").

Definition get_booking (users : list ObjectId) (requser : User) (id : ObjectId)
    : World -> Outcome * World :=
  try_catch (get_booking_body users requser id) get_booking_catch.

(** ** DELETE /api/bookings/:id *)

Fixpoint remove_booking (id : ObjectId) (l : list Booking) : list Booking :=
  match l with
  | [] => []
  | b :: rest =>
      if String.eqb (booking_id b) id then rest
      else b :: remove_booking id rest
  end.

Definition Booking_findByIdAndDelete (id : ObjectId) : Handler unit :=
  modify (fun w => set_bookings (remove_booking id (bookings w)) w).

(** The handler of the route; the [auth] and [adminOnly] middlewares
    have let the request through. *)
Definition delete_booking_body (id : ObjectId) : Handler Empty_set :=
  let* found := Booking_findById id in
  match found with
  | None => reply (json_error 404 "Booking not found")
  | Some _ =>
      Booking_findByIdAndDelete id ;;
      reply (mkResponse 200 true (Some "Booking deleted successfully") NoData)
  end.

Definition delete_booking_catch (error : Exn) : Handler Empty_set :=
  console_error ("Delete booking error: " +:+ exn_message error) ;;
  reply (json_error 500 "Server error while deleting booking").

Definition delete_booking (id : ObjectId) : World -> Outcome * World :=
  try_catch (delete_booking_body id) delete_booking_catch.

(** ** GET /api/bookings/property/:propertyId *)

Definition get_property_bookings_body (requser : User) (propertyId : ObjectId)
    : Handler (list Booking) :=
  let* found := Property_findById propertyId in
  match found with
  | None => reply (json_error 404 "Property not found")
  | Some prop =>
      if negb (String.eqb (owner prop) (user_id requser))
         && negb (String.eqb (role requser) "admin")
      then reply (json_error 403 "Not authorized to view property bookings")
      else
        let* found := Booking_find (fun b => String.eqb (property b) propertyId) in
        send found
  end.

Definition get_property_bookings_catch (error : Exn) : Handler Empty_set :=
  console_error ("Get property bookings error: " +:+ exn_message error) ;;
  reply (json_error 500 "Server error while fetching property bookings").

Definition get_property_bookings (requser : User) (propertyId : ObjectId)
    : World -> Answer (list Booking) * World :=
  try_catch_data (get_property_bookings_body requser propertyId)
    get_property_bookings_catch.

(** ** GET /api/properties/user/my-properties *)

(** [Property.find({ owner: req.user._id }).sort({ createdAt: -1 })] *)
Definition my_properties_body (requser : User) : Handler (list Property) :=
  db_log Property_find_op ;;
  let* w := get_world in
  send (merge_sort (sort_rel "createdAt" (-1))
          (List.filter (fun p => String.eqb (owner p) (user_id requser)) (properties w))).

Definition my_properties_catch (error : Exn) : Handler Empty_set :=
  console_error ("Get user properties error: " +:+ exn_message error) ;;
  reply (json_error 500 "Server error while fetching user properties").

Definition my_properties (requser : User) : World -> Answer (list Property) * World :=
  try_catch_data (my_properties_body requser) my_properties_catch.

(** ** PUT /api/properties/:id *)

Definition with_images (imgs : list string) (d : PropertyInput) : PropertyInput :=
  mkPropertyInput (in_title d) (in_description d) (in_price d) (in_location d) imgs
                  (in_propertyType d) (in_bedrooms d) (in_isAvailable d) (in_views d).

(** [Property.findByIdAndUpdate(id, updateData, { new: true, runValidators: true })].
    [cast] is what the casts and the update validators of the schema
    make of the update document on the stored one; the result is [None]
    when no document has the id. *)
Definition Property_findByIdAndUpdate
    (cast : PropertyInput -> Property -> Exn + Property)
    (id : ObjectId) (updateData : PropertyInput) : Handler (option Property) :=
  let* w := get_world in
  match find (fun p => String.eqb (property_id p) id) (properties w) with
  | None => ret None
  | Some old =>
      match cast updateData old with
      | inl e => raise e
      | inr doc =>
          modify (fun w => set_properties (replace_property id doc (properties w)) w) ;;
          ret (Some doc)
      end
  end.

Definition put_property_body (cast : PropertyInput -> Property -> Exn + Property)
    (USE_CLOUDINARY : bool) (requser : User) (id : ObjectId) (files : list File)
    (data : DataField) : Handler Empty_set :=
  let* found := Property_findById id in
  match found with
  | None =>
      delete_uploaded USE_CLOUDINARY files ;;
      reply (json_error 404 "Property not found")
  | Some prop =>
      if negb (String.eqb (owner prop) (user_id requser))
         && negb (String.eqb (role requser) "admin")
      then
        delete_uploaded USE_CLOUDINARY files ;;
        reply (json_error 403 "Not authorized to update this property")
      else
        match data with
        | Malformed => raise (SyntaxError "Unexpected token in JSON")
        | Parsed parsed =>
            let updateData :=
              if negb (isEmpty files)
              then with_images (images prop ++ uploaded_images USE_CLOUDINARY files) parsed
              else parsed in
            let* updatedProperty := Property_findByIdAndUpdate cast id updateData in
            match updatedProperty with
            | Some doc =>
                reply (mkResponse 200 true (Some "Property updated successfully")
                         (PropertyData doc))
            | None =>
                reply (mkResponse 200 true (Some "Property updated successfully") NoData)
            end
        end
  end.

Definition put_property_catch (USE_CLOUDINARY : bool) (files : list File) (error : Exn)
    : Handler Empty_set :=
  console_error ("Update property error: " +:+ exn_message error) ;;
  delete_uploaded USE_CLOUDINARY files ;;
  reply (json_error 500 "Server error while updating property").

Definition put_property (cast : PropertyInput -> Property -> Exn + Property)
    (USE_CLOUDINARY : bool) (requser : User) (id : ObjectId) (files : list File)
    (data : DataField) : World -> Outcome * World :=
  try_catch (put_property_body cast USE_CLOUDINARY requser id files data)
            (put_property_catch USE_CLOUDINARY files).

(** ** Requests against the bookings, one after the other *)

(** The three routes that write to the bookings *)
Inductive BookingRequest : Type :=
| PostBooking (requser : User) (body : BookingBody)
| PutBooking (requser : User) (id : ObjectId) (body : gmap string JsVal)
| DeleteBooking (id : ObjectId).

Definition serve (w : World) (req : BookingRequest) : World :=
  match req with
  | PostBooking requser body => snd (post_booking requser body w)
  | PutBooking requser id body => snd (put_booking requser id body w)
  | DeleteBooking id => snd (delete_booking id w)
  end.

Definition serve_all (w : World) (reqs : list BookingRequest) : World :=
  fold_left serve reqs w.

(** What the schema of models/Booking.js asks of a stored booking *)
Definition booking_ok (b : Booking) : Prop :=
  checkIn b < checkOut b /\ 1 <= guests b /\ 0 <= totalPrice b /\
  mem_string (status b) status_enum = true /\
  mem_string (paymentStatus b) paymentStatus_enum = true /\
  maxlength_ok 500 (specialRequests b) = true /\
  maxlength_ok 500 (cancellationReason b) = true.

(** Two bookings that claim the same dates of the same property *)
Definition overlap (a b : Booking) : Prop :=
  property a = property b /\ active a /\ active b /\
  checkIn a <= checkOut b /\ checkOut a >= checkIn b.

(** No two bookings of the store overlap. *)
Definition no_double_booking (l : list Booking) : Prop :=
  forall (i j : nat) (a b : Booking),
    (i < j)%nat -> l !! i = Some a -> l !! j = Some b -> ~ overlap a b.

(** ** Reactivating a booking *)


(** The status a PUT body asks for, as the schema casts it *)
Definition requested_status (body : gmap string JsVal) : option string :=
  if truthy_field (body !! "status")
  then match cast_String "status" (default JNull (body !! "status")) with
       | inr s => Some s
       | inl _ => None
       end
  else None.



(** ** Sample data for the other routes *)

(** [bob]'s cancelled booking of [flat] for 4 to 8 January, next to
    [alice]'s pending one *)
Definition stay_bob : Booking :=
  mkBooking "b2" "p1" "bob" (jan_2024 4) (jan_2024 8) 1 400 "cancelled" "pending"
            None None (Some (jan_2024 2)).

Definition world_reopened : World :=
  mkWorld [flat] [stay_alice; stay_bob] ∅ ∅ [] [] (jan_2024 20) 0.

Definition body_confirm : gmap string JsVal :=
  {[ "status" := JStr "confirmed" ]}.

(** A POST, the cancellation of [alice]'s booking and its deletion *)
Definition busy_day : list BookingRequest :=
  [PostBooking bob (request_dates (jan_2024 9) (jan_2024 12));
   PutBooking alice "b1" body_cancel;
   DeleteBooking "b1"].

(** The integer an unsigned decimal numeral denotes *)
Fixpoint parse_digits (acc : Z) (s : string) : option Z :=
  match s with
  | EmptyString => Some acc
  | String c rest =>
      let n := Z.of_nat (nat_of_ascii c) in
      if (48 <=? n) && (n <=? 57) then parse_digits (10 * acc + (n - 48)) rest else None
  end.

(** A platform that reads unsigned decimal numerals and knows no
    pattern and no text index *)
Definition decimal_platform : Platform :=
  {| ToNumber := parse_digits 0;
     text_search := fun _ _ => false;
     RegExp_i := fun _ => None;
     path_join := fun p => "/srv/app" +:+ p |}.

(** Listings of at least 90 a night, cheapest first *)
Definition from_90_up : ListQuery :=
  mkListQuery None None None None (Some "90") None None None None (Some "price")
              (Some "asc").

(** A price bound that is no number *)
Definition from_cheap_up : ListQuery :=
  mkListQuery None None None None (Some "cheap") None None None None None None.

(** The uploaded picture, on a disk that refuses to unlink it *)
Definition world_upload_locked : World :=
  mkWorld [villa] [] {[ "/srv/app/uploads/properties/property-9.jpg" := false ]} ∅
          [] [] (jan_2024 20) 0.

(** An update that sets nothing but the price *)
Definition new_price (n : Z) : PropertyInput :=
  mkPropertyInput None None (Some (JNum n)) None [] None None None None.

(** A store that takes the price and the pictures of an update and
    refuses a negative price *)
Definition cast_price_and_images (u : PropertyInput) (p : Property) : Exn + Property :=
  match in_price u with
  | Some (JNum n) =>
      if n <? 0 then inl (ValidationError "Property" [("price", "Price cannot be negative")])
      else inr (mkProperty (property_id p) (title p) (description p) n (address p) (city p)
                  (country p) (in_images u) (propertyType p) (bedrooms p) (owner p)
                  (isAvailable p) (views p) (createdAt p))
  | _ => inr p
  end.


(** ** The shape of an image URL *)

(** [pat] occurs somewhere in [s]. *)
Fixpoint occurs (pat s : string) : bool :=
  String.prefix pat s
  || match s with
     | EmptyString => false
     | String _ rest => occurs pat rest
     end.

(** No character of [s] is a slash or a dot. *)
Definition plain_segment (s : string) : bool :=
  forallb (fun c => negb (Ascii.eqb c "/" || Ascii.eqb c ".")) (list_ascii_of_string s).

(** [s] is empty or begins with a slash or a dot. *)
Definition ends_segment (s : string) : bool :=
  match s with
  | EmptyString => true
  | String c _ => Ascii.eqb c "/" || Ascii.eqb c "."
  end.

(* ================================================================== *)
(** * Properties of the handlers *)

(** ** Searching the collections *)


(** ** The conflict query *)


(** The express-validator chain passes exactly on well-formed bodies. *)
Lemma validationResult_nil body :
  validationResult body = [] <->
  exists propertyId c d g,
    body_property body = Some propertyId /\ propertyId <> "" /\
    body_checkIn body = Some c /\ body_checkOut body = Some d /\
    body_guests body = Some g /\ 1 <= g.
Proof.
  unfold validationResult. split.
  - destruct (body_property body) as [s|]; [|discriminate].
    destruct (String.eqb_spec s ""); [discriminate|].
    destruct (body_checkIn body) as [c|]; [|discriminate].
    destruct (body_checkOut body) as [d|]; [|discriminate].
    destruct (body_guests body) as [g|]; [|discriminate].
    destruct (Z.leb_spec 1 g); [|discriminate].
    intros _. exists s, c, d, g. auto 10.
  - intros (s & c & d & g & -> & Hs & -> & -> & -> & Hg).
    destruct (String.eqb_spec s ""); [contradiction|].
    destruct (Z.leb_spec 1 g); [reflexivity|lia].
Qed.







(** ** Price and initial status of a created booking *)

(** [ceil_div a b] is the least integer [q] with [a <= b * q]. *)
Lemma ceil_div_bounds a b :
  0 < b -> b * (ceil_div a b - 1) < a <= b * ceil_div a b.
Proof.
  intros Hb. unfold ceil_div.
  pose proof (Z.div_mod (- a) b ltac:(lia)) as Hdm.
  pose proof (Z.mod_pos_bound (- a) b Hb) as Hm.
  nia.
Qed.

Lemma ceil_div_unique a b q :
  0 < b -> b * (q - 1) < a <= b * q -> ceil_div a b = q.
Proof.
  intros Hb Hq. pose proof (ceil_div_bounds a b Hb) as Hc. nia.
Qed.

Lemma ceil_div_pos a b : 0 < b -> 0 < a -> 1 <= ceil_div a b.
Proof. intros Hb Ha. pose proof (ceil_div_bounds a b Hb). nia. Qed.

Lemma ceil_div_nonpos a b : 0 < b -> a <= 0 -> ceil_div a b <= 0.
Proof. intros Hb Ha. pose proof (ceil_div_bounds a b Hb). nia. Qed.

Lemma pre_validate_None doc : pre_validate doc = None <-> checkIn doc < checkOut doc.
Proof.
  unfold pre_validate. destruct (Z.leb_spec (checkOut doc) (checkIn doc)); split;
    intros; try discriminate; try reflexivity; lia.
Qed.

Lemma new_Booking_validators id f :
  booking_validators (new_Booking id f) = [] <->
  1 <= f_guests f /\ 0 <= f_totalPrice f /\ maxlength_ok 500 (f_specialRequests f) = true.
Proof.
  unfold booking_validators, new_Booking. cbn.
  destruct (Z.ltb_spec (f_guests f) 1); cbn.
  { split; [discriminate|lia]. }
  destruct (Z.ltb_spec (f_totalPrice f) 0); cbn.
  { split; [discriminate|lia]. }
  destruct (maxlength_ok 500 (f_specialRequests f)); cbn.
  - split; auto.
  - split; [discriminate|]. intros (_ & _ & ?). discriminate.
Qed.





(** ** Check-out not after check-in *)

(** Every request either stops at one of the first three checks of the
    handler, with a failure and an untouched store, or reaches the
    conflict query. *)
Lemma post_booking_gates requser body w :
  (exists r, fst (post_booking requser body w) = Sent r /\ success r = false /\
             (statusCode r = 400 \/ statusCode r = 404) /\
             bookings (snd (post_booking requser body w)) = bookings w)
  \/
  (exists propertyId c d g prop,
      body_property body = Some propertyId /\ propertyId <> "" /\
      body_checkIn body = Some c /\ body_checkOut body = Some d /\
      body_guests body = Some g /\ 1 <= g /\
      find (fun p => String.eqb (property_id p) propertyId) (properties w) = Some prop /\
      isAvailable prop = true).
Proof.
  destruct (validationResult body) as [|e errors] eqn:Hv.
  2:{ left. unfold post_booking, post_booking_body. rewrite Hv. run_handler.
      eexists. cbn. split; [reflexivity|]. auto. }
  pose proof Hv as Hv'. apply validationResult_nil in Hv'.
  destruct Hv' as (propertyId & c & d & g & Hp & Hne & Hc & Hd & Hg & Hg1).
  destruct (find (fun p => String.eqb (property_id p) propertyId) (properties w))
    as [prop|] eqn:Hfind.
  2:{ left. unfold post_booking, post_booking_body, Property_findById.
      rewrite Hv, Hp, Hc, Hd, Hg. run_handler. rewrite Hfind.
      eexists. cbn. split; [reflexivity|]. auto. }
  destruct (isAvailable prop) eqn:Hav.
  2:{ left. unfold post_booking, post_booking_body, Property_findById.
      rewrite Hv, Hp, Hc, Hd, Hg. run_handler. rewrite Hfind, Hav.
      eexists. cbn. split; [reflexivity|]. auto. }
  right. exists propertyId, c, d, g, prop. auto 10.
Qed.




(** ** The update document of PUT /bookings/:id *)

Lemma truthy_field_Some (o : option JsVal) :
  truthy_field o = true -> o = Some (default JNull o).
Proof. destruct o; [reflexivity|discriminate]. Qed.

(** The keys of [updateData] and the values under them *)
Lemma build_updateData_lookup body po ad now path :
  build_updateData body po ad now !! path =
  if String.eqb path "status" then
    if truthy_field (body !! "status") then body !! "status" else None
  else if String.eqb path "cancelledAt" then
    if truthy_field (body !! "status")
       && strict_eq_str (default JNull (body !! "status")) "cancelled"
    then Some (JDate now) else None
  else if String.eqb path "cancellationReason" then
    if truthy_field (body !! "status")
       && strict_eq_str (default JNull (body !! "status")) "cancelled"
       && truthy_field (body !! "cancellationReason")
    then body !! "cancellationReason" else None
  else if String.eqb path "paymentStatus" then
    if truthy_field (body !! "paymentStatus") && (po || ad)
    then body !! "paymentStatus" else None
  else None.
Proof.
  unfold build_updateData.
  set (st := default JNull (body !! "status")).
  set (cr := default JNull (body !! "cancellationReason")).
  set (ps := default JNull (body !! "paymentStatus")).
  assert (Hst : truthy_field (body !! "status") = true -> body !! "status" = Some st)
    by apply truthy_field_Some.
  assert (Hcr : truthy_field (body !! "cancellationReason") = true ->
                body !! "cancellationReason" = Some cr) by apply truthy_field_Some.
  assert (Hps : truthy_field (body !! "paymentStatus") = true ->
                body !! "paymentStatus" = Some ps) by apply truthy_field_Some.
  destruct (truthy_field (body !! "status"));
    destruct (strict_eq_str st "cancelled");
    destruct (truthy_field (body !! "cancellationReason"));
    destruct (truthy_field (body !! "paymentStatus"));
    destruct (po || ad); cbn [andb];
    rewrite ?Hst, ?Hcr, ?Hps by reflexivity;
    rewrite ?lookup_insert, ?lookup_empty;
    repeat case_decide; subst; eval_eqb; try reflexivity; try congruence;
    repeat match goal with
           | |- context [String.eqb path ?s] =>
               destruct (String.eqb_spec path s); [congruence|]
           end; reflexivity.
Qed.

Lemma apply_update_skip p rest (u : gmap string JsVal) b :
  u !! p = None -> apply_update (p :: rest) u b = apply_update rest u b.
Proof. intros H. cbn [apply_update]. rewrite H. reflexivity. Qed.

Lemma apply_update_set p rest (u : gmap string JsVal) b v :
  u !! p = Some v ->
  apply_update (p :: rest) u b =
  match set_path p v b with
  | inr b' => apply_update rest u b'
  | inl e => inl e
  end.
Proof. intros H. cbn [apply_update]. rewrite H. reflexivity. Qed.

Lemma build_updateData_status body po ad now :
  build_updateData body po ad now !! "status" =
  if truthy_field (body !! "status") then Some (default JNull (body !! "status")) else None.
Proof.
  rewrite build_updateData_lookup. cbn [String.eqb Ascii.eqb Bool.eqb].
  destruct (truthy_field (body !! "status")) eqn:E; [|reflexivity].
  apply truthy_field_Some, E.
Qed.

Lemma build_updateData_paymentStatus body po ad now :
  build_updateData body po ad now !! "paymentStatus" =
  if truthy_field (body !! "paymentStatus") && (po || ad)
  then Some (default JNull (body !! "paymentStatus")) else None.
Proof.
  rewrite build_updateData_lookup. eval_eqb. cbv iota.
  destruct (truthy_field (body !! "paymentStatus")) eqn:E; [|reflexivity].
  destruct (po || ad); [|reflexivity]. apply truthy_field_Some, E.
Qed.

Lemma build_updateData_cancelledAt body po ad now :
  build_updateData body po ad now !! "cancelledAt" =
  if truthy_field (body !! "status")
     && strict_eq_str (default JNull (body !! "status")) "cancelled"
  then Some (JDate now) else None.
Proof. rewrite build_updateData_lookup. eval_eqb. reflexivity. Qed.

Lemma build_updateData_cancellationReason body po ad now :
  build_updateData body po ad now !! "cancellationReason" =
  if truthy_field (body !! "status")
     && strict_eq_str (default JNull (body !! "status")) "cancelled"
     && truthy_field (body !! "cancellationReason")
  then Some (default JNull (body !! "cancellationReason")) else None.
Proof.
  rewrite build_updateData_lookup. eval_eqb. cbv iota.
  destruct (truthy_field (body !! "cancellationReason")) eqn:E;
    [|rewrite andb_false_r; reflexivity].
  rewrite andb_true_r. destruct (_ && _); [|reflexivity]. apply truthy_field_Some, E.
Qed.

(** The keys of [updateData] are among the four the handler writes. *)
Lemma build_updateData_keys body po ad now path :
  is_Some (build_updateData body po ad now !! path) ->
  path = "status" \/ path = "cancelledAt" \/ path = "cancellationReason" \/
  (path = "paymentStatus" /\ (po || ad) = true).
Proof.
  rewrite build_updateData_lookup.
  destruct (String.eqb_spec path "status"); [auto|].
  destruct (String.eqb_spec path "cancelledAt"); [auto|].
  destruct (String.eqb_spec path "cancellationReason"); [auto|].
  destruct (String.eqb_spec path "paymentStatus").
  - destruct (po || ad); [auto|]. rewrite andb_false_r. intros [x Hx]. discriminate.
  - intros [x Hx]. discriminate.
Qed.


(** Applying the handler's [updateData]: the four casts in schema order,
    every other field as it was. *)
Lemma apply_update_built body po ad now b :
  let cancel := truthy_field (body !! "status")
                && strict_eq_str (default JNull (body !! "status")) "cancelled" in
  apply_update booking_paths (build_updateData body po ad now) b =
  match (if truthy_field (body !! "status")
         then cast_String "status" (default JNull (body !! "status"))
         else inr (status b)) with
  | inl e => inl e
  | inr x =>
      match (if truthy_field (body !! "paymentStatus") && (po || ad)
             then cast_String "paymentStatus" (default JNull (body !! "paymentStatus"))
             else inr (paymentStatus b)) with
      | inl e => inl e
      | inr y =>
          match (if cancel && truthy_field (body !! "cancellationReason")
                 then match cast_String "cancellationReason"
                              (default JNull (body !! "cancellationReason")) with
                      | inr r => inr (Some r)
                      | inl e => inl e
                      end
                 else inr (cancellationReason b)) with
          | inl e => inl e
          | inr r =>
              inr (upd_cancelledAt (if cancel then Some now else cancelledAt b)
                     (upd_cancellationReason r (upd_paymentStatus y (upd_status x b))))
          end
      end
  end.
Proof.
  intros cancel. unfold booking_paths.
  do 6 (rewrite apply_update_skip by (rewrite build_updateData_lookup; reflexivity)).
  pose proof (build_updateData_status body po ad now) as Lst.
  pose proof (build_updateData_paymentStatus body po ad now) as Lps.
  pose proof (build_updateData_cancellationReason body po ad now) as Lcr.
  pose proof (build_updateData_cancelledAt body po ad now) as Lca.
  fold cancel in Lcr, Lca.
  assert (Hsr : build_updateData body po ad now !! "specialRequests" = None)
    by (rewrite build_updateData_lookup; reflexivity).
  destruct b as [bid bp bu bci bco bg bt bs bps bsr bcr bca].
  cbn [status paymentStatus cancellationReason cancelledAt].
  destruct (truthy_field (body !! "status")).
  - rewrite (apply_update_set _ _ _ _ _ Lst).
    change (set_path "status" ?v ?b) with (assign cast_String upd_status "status" v b).
    unfold assign at 1.
    destruct (cast_String "status" _); [reflexivity|].
    destruct (truthy_field (body !! "paymentStatus") && (po || ad)).
    + rewrite (apply_update_set _ _ _ _ _ Lps).
      change (set_path "paymentStatus" ?v ?b)
        with (assign cast_String upd_paymentStatus "paymentStatus" v b).
      unfold assign at 1.
      destruct (cast_String "paymentStatus" _); [reflexivity|].
      rewrite (apply_update_skip _ _ _ _ Hsr).
      destruct (cancel && truthy_field (body !! "cancellationReason")).
      * rewrite (apply_update_set _ _ _ _ _ Lcr).
        change (set_path "cancellationReason" ?v ?b)
          with (assign cast_String (fun x => upd_cancellationReason (Some x))
                  "cancellationReason" v b).
        unfold assign at 1.
        destruct (cast_String "cancellationReason" _); [reflexivity|].
        destruct cancel.
        -- rewrite (apply_update_set _ _ _ _ _ Lca). reflexivity.
        -- rewrite (apply_update_skip _ _ _ _ Lca). reflexivity.
      * rewrite (apply_update_skip _ _ _ _ Lcr).
        destruct cancel.
        -- rewrite (apply_update_set _ _ _ _ _ Lca). reflexivity.
        -- rewrite (apply_update_skip _ _ _ _ Lca). reflexivity.
    + rewrite (apply_update_skip _ _ _ _ Lps).
      rewrite (apply_update_skip _ _ _ _ Hsr).
      destruct (cancel && truthy_field (body !! "cancellationReason")).
      * rewrite (apply_update_set _ _ _ _ _ Lcr).
        change (set_path "cancellationReason" ?v ?b)
          with (assign cast_String (fun x => upd_cancellationReason (Some x))
                  "cancellationReason" v b).
        unfold assign at 1.
        destruct (cast_String "cancellationReason" _); [reflexivity|].
        destruct cancel.
        -- rewrite (apply_update_set _ _ _ _ _ Lca). reflexivity.
        -- rewrite (apply_update_skip _ _ _ _ Lca). reflexivity.
      * rewrite (apply_update_skip _ _ _ _ Lcr).
        destruct cancel.
        -- rewrite (apply_update_set _ _ _ _ _ Lca). reflexivity.
        -- rewrite (apply_update_skip _ _ _ _ Lca). reflexivity.
  - assert (Hc : cancel = false) by reflexivity.
    rewrite Hc in *. cbn [andb] in *.
    rewrite (apply_update_skip _ _ _ _ Lst).
    destruct (truthy_field (body !! "paymentStatus") && (po || ad)).
    + rewrite (apply_update_set _ _ _ _ _ Lps).
      change (set_path "paymentStatus" ?v ?b)
        with (assign cast_String upd_paymentStatus "paymentStatus" v b).
      unfold assign at 1.
      destruct (cast_String "paymentStatus" _); [reflexivity|].
      rewrite (apply_update_skip _ _ _ _ Hsr), (apply_update_skip _ _ _ _ Lcr),
        (apply_update_skip _ _ _ _ Lca). reflexivity.
    + rewrite (apply_update_skip _ _ _ _ Lps), (apply_update_skip _ _ _ _ Hsr),
        (apply_update_skip _ _ _ _ Lcr), (apply_update_skip _ _ _ _ Lca). reflexivity.
Qed.

(** ** PUT /bookings/:id, case by case *)

Lemma find_replace_first id doc l b :
  find (fun b => String.eqb (booking_id b) id) l = Some b ->
  booking_id doc = id ->
  find (fun b => String.eqb (booking_id b) id) (replace_first id doc l) = Some doc.
Proof.
  intros Hfind Hid. induction l as [|a l IH]; [discriminate|].
  cbn in *. destruct (String.eqb (booking_id a) id) eqn:E.
  - cbn. rewrite Hid, String.eqb_refl. reflexivity.
  - cbn. rewrite E. auto.
Qed.


Lemma find_booking_id id l b :
  find (fun b => String.eqb (booking_id b) id) l = Some b -> booking_id b = id.
Proof. intros H. apply find_some in H. apply String.eqb_eq, H. Qed.

(** The handler, as a function of what the two reads return *)
Lemma put_booking_cases requser id body w :
  match find (fun b => String.eqb (booking_id b) id) (bookings w) with
  | None =>
      fst (put_booking requser id body w) = Sent (json_error 404 "Booking not found") /\
      bookings (snd (put_booking requser id body w)) = bookings w
  | Some booking =>
      match find (fun p => String.eqb (property_id p) (property booking)) (properties w) with
      | None =>
          fst (put_booking requser id body w) =
            Sent (json_error 500 "Server error while updating booking") /\
          bookings (snd (put_booking requser id body w)) = bookings w
      | Some prop =>
          let isOwner := String.eqb (user booking) (user_id requser) in
          let isPropertyOwner := String.eqb (owner prop) (user_id requser) in
          let isAdmin := String.eqb (role requser) "admin" in
          if negb isOwner && negb isPropertyOwner && negb isAdmin then
            fst (put_booking requser id body w) =
              Sent (json_error 403 "Not authorized to update this booking") /\
            bookings (snd (put_booking requser id body w)) = bookings w
          else
            let updateData := build_updateData body isPropertyOwner isAdmin (clock w) in
            match apply_update booking_paths updateData booking with
            | inl _ =>
                fst (put_booking requser id body w) =
                  Sent (json_error 500 "Server error while updating booking") /\
                bookings (snd (put_booking requser id body w)) = bookings w
            | inr doc =>
                match update_validators updateData doc with
                | [] =>
                    fst (put_booking requser id body w) =
                      Sent (mkResponse 200 true (Some "Booking updated successfully")
                              (BookingData (Some doc))) /\
                    bookings (snd (put_booking requser id body w)) =
                      replace_first id doc (bookings w)
                | _ :: _ =>
                    fst (put_booking requser id body w) =
                      Sent (json_error 500 "Server error while updating booking") /\
                    bookings (snd (put_booking requser id body w)) = bookings w
                end
            end
      end
  end.
Proof.
  unfold put_booking, put_booking_body, put_booking_catch, Booking_findById_populate,
    Booking_findById, Property_findById, Booking_findByIdAndUpdate.
  run_handler.
  destruct (find (fun b => String.eqb (booking_id b) id) (bookings w)) as [booking|] eqn:Hb;
    [|run_handler; auto].
  run_handler.
  destruct (find (fun p => String.eqb (property_id p) (property booking)) (properties w))
    as [prop|]; [|run_handler; auto].
  cbv zeta.
  destruct (negb (String.eqb (user booking) (user_id requser))
            && negb (String.eqb (owner prop) (user_id requser))
            && negb (String.eqb (role requser) "admin")); [run_handler; auto|].
  run_handler. rewrite Hb.
  destruct (apply_update booking_paths _ booking) as [e|doc]; [run_handler; auto|].
  destruct (update_validators _ doc); run_handler; auto.
Qed.

Lemma filter_set_nil (u : gmap string JsVal) (c : bool) (e : FieldError) :
  filter (fun e => is_Some (u !! fst e)) (if c then [e] else []) = [] <->
  (c = true -> u !! fst e = None).
Proof.
  destruct c.
  - rewrite filter_cons, filter_nil. destruct (decide (is_Some (u !! e.1))) as [Hs|Hn].
    + split; [discriminate|]. intros H. rewrite H in Hs by reflexivity.
      destruct Hs; discriminate.
    + split; [|reflexivity]. intros _ _. destruct (u !! e.1); [|reflexivity].
      exfalso. apply Hn. eauto.
  - rewrite filter_nil. split; [discriminate|reflexivity].
Qed.

Lemma filter_unset_nil (u : gmap string JsVal) (c : bool) (e : FieldError) :
  filter (fun e => is_Some (u !! fst e)) (if c then [] else [e]) = [] <->
  (c = false -> u !! fst e = None).
Proof.
  pose proof (filter_set_nil u (negb c) e) as H. destruct c; cbn in H.
  - rewrite H. split; intros; discriminate.
  - rewrite H. split; auto.
Qed.

(** The update validators pass exactly when each path the handler sets
    holds a value its validators accept. *)
Lemma update_validators_built body po ad now doc :
  update_validators (build_updateData body po ad now) doc = [] <->
  (truthy_field (body !! "status") = true -> mem_string (status doc) status_enum = true) /\
  (truthy_field (body !! "paymentStatus") && (po || ad) = true ->
   mem_string (paymentStatus doc) paymentStatus_enum = true) /\
  (truthy_field (body !! "status")
   && strict_eq_str (default JNull (body !! "status")) "cancelled"
   && truthy_field (body !! "cancellationReason") = true ->
   maxlength_ok 500 (cancellationReason doc) = true).
Proof.
  unfold update_validators, booking_validators.
  rewrite !filter_app, !app_nil.
  rewrite !filter_set_nil, !filter_unset_nil. cbn [fst].
  rewrite build_updateData_status, build_updateData_paymentStatus,
    build_updateData_cancellationReason.
  assert (Hother : forall p, p <> "status" -> p <> "cancelledAt" ->
                             p <> "cancellationReason" -> p <> "paymentStatus" ->
                             build_updateData body po ad now !! p = None).
  { intros p H1 H2 H3 H4.
    destruct (build_updateData body po ad now !! p) eqn:E; [|reflexivity].
    destruct (build_updateData_keys body po ad now p) as [?|[?|[?|[? _]]]];
      [rewrite E; eauto|congruence..]. }
  rewrite !Hother by discriminate.
  destruct (truthy_field (body !! "status"));
    destruct (truthy_field (body !! "paymentStatus") && (po || ad));
    destruct (strict_eq_str (default JNull (body !! "status")) "cancelled");
    destruct (truthy_field (body !! "cancellationReason")); cbn [andb];
    destruct (mem_string (status doc) status_enum);
    destruct (mem_string (paymentStatus doc) paymentStatus_enum);
    destruct (maxlength_ok 500 (cancellationReason doc));
    intuition congruence.
Qed.

(** An authorized update goes through exactly when the schema accepts
    the values the handler kept; otherwise the answer is 500 and the
    store is untouched. *)
Lemma put_booking_authorized requser id body w booking prop :
  find (fun b => String.eqb (booking_id b) id) (bookings w) = Some booking ->
  find (fun p => String.eqb (property_id p) (property booking)) (properties w) = Some prop ->
  negb (String.eqb (user booking) (user_id requser))
  && negb (String.eqb (owner prop) (user_id requser))
  && negb (String.eqb (role requser) "admin") = false ->
  let po := String.eqb (owner prop) (user_id requser) in
  let ad := String.eqb (role requser) "admin" in
  if update_accepted body po ad then
    exists doc,
      apply_update booking_paths (build_updateData body po ad (clock w)) booking = inr doc /\
      fst (put_booking requser id body w) =
        Sent (mkResponse 200 true (Some "Booking updated successfully")
                (BookingData (Some doc))) /\
      bookings (snd (put_booking requser id body w)) = replace_first id doc (bookings w)
  else
    fst (put_booking requser id body w) =
      Sent (json_error 500 "Server error while updating booking") /\
    bookings (snd (put_booking requser id body w)) = bookings w.
Proof.
  intros Hb Hp Hauth po ad.
  pose proof (put_booking_cases requser id body w) as Hc.
  rewrite Hb, Hp in Hc. cbv zeta in Hc. rewrite Hauth in Hc. fold po ad in Hc.
  pose proof (update_validators_built body po ad (clock w)) as Hval.
  rewrite apply_update_built in Hc |- *. cbv zeta in Hc |- *.
  unfold update_accepted, accepted_value.
  destruct (truthy_field (body !! "status"));
    destruct (strict_eq_str (default JNull (body !! "status")) "cancelled");
    destruct (truthy_field (body !! "cancellationReason"));
    destruct (truthy_field (body !! "paymentStatus") && (po || ad));
    cbn [andb] in Hc, Hval |- *;
    repeat match type of Hc with
           | context [cast_String ?p ?v] => destruct (cast_String p v)
           end;
    lazymatch type of Hc with
    | context [update_validators ?u ?d] =>
        specialize (Hval d); destruct (update_validators u d);
        cbn [status paymentStatus cancellationReason upd_status upd_paymentStatus
             upd_cancellationReason upd_cancelledAt maxlength_ok] in Hval;
        [ destruct Hval as [Hval _]; destruct (Hval eq_refl) as (H1 & H2 & H3);
          rewrite ?H1, ?H2, ?H3 by reflexivity; cbn [andb];
          eexists; split; [reflexivity|exact Hc]
        | destruct Hval as [_ Hval];
          lazymatch goal with
          | |- (exists _, _) =>
              exfalso;
              match type of Hval with
              | ?P -> _ =>
                  assert (HP : P) by (repeat split; intros; discriminate);
                  discriminate (Hval HP)
              end
          | |- (if ?c then _ else _) =>
              destruct c eqn:Hacc; [|exact Hc];
              exfalso;
              repeat match type of Hacc with
                     | (_ && _ = true) =>
                         let Ha := fresh "Ha" in
                         apply andb_prop in Hacc; destruct Hacc as [Hacc Ha]
                     end;
              match type of Hval with
              | ?P -> _ =>
                  assert (HP : P)
                    by (repeat split; intros; first [assumption|discriminate]);
                  discriminate (Hval HP)
              end
          end ]
    | _ =>
        repeat match goal with
               | |- context [match cast_String ?p ?v with _ => _ end] =>
                   destruct (cast_String p v)
               | |- context [mem_string ?a ?b] => destruct (mem_string a b)
               end;
        cbn [andb]; exact Hc
    end.
Qed.

(** The document an accepted update stores, field by field *)
Lemma apply_update_built_inv body po ad now b doc :
  apply_update booking_paths (build_updateData body po ad now) b = inr doc ->
  exists x y r,
    doc = upd_cancelledAt
            (if truthy_field (body !! "status")
                && strict_eq_str (default JNull (body !! "status")) "cancelled"
             then Some now else cancelledAt b)
            (upd_cancellationReason r (upd_paymentStatus y (upd_status x b))) /\
    (if truthy_field (body !! "status")
     then cast_String "status" (default JNull (body !! "status")) = inr x
     else x = status b) /\
    (if truthy_field (body !! "paymentStatus") && (po || ad)
     then cast_String "paymentStatus" (default JNull (body !! "paymentStatus")) = inr y
     else y = paymentStatus b) /\
    (if truthy_field (body !! "status")
        && strict_eq_str (default JNull (body !! "status")) "cancelled"
        && truthy_field (body !! "cancellationReason")
     then exists s, cast_String "cancellationReason"
                      (default JNull (body !! "cancellationReason")) = inr s /\
                    r = Some s
     else r = cancellationReason b).
Proof.
  rewrite apply_update_built. cbv zeta.
  destruct (truthy_field (body !! "status"));
    destruct (strict_eq_str (default JNull (body !! "status")) "cancelled");
    destruct (truthy_field (body !! "cancellationReason"));
    destruct (truthy_field (body !! "paymentStatus") && (po || ad));
    cbn [andb];
    repeat match goal with
           | |- context [cast_String ?p ?v] => destruct (cast_String p v)
           end;
    intros H; try discriminate H; injection H as <-;
    do 3 eexists; (split; [reflexivity|]); repeat split; eauto.
Qed.

(** Whatever the request, the booking stored under [id] afterwards is
    the old one or the old one with the handler's update applied by an
    authorized caller. *)
Lemma put_booking_stored requser id body w booking doc :
  find (fun b => String.eqb (booking_id b) id) (bookings w) = Some booking ->
  find (fun b => String.eqb (booking_id b) id)
       (bookings (snd (put_booking requser id body w))) = Some doc ->
  doc = booking \/
  exists prop,
    find (fun p => String.eqb (property_id p) (property booking)) (properties w) = Some prop /\
    negb (String.eqb (user booking) (user_id requser))
    && negb (String.eqb (owner prop) (user_id requser))
    && negb (String.eqb (role requser) "admin") = false /\
    apply_update booking_paths
      (build_updateData body (String.eqb (owner prop) (user_id requser))
         (String.eqb (role requser) "admin") (clock w)) booking = inr doc /\
    fst (put_booking requser id body w) =
      Sent (mkResponse 200 true (Some "Booking updated successfully")
              (BookingData (Some doc))).
Proof.
  intros Hb Hdoc.
  pose proof (put_booking_cases requser id body w) as Hc. rewrite Hb in Hc.
  destruct (find (fun p => String.eqb (property_id p) (property booking)) (properties w))
    as [prop|].
  2:{ destruct Hc as [_ Hsame]. rewrite Hsame, Hb in Hdoc. left. congruence. }
  cbv zeta in Hc.
  destruct (negb (String.eqb (user booking) (user_id requser))
            && negb (String.eqb (owner prop) (user_id requser))
            && negb (String.eqb (role requser) "admin")) eqn:Hauth.
  { destruct Hc as [_ Hsame]. rewrite Hsame, Hb in Hdoc. left. congruence. }
  destruct (apply_update booking_paths _ booking) as [e|doc'] eqn:Happ.
  { destruct Hc as [_ Hsame]. rewrite Hsame, Hb in Hdoc. left. congruence. }
  destruct (update_validators _ doc').
  2:{ destruct Hc as [_ Hsame]. rewrite Hsame, Hb in Hdoc. left. congruence. }
  destruct Hc as [Hr Hstore]. rewrite Hstore in Hdoc.
  destruct (apply_update_built_inv _ _ _ _ _ _ Happ) as (x & y & r & Hshape & _).
  rewrite (find_replace_first id doc' _ booking Hb) in Hdoc.
  - injection Hdoc as <-. right. exists prop. auto.
  - rewrite Hshape. cbn. apply (find_booking_id _ _ _ Hb).
Qed.

Lemma authorized_bool (a b u r : string) :
  a = u \/ b = u \/ r = "admin" ->
  negb (String.eqb a u) && negb (String.eqb b u) && negb (String.eqb r "admin") = false.
Proof.
  intros [-> | [-> | ->]]; rewrite ?String.eqb_refl; cbn;
    rewrite ?andb_false_r; reflexivity.
Qed.

(** ** Who may change what in PUT /bookings/:id *)

(** C3: when the caller is the booking's own user and neither the owner
    of the property nor an admin, a supplied paymentStatus is left out of
    the update and the stored paymentStatus stays as it was, while a
    supplied status is kept in the update and stored; for every caller,
    a change of the stored paymentStatus means that the caller owns the
    property or is an admin. *)
Theorem paymentStatus_reserved_to_owner_and_admin requser id body w booking prop :
  find (fun b => String.eqb (booking_id b) id) (bookings w) = Some booking ->
  find (fun p => String.eqb (property_id p) (property booking)) (properties w) = Some prop ->
  (user booking = user_id requser -> owner prop <> user_id requser ->
   role requser <> "admin" ->
   build_updateData body false false (clock w) !! "paymentStatus" = None /\
   (forall doc, find (fun b => String.eqb (booking_id b) id)
                     (bookings (snd (put_booking requser id body w))) = Some doc ->
                paymentStatus doc = paymentStatus booking) /\
   (truthy_field (body !! "status") = true ->
    build_updateData body false false (clock w) !! "status" = body !! "status") /\
   (forall s, body !! "status" = Some (JStr s) -> s <> "" ->
              update_accepted body false false = true ->
      exists doc,
        fst (put_booking requser id body w) =
          Sent (mkResponse 200 true (Some "Booking updated successfully")
                  (BookingData (Some doc))) /\
        find (fun b => String.eqb (booking_id b) id)
             (bookings (snd (put_booking requser id body w))) = Some doc /\
        status doc = s /\ paymentStatus doc = paymentStatus booking)) /\
  (forall doc, find (fun b => String.eqb (booking_id b) id)
                    (bookings (snd (put_booking requser id body w))) = Some doc ->
               paymentStatus doc <> paymentStatus booking ->
               owner prop = user_id requser \/ role requser = "admin").
Proof.
  intros Hb Hp. split.
  - intros Hown Hnpo Hnad.
    apply String.eqb_neq in Hnpo, Hnad.
    assert (Hkeep : forall doc,
               find (fun b => String.eqb (booking_id b) id)
                    (bookings (snd (put_booking requser id body w))) = Some doc ->
               paymentStatus doc = paymentStatus booking).
    { intros doc Hdoc.
      destruct (put_booking_stored _ _ _ _ _ _ Hb Hdoc)
        as [->|(prop' & Hp' & _ & Happ & _)]; [reflexivity|].
      assert (prop' = prop) by congruence. subst prop'.
      rewrite Hnpo, Hnad in Happ.
      destruct (apply_update_built_inv _ _ _ _ _ _ Happ) as (x & y & r & -> & _ & Hy & _).
      rewrite andb_false_r in Hy. subst y. reflexivity. }
    split; [|split; [exact Hkeep|split]].
    + rewrite build_updateData_paymentStatus, andb_false_r. reflexivity.
    + intros Hts. rewrite build_updateData_status, Hts.
      symmetry. apply truthy_field_Some, Hts.
    + intros s Hs Hne Hacc.
      pose proof (put_booking_authorized requser id body w booking prop Hb Hp
                    (authorized_bool (user booking) (owner prop) (user_id requser) (role requser)
                       (or_introl Hown))) as Hrun.
      cbv zeta in Hrun. rewrite Hnpo, Hnad, Hacc in Hrun.
      destruct Hrun as (doc & Happ & Hr & Hstore).
      destruct (apply_update_built_inv _ _ _ _ _ _ Happ) as (x & y & r & Hshape & Hx & _).
      assert (Hdoc : find (fun b => String.eqb (booking_id b) id)
                          (bookings (snd (put_booking requser id body w))) = Some doc).
      { rewrite Hstore. apply (find_replace_first id doc _ booking Hb).
        rewrite Hshape. cbn. apply (find_booking_id _ _ _ Hb). }
      exists doc. split; [exact Hr|]. split; [exact Hdoc|]. split; [|apply Hkeep, Hdoc].
      rewrite Hs in Hx. cbn in Hx.
      destruct (String.eqb_spec s ""); [contradiction|]. cbn in Hx.
      injection Hx as <-. rewrite Hshape. reflexivity.
  - intros doc Hdoc Hchanged.
    destruct (put_booking_stored _ _ _ _ _ _ Hb Hdoc)
      as [->|(prop' & Hp' & _ & Happ & _)]; [contradiction|].
    assert (prop' = prop) by congruence. subst prop'.
    destruct (apply_update_built_inv _ _ _ _ _ _ Happ) as (x & y & r & -> & _ & Hy & _).
    cbn in Hchanged.
    destruct (String.eqb_spec (owner prop) (user_id requser)); [auto|].
    destruct (String.eqb_spec (role requser) "admin"); [auto|].
    rewrite andb_false_r in Hy. contradiction.
Qed.

(** C7: when an authorized caller sends status "cancelled", the update
    carries [cancelledAt] set to the current time and the supplied
    cancellation reason, and the booking stored by the accepted update
    has them; for any other status value the update has no [cancelledAt]
    and the stored [cancelledAt] is unchanged. *)
Theorem cancel_stamps_cancelledAt requser id body w booking prop :
  find (fun b => String.eqb (booking_id b) id) (bookings w) = Some booking ->
  find (fun p => String.eqb (property_id p) (property booking)) (properties w) = Some prop ->
  (user booking = user_id requser \/ owner prop = user_id requser \/
   role requser = "admin") ->
  let po := String.eqb (owner prop) (user_id requser) in
  let ad := String.eqb (role requser) "admin" in
  let updateData := build_updateData body po ad (clock w) in
  (body !! "status" = Some (JStr "cancelled") ->
   updateData !! "cancelledAt" = Some (JDate (clock w)) /\
   (truthy_field (body !! "cancellationReason") = true ->
    updateData !! "cancellationReason" = body !! "cancellationReason") /\
   (update_accepted body po ad = true ->
    exists doc,
      fst (put_booking requser id body w) =
        Sent (mkResponse 200 true (Some "Booking updated successfully")
                (BookingData (Some doc))) /\
      find (fun b => String.eqb (booking_id b) id)
           (bookings (snd (put_booking requser id body w))) = Some doc /\
      status doc = "cancelled" /\ cancelledAt doc = Some (clock w) /\
      (forall reason, body !! "cancellationReason" = Some (JStr reason) -> reason <> "" ->
                      cancellationReason doc = Some reason) /\
      (truthy_field (body !! "cancellationReason") = false ->
       cancellationReason doc = cancellationReason booking))) /\
  (body !! "status" <> Some (JStr "cancelled") ->
   updateData !! "cancelledAt" = None /\
   forall doc, find (fun b => String.eqb (booking_id b) id)
                    (bookings (snd (put_booking requser id body w))) = Some doc ->
               cancelledAt doc = cancelledAt booking).
Proof.
  intros Hb Hp Hauth po ad updateData. split.
  - intros Hs.
    assert (Hts : truthy_field (body !! "status") = true) by (rewrite Hs; reflexivity).
    assert (Hcancel : strict_eq_str (default JNull (body !! "status")) "cancelled" = true)
      by (rewrite Hs; reflexivity).
    split; [|split].
    + unfold updateData. rewrite build_updateData_cancelledAt, Hts, Hcancel. reflexivity.
    + intros Htr. unfold updateData.
      rewrite build_updateData_cancellationReason, Hts, Hcancel, Htr. cbn [andb].
      symmetry. apply truthy_field_Some, Htr.
    + intros Hacc.
      pose proof (put_booking_authorized requser id body w booking prop Hb Hp
                    (authorized_bool _ _ _ _ Hauth)) as Hrun.
      cbv zeta in Hrun. fold po ad in Hrun. rewrite Hacc in Hrun.
      destruct Hrun as (doc & Happ & Hr & Hstore).
      destruct (apply_update_built_inv _ _ _ _ _ _ Happ)
        as (x & y & r & Hshape & Hx & _ & Hreason).
      rewrite Hts, Hcancel in Hshape, Hreason. cbn [andb] in Hshape, Hreason.
      rewrite Hts, Hs in Hx. cbn in Hx. injection Hx as <-.
      exists doc. split; [exact Hr|]. split.
      { rewrite Hstore. apply (find_replace_first id doc _ booking Hb).
        rewrite Hshape. cbn. apply (find_booking_id _ _ _ Hb). }
      rewrite Hshape. cbn. split; [reflexivity|]. split; [reflexivity|]. split.
      * intros reason Hreq Hne. rewrite Hreq in Hreason. cbn in Hreason.
        destruct (String.eqb_spec reason ""); [contradiction|]. cbn in Hreason.
        destruct Hreason as (s & Hcast & ->). congruence.
      * intros Htr. rewrite Htr in Hreason. exact Hreason.
  - intros Hs.
    assert (Hcancel : truthy_field (body !! "status")
                      && strict_eq_str (default JNull (body !! "status")) "cancelled"
                      = false).
    { destruct (body !! "status") as [[| | |s| |]|]; cbn; rewrite ?andb_false_r;
        try reflexivity.
      destruct (String.eqb_spec s "cancelled") as [->|]; [contradiction|].
      apply andb_false_r. }
    split.
    + unfold updateData. rewrite build_updateData_cancelledAt, Hcancel. reflexivity.
    + intros doc Hdoc.
      destruct (put_booking_stored _ _ _ _ _ _ Hb Hdoc)
        as [->|(prop' & Hp' & _ & Happ & _)]; [reflexivity|].
      destruct (apply_update_built_inv _ _ _ _ _ _ Happ) as (x & y & r & -> & _).
      rewrite Hcancel. reflexivity.
Qed.


Lemma paymentStatus_reserved_to_owner_and_admin_witness :
  exists doc,
    fst (put_booking alice "b1" body_confirm_paid world_booked) =
      Sent (mkResponse 200 true (Some "Booking updated successfully")
              (BookingData (Some doc))) /\
    status doc = "confirmed" /\ paymentStatus doc = "pending".
Proof.
  destruct (paymentStatus_reserved_to_owner_and_admin alice "b1" body_confirm_paid
              world_booked stay_alice flat eq_refl eq_refl) as [Hguard _].
  assert (Hnpo : owner flat <> user_id alice) by discriminate.
  assert (Hnad : role alice <> "admin") by discriminate.
  destruct (Hguard eq_refl Hnpo Hnad) as (_ & _ & _ & Hstatus).
  assert (Hs : body_confirm_paid !! "status" = Some (JStr "confirmed"))
    by (vm_compute; reflexivity).
  assert (Hne : "confirmed" <> "") by discriminate.
  assert (Hacc : update_accepted body_confirm_paid false false = true)
    by (vm_compute; reflexivity).
  destruct (Hstatus "confirmed" Hs Hne Hacc) as (doc & Hr & _ & Hst & Hps).
  exists doc. split; [exact Hr|]. split; [exact Hst|exact Hps].
Defined.

Lemma cancel_stamps_cancelledAt_witness :
  exists doc,
    fst (put_booking alice "b1" body_cancel world_booked) =
      Sent (mkResponse 200 true (Some "Booking updated successfully")
              (BookingData (Some doc))) /\
    status doc = "cancelled" /\ cancelledAt doc = Some (clock world_booked) /\
    cancellationReason doc = Some "change of plans".
Proof.
  assert (Hauth : user stay_alice = user_id alice \/ owner flat = user_id alice \/
                  role alice = "admin") by (left; reflexivity).
  destruct (cancel_stamps_cancelledAt alice "b1" body_cancel world_booked stay_alice flat
              eq_refl eq_refl Hauth) as [Hcancel _].
  assert (Hs : body_cancel !! "status" = Some (JStr "cancelled"))
    by (vm_compute; reflexivity).
  destruct (Hcancel Hs) as (_ & _ & Hstored).
  assert (Hacc : update_accepted body_cancel
                   (String.eqb (owner flat) (user_id alice))
                   (String.eqb (role alice) "admin") = true)
    by (vm_compute; reflexivity).
  destruct (Hstored Hacc) as (doc & Hr & _ & Hst & Hat & Hreason & _).
  assert (Hcr : body_cancel !! "cancellationReason" = Some (JStr "change of plans"))
    by (vm_compute; reflexivity).
  assert (Hne : "change of plans" <> "") by discriminate.
  exists doc. split; [exact Hr|]. split; [exact Hst|]. split; [exact Hat|].
  exact (Hreason "change of plans" Hcr Hne).
Defined.


(** ** GET /api/properties/:id: the view counter *)







(** ** GET /api/properties: pages and default order *)

Lemma get_properties_run `{Platform} q w :
  let page := default 1 (q_page q) in
  let limit := default 10 (q_limit q) in
  let sortBy := default "createdAt" (q_sortBy q) in
  let direction := if String.eqb (default "desc" (q_order q)) "desc" then -1 else 1 in
  match build_query q with
  | inl _ =>
      fst (get_properties q w) = Sent (json_error 500 "Server error while fetching properties")
  | inr query =>
      if negb (query_casts query) || ((page - 1) * limit <? 0) then
        fst (get_properties q w) =
        Sent (json_error 500 "Server error while fetching properties")
      else
        let found := filter (fun p => Is_true (matches query p)) (properties w) in
        fst (get_properties q w) =
        Sent (mkResponse 200 true None
                (PropertyList
                   (limit_docs (limit * 1)
                      (drop (Z.to_nat ((page - 1) * limit))
                         (merge_sort (sort_rel sortBy direction) found)))
                   (total_pages (Z.of_nat (length found)) limit) page
                   (Z.of_nat (length found))))
  end.
Proof.
  cbv zeta. unfold get_properties, get_properties_body, get_properties_catch,
    Property_find, Property_countDocuments.
  destruct (build_query q) as [e|query]; [run_handler; reflexivity|].
  run_handler.
  destruct (query_casts query); cbn [negb orb]; [|run_handler; reflexivity].
  destruct ((default 1 (q_page q) - 1) * default 10 (q_limit q) <? 0);
    run_handler; reflexivity.
Qed.

Lemma build_query_no_filters `{Platform} q :
  no_filters q -> build_query q = inr empty_query.
Proof.
  intros (Hs & Hc & Hmin & Hmax & Ht & Hb & Ha).
  unfold build_query. rewrite Hs, Hc, Hmin, Hmax, Ht, Hb, Ha. reflexivity.
Qed.

Lemma filter_empty_query `{Platform} (l : list Property) :
  filter (fun p => Is_true (matches empty_query p)) l = l.
Proof.
  induction l as [|p l IH]; [reflexivity|].
  rewrite filter_cons. destruct (decide _) as [_|Hn]; [rewrite IH; reflexivity|].
  exfalso. apply Hn. exact I.
Qed.

Lemma sort_rel_createdAt_desc p q :
  sort_rel "createdAt" (-1) p q <-> newest_first p q.
Proof.
  unfold sort_rel, newest_first. cbn. rewrite Is_true_true, Z.leb_le. reflexivity.
Qed.

#[local] Instance sort_rel_createdAt_total : Total (sort_rel "createdAt" (-1)).
Proof.
  intros p q. rewrite !sort_rel_createdAt_desc. unfold newest_first. lia.
Qed.

Lemma Sorted_newest_first (l : list Property) :
  Sorted (sort_rel "createdAt" (-1)) l -> Sorted newest_first l.
Proof.
  induction 1 as [|a l Hs IH Hhd]; constructor; [exact IH|].
  destruct Hhd; constructor. apply sort_rel_createdAt_desc. assumption.
Qed.

(** C8: a successful listing reports the number of matching documents,
    the ceiling of that number over the limit as totalPages, and the
    slice of the sorted matches that starts [(page - 1) * limit]
    documents in; with no filter parameter and no sort parameter the
    matches are all the stored properties, newest first. *)
Theorem listing_pages_and_default_order `{Platform} q w :
  let page := default 1 (q_page q) in
  let limit := default 10 (q_limit q) in
  (forall r, fst (get_properties q w) = Sent r -> statusCode r = 200 ->
     exists query docs sorted,
       build_query q = inr query /\
       sorted ≡ₚ filter (fun p => Is_true (matches query p)) (properties w) /\
       data r = PropertyList docs (total_pages (Z.of_nat (length sorted)) limit) page
                  (Z.of_nat (length sorted)) /\
       (limit <> 0 ->
        total_pages (Z.of_nat (length sorted)) limit
        = Some (ceil_div (Z.of_nat (length sorted)) limit)) /\
       (0 < limit ->
        limit * (ceil_div (Z.of_nat (length sorted)) limit - 1)
        < Z.of_nat (length sorted)
        <= limit * ceil_div (Z.of_nat (length sorted)) limit) /\
       0 <= (page - 1) * limit /\
       docs = limit_docs limit (drop (Z.to_nat ((page - 1) * limit)) sorted)) /\
  (no_filters q -> q_sortBy q = None -> q_order q = None -> 1 <= page -> 0 < limit ->
   exists listing,
     listing ≡ₚ properties w /\ Sorted newest_first listing /\
     fst (get_properties q w) =
     Sent (mkResponse 200 true None
             (PropertyList
                (take (Z.to_nat limit) (drop (Z.to_nat ((page - 1) * limit)) listing))
                (Some (ceil_div (Z.of_nat (length (properties w))) limit)) page
                (Z.of_nat (length (properties w)))))).
Proof.
  intros page limit. pose proof (get_properties_run q w) as Hrun. cbv zeta in Hrun.
  fold page limit in Hrun. split.
  - intros r Hr Hcode.
    destruct (build_query q) as [e|query].
    { rewrite Hrun in Hr. injection Hr as <-. discriminate. }
    destruct (negb (query_casts query) || ((page - 1) * limit <? 0)) eqn:Hok.
    { rewrite Hrun in Hr. injection Hr as <-. discriminate. }
    apply orb_false_elim in Hok. destruct Hok as [_ Hskip].
    apply Z.ltb_ge in Hskip.
    rewrite Hrun in Hr. injection Hr as <-. cbn [data].
    set (found := filter (fun p => Is_true (matches query p)) (properties w)).
    match goal with
    | |- context [merge_sort ?R found] => set (sorted := merge_sort R found)
    end.
    assert (Hperm : sorted ≡ₚ found) by apply merge_sort_Permutation.
    exists query, (limit_docs (limit * 1) (drop (Z.to_nat ((page - 1) * limit)) sorted)),
      sorted.
    split; [reflexivity|]. split; [exact Hperm|].
    rewrite (Permutation_length Hperm).
    split; [reflexivity|].
    split.
    { intros Hne. unfold total_pages. destruct (Z.eqb_spec limit 0); [contradiction|].
      reflexivity. }
    split; [intros Hpos; apply ceil_div_bounds, Hpos|].
    split; [exact Hskip|]. rewrite Z.mul_1_r. reflexivity.
  - intros Hnone HsortBy Horder Hpage Hlimit.
    rewrite (build_query_no_filters q Hnone) in Hrun.
    rewrite HsortBy, Horder in Hrun. cbn [default] in Hrun.
    change (String.eqb "desc" "desc") with true in Hrun. cbv iota in Hrun.
    change (query_casts empty_query) with true in Hrun. cbn [negb orb] in Hrun.
    destruct (Z.ltb_spec ((page - 1) * limit) 0) as [Hneg|_]; [nia|].
    rewrite filter_empty_query in Hrun.
    exists (merge_sort (sort_rel "createdAt" (-1)) (properties w)).
    split; [apply merge_sort_Permutation|].
    split; [apply Sorted_newest_first, Sorted_merge_sort, _|].
    rewrite Hrun. unfold limit_docs, total_pages.
    destruct (Z.eqb_spec (limit * 1) 0); [lia|].
    destruct (Z.eqb_spec limit 0); [lia|].
    rewrite Z.mul_1_r, Z.abs_eq by lia. reflexivity.
Qed.

Lemma listing_pages_and_default_order_witness :
  exists listing,
    listing ≡ₚ [flat; loft] /\ Sorted newest_first listing /\
    fst (get_properties (H := sample_platform) plain_listing world_two) =
    Sent (mkResponse 200 true None (PropertyList (take 10 listing) (Some 1) 1 2)).
Proof.
  assert (Hnone : no_filters plain_listing) by (repeat split).
  assert (Hpage : 1 <= default 1 (q_page plain_listing)) by (vm_compute; discriminate).
  assert (Hlimit : 0 < default 10 (q_limit plain_listing)) by reflexivity.
  destruct (listing_pages_and_default_order (H := sample_platform) plain_listing world_two)
    as [_ Hdefault].
  destruct (Hdefault Hnone eq_refl eq_refl Hpage Hlimit) as (listing & Hperm & Hsorted & Hr).
  exists listing. split; [exact Hperm|]. split; [exact Hsorted|]. exact Hr.
Defined.

(** ** The asset store under the cleanup loops *)

Lemma cloudinary_destroy_run k w :
  cloudinary_destroy k w =
  (Next tt,
   match cloud w !! k with
   | Some true => set_cloud (delete k (cloud w)) w
   | Some false => set_console (console w ++ ["Error deleting from Cloudinary: " +:+ k]) w
   | None => w
   end).
Proof.
  unfold cloudinary_destroy. run_handler.
  destruct (cloud w !! k) as [[|]|]; reflexivity.
Qed.

Lemma unlink_if_present_run p w :
  unlink_if_present p w =
  match disk w !! p with
  | Some true => (Next tt, set_disk (delete p (disk w)) w)
  | Some false => (Raise (FsError p), w)
  | None => (Next tt, w)
  end.
Proof.
  unfold unlink_if_present, fs_existsSync, fs_unlinkSync. run_handler.
  destruct (disk w !! p) as [[|]|] eqn:E; cbn; rewrite ?E; reflexivity.
Qed.

Lemma forEach_cons {A} (x : A) l f w :
  forEach (x :: l) f w =
  match f x w with
  | (Next _, w') => forEach l f w'
  | (Reply r, w') => (Reply r, w')
  | (Raise e, w') => (Raise e, w')
  end.
Proof. cbn [forEach]. unfold bind. destruct (f x w) as [[?|?|?] ?]; reflexivity. Qed.

(** A loop of [destroy] calls never throws; it leaves the documents and
    the disk alone, removes every asset whose deletion succeeds and
    keeps, and logs, every asset whose deletion is rejected. *)
Lemma forEach_destroy {A} (sel : A -> option string) (f : A -> Handler unit) (l : list A) :
  (forall x, f x = match sel x with
                   | Some k => cloudinary_destroy k
                   | None => ret tt
                   end) ->
  forall w, exists w',
    forEach l f w = (Next tt, w') /\
    properties w' = properties w /\ bookings w' = bookings w /\ disk w' = disk w /\
    (forall k, cloud w !! k = Some false -> cloud w' !! k = Some false) /\
    (forall k, cloud w !! k = None -> cloud w' !! k = None) /\
    (forall k, (forall x, In x l -> sel x <> Some k) -> cloud w' !! k = cloud w !! k) /\
    (forall x k, In x l -> sel x = Some k -> cloud w !! k <> Some false ->
                 cloud w' !! k = None) /\
    (forall line, In line (console w) -> In line (console w')) /\
    (forall x k, In x l -> sel x = Some k -> cloud w !! k = Some false ->
                 In ("Error deleting from Cloudinary: " +:+ k) (console w')).
Proof.
  intros Hf. induction l as [|x l IH]; intros w.
  - exists w. cbn. repeat split; auto; contradiction.
  - rewrite forEach_cons, Hf.
    destruct (sel x) as [k0|] eqn:Hsel.
    + rewrite cloudinary_destroy_run.
      set (w1 := match cloud w !! k0 with
                 | Some true => set_cloud (delete k0 (cloud w)) w
                 | Some false =>
                     set_console (console w ++ ["Error deleting from Cloudinary: " +:+ k0]) w
                 | None => w
                 end).
      assert (Hw1 : properties w1 = properties w /\ bookings w1 = bookings w /\
                    disk w1 = disk w /\
                    (forall k, cloud w1 !! k =
                               if decide (k0 = k /\ cloud w !! k0 = Some true)
                               then None else cloud w !! k) /\
                    (forall line, In line (console w) -> In line (console w1)) /\
                    (cloud w !! k0 = Some false ->
                     In ("Error deleting from Cloudinary: " +:+ k0) (console w1))).
      { unfold w1. destruct (cloud w !! k0) as [[|]|] eqn:E; cbn.
        - repeat split; auto; [|discriminate].
          intros k. destruct (decide (k0 = k /\ Some true = Some true)) as [[-> _]|Hn].
          + apply lookup_delete_eq.
          + apply lookup_delete_ne. intros ->. apply Hn. auto.
        - repeat split; auto.
          + intros k. destruct (decide _) as [[_ ?]|_]; [discriminate|reflexivity].
          + intros line Hin. apply in_or_app. auto.
          + intros _. apply in_or_app. right. left. reflexivity.
        - repeat split; auto; [|discriminate].
          intros k. destruct (decide _) as [[_ ?]|_]; [discriminate|reflexivity]. }
      clearbody w1.
      destruct Hw1 as (Hp1 & Hb1 & Hd1 & Hc1 & Hlog1 & Herr1).
      destruct (IH w1) as (w' & Hrun & Hp & Hb & Hd & Hkeep & Hnone & Hother & Hgone
                           & Hlog & Herr).
      exists w'. split; [exact Hrun|].
      split; [congruence|]. split; [congruence|]. split; [congruence|].
      split; [|split; [|split; [|split; [|split]]]].
      * intros k Hk. apply Hkeep. rewrite Hc1.
        destruct (decide _) as [[-> Ht]|_]; [congruence|exact Hk].
      * intros k Hk. apply Hnone. rewrite Hc1. destruct (decide _); auto.
      * intros k Hnot. rewrite Hother by (intros y Hy; apply Hnot; right; exact Hy).
        rewrite Hc1. destruct (decide _) as [[-> _]|_]; [|reflexivity].
        exfalso. apply (Hnot x); [left; reflexivity|exact Hsel].
      * intros y k [<-|Hy] Hk Hok.
        -- rewrite Hsel in Hk. injection Hk as ->.
           apply Hnone. rewrite Hc1. destruct (decide _) as [_|Hn]; [reflexivity|].
           destruct (cloud w !! k) as [[|]|] eqn:E; [|contradiction|reflexivity].
           exfalso. apply Hn. auto.
        -- destruct (decide (k0 = k /\ cloud w !! k0 = Some true)) as [[-> Ht]|Hn].
           ++ apply Hnone. rewrite Hc1. destruct (decide _) as [_|Hn']; [reflexivity|].
              exfalso. apply Hn'. auto.
           ++ apply (Hgone y k Hy Hk). rewrite Hc1.
              destruct (decide _) as [Hyes|_]; [contradiction|exact Hok].
      * intros line Hin. apply Hlog, Hlog1, Hin.
      * intros y k [<-|Hy] Hk Hbad.
        -- rewrite Hsel in Hk. injection Hk as ->. apply Hlog, Herr1, Hbad.
        -- apply (Herr y k Hy Hk). rewrite Hc1.
           destruct (decide _) as [[-> Ht]|_]; [congruence|exact Hbad].
    + cbn [ret]. unfold ret.
      destruct (IH w) as (w' & Hrun & Hp & Hb & Hd & Hkeep & Hnone & Hother & Hgone
                          & Hlog & Herr).
      exists w'. split; [exact Hrun|]. repeat (split; [assumption|]).
      split; [|split; [|split; [exact Hlog|]]].
      * intros k Hnot. apply Hother. intros y Hy. apply Hnot. right. exact Hy.
      * intros y k [<-|Hy] Hk; [congruence|]. apply (Hgone y k Hy Hk).
      * intros y k [<-|Hy] Hk; [congruence|]. apply (Herr y k Hy Hk).
Qed.

(** A loop of [existsSync]/[unlinkSync] over files that can all be
    unlinked removes them and throws nothing. *)
Lemma forEach_unlink_ok {A} (sel : A -> string) (f : A -> Handler unit) (l : list A) :
  (forall x, f x = unlink_if_present (sel x)) ->
  forall w,
    (forall x, In x l -> disk w !! sel x <> Some false) ->
    exists w',
      forEach l f w = (Next tt, w') /\
      properties w' = properties w /\ bookings w' = bookings w /\
      cloud w' = cloud w /\ console w' = console w /\
      (forall x, In x l -> disk w' !! sel x = None) /\
      (forall p, disk w' !! p = None \/ disk w' !! p = disk w !! p).
Proof.
  intros Hf. induction l as [|x l IH]; intros w Hok.
  - exists w. cbn. repeat split; auto; contradiction.
  - rewrite forEach_cons, Hf, unlink_if_present_run.
    assert (Hx : disk w !! sel x <> Some false) by (apply Hok; left; reflexivity).
    destruct (disk w !! sel x) as [[|]|] eqn:E; [|contradiction|].
    + set (w1 := set_disk (delete (sel x) (disk w)) w).
      destruct (IH w1) as (w' & Hrun & Hp & Hb & Hc & Hlog & Hgone & Hdisk).
      { intros y Hy. unfold w1. cbn.
        destruct (decide (sel x = sel y)) as [->|Hne].
        - rewrite lookup_delete_eq. discriminate.
        - rewrite lookup_delete_ne by exact Hne. apply Hok. right. exact Hy. }
      exists w'. split; [exact Hrun|]. repeat (split; [assumption|]). split.
      * intros y [<-|Hy]; [|apply Hgone, Hy].
        destruct (Hdisk (sel x)) as [Hn|Heq]; [exact Hn|].
        rewrite Heq. unfold w1. cbn. apply lookup_delete_eq.
      * intros p. destruct (Hdisk p) as [Hn|Heq]; [auto|].
        rewrite Heq. unfold w1. cbn.
        destruct (decide (sel x = p)) as [->|Hne].
        -- left. apply lookup_delete_eq.
        -- right. apply lookup_delete_ne, Hne.
    + destruct (IH w) as (w' & Hrun & Hp & Hb & Hc & Hlog & Hgone & Hdisk).
      { intros y Hy. apply Hok. right. exact Hy. }
      exists w'. split; [exact Hrun|]. repeat (split; [assumption|]). split; [|exact Hdisk].
      intros y [<-|Hy]; [|apply Hgone, Hy].
      destruct (Hdisk (sel x)) as [Hn|Heq]; [exact Hn|]. rewrite Heq. exact E.
Qed.

(** The same loop throws at the first file [unlinkSync] fails on, and
    nothing catches it inside the loop. *)
Lemma forEach_unlink_raises {A} (sel : A -> string) (f : A -> Handler unit) (l : list A) :
  (forall x, f x = unlink_if_present (sel x)) ->
  forall w,
    (exists x, In x l /\ disk w !! sel x = Some false) ->
    exists p w',
      forEach l f w = (Raise (FsError p), w') /\
      properties w' = properties w /\ bookings w' = bookings w /\
      cloud w' = cloud w /\ console w' = console w /\ dbLog w' = dbLog w /\
      (forall q, disk w !! q = Some false -> disk w' !! q = Some false).
Proof.
  intros Hf. induction l as [|x l IH]; intros w (y & Hy & Hbad); [contradiction|].
  rewrite forEach_cons, Hf, unlink_if_present_run.
  destruct (disk w !! sel x) as [[|]|] eqn:E.
  - set (w1 := set_disk (delete (sel x) (disk w)) w).
    assert (Hkeep : forall q, disk w !! q = Some false -> disk w1 !! q = Some false).
    { intros q Hq. unfold w1. cbn. rewrite lookup_delete_ne; [exact Hq|].
      intros Heq. rewrite Heq in E. congruence. }
    destruct (IH w1) as (p & w' & Hrun & Hp & Hb & Hc & Hlog & Hdb & Hdisk).
    { destruct Hy as [<-|Hy]; [congruence|]. exists y. split; [exact Hy|apply Hkeep, Hbad]. }
    exists p, w'. split; [exact Hrun|]. repeat (split; [assumption|]).
    intros q Hq. apply Hdisk, Hkeep, Hq.
  - exists (sel x), w. repeat split; auto.
  - destruct (IH w) as (p & w' & Hres).
    { destruct Hy as [<-|Hy]; [congruence|]. exists y. auto. }
    exists p, w'. exact Hres.
Qed.

(** ** Choice of the asset store *)

(** Without the three variables, or with the placeholder of the sample
    environment file left in, the application stores uploads on the
    local disk. *)
Lemma isCloudinaryConfigured_needs_all env :
  isCloudinaryConfigured env = true ->
  env_set env "CLOUDINARY_CLOUD_NAME" = true /\
  env_set env "CLOUDINARY_API_KEY" = true /\
  env_set env "CLOUDINARY_API_SECRET" = true /\
  env !! "CLOUDINARY_CLOUD_NAME" <> Some "your_cloud_name".
Proof.
  unfold isCloudinaryConfigured, env_is. rewrite !andb_true_iff, !negb_true_iff.
  intros (((((H1 & H2) & H3) & H4) & _) & _). repeat split; try assumption.
  intros Heq. rewrite Heq in H4. discriminate.
Qed.

(** ** DELETE /api/properties/:id *)

Lemma remove_property_gone id l p :
  find (fun p => String.eqb (property_id p) id) l = Some p ->
  length (remove_property id l) = pred (length l).
Proof.
  induction l as [|a l IH]; [discriminate|]. cbn.
  destruct (String.eqb (property_id a) id); [reflexivity|].
  intros H. cbn. rewrite (IH H). destruct l; [discriminate|reflexivity].
Qed.

(** With the cloud host, the cleanup is best-effort: whatever the host
    answers to the [destroy] calls, the owner's or an admin's request
    deletes the property and gets a 200, and every rejected deletion is
    on the console. *)
Lemma delete_property_cloud_best_effort `{Platform} requser id w prop :
  find (fun p => String.eqb (property_id p) id) (properties w) = Some prop ->
  (owner prop = user_id requser \/ role requser = "admin") ->
  fst (delete_property true requser id w) =
    Sent (mkResponse 200 true (Some "Property deleted successfully") NoData) /\
  properties (snd (delete_property true requser id w)) = remove_property id (properties w) /\
  (forall imageUrl m, In imageUrl (images prop) -> match_public_id imageUrl = Some m ->
     cloud w !! ("property-rental/properties/" +:+ m) = Some false ->
     In ("Error deleting from Cloudinary: " +:+ ("property-rental/properties/" +:+ m))
        (console (snd (delete_property true requser id w)))).
Proof.
  intros Hfind Hauth.
  assert (Hgate : negb (String.eqb (owner prop) (user_id requser))
                  && negb (String.eqb (role requser) "admin") = false).
  { destruct Hauth as [-> | ->]; rewrite String.eqb_refl; cbn;
      rewrite ?andb_false_r; reflexivity. }
  unfold delete_property, delete_property_body, delete_property_catch, Property_findById,
    Property_findByIdAndDelete.
  run_handler. rewrite Hfind, Hgate. run_handler.
  unfold delete_images.
  destruct (images prop) as [|img imgs] eqn:Himgs.
  - run_handler. repeat split; auto. intros ? ? [].
  - cbn [isEmpty negb].
    destruct (forEach_destroy
                (fun imageUrl =>
                   match match_public_id imageUrl with
                   | Some m => Some ("property-rental/properties/" +:+ m)
                   | None => None
                   end)
                (fun imageUrl =>
                   match match_public_id imageUrl with
                   | Some m => cloudinary_destroy ("property-rental/properties/" +:+ m)
                   | None => ret tt
                   end)
                (img :: imgs)
                ltac:(intros x; cbv beta; destruct (match_public_id x); reflexivity)
                (set_dbLog (dbLog w ++ [Property_findById_op id]) w))
      as (w' & Hrun & Hp & _ & _ & _ & _ & _ & _ & _ & Herr).
    rewrite Hrun. run_handler. split; [reflexivity|]. split; [rewrite Hp; reflexivity|].
    intros imageUrl m Hin Hm Hbad.
    apply (Herr imageUrl); [exact Hin|rewrite Hm; reflexivity|exact Hbad].
Qed.

(** On local disk there is no such protection: one file that
    [unlinkSync] refuses turns the request into a 500 and the property
    stays in the store. *)
Lemma delete_property_local_unlink_error `{Platform} requser id w prop img :
  find (fun p => String.eqb (property_id p) id) (properties w) = Some prop ->
  (owner prop = user_id requser \/ role requser = "admin") ->
  In img (images prop) -> disk w !! path_join img = Some false ->
  fst (delete_property false requser id w) =
    Sent (json_error 500 "Server error while deleting property") /\
  properties (snd (delete_property false requser id w)) = properties w /\
  dbLog (snd (delete_property false requser id w)) = dbLog w ++ [Property_findById_op id].
Proof.
  intros Hfind Hauth Himg Hbad.
  assert (Hgate : negb (String.eqb (owner prop) (user_id requser))
                  && negb (String.eqb (role requser) "admin") = false).
  { destruct Hauth as [-> | ->]; rewrite String.eqb_refl; cbn;
      rewrite ?andb_false_r; reflexivity. }
  unfold delete_property, delete_property_body, delete_property_catch, Property_findById,
    Property_findByIdAndDelete.
  run_handler. rewrite Hfind, Hgate. run_handler.
  unfold delete_images.
  destruct (images prop) as [|i0 imgs] eqn:Himgs; [contradiction|].
  cbn [isEmpty negb].
  destruct (forEach_unlink_raises path_join
              (fun imagePath => unlink_if_present (path_join imagePath))
              (i0 :: imgs) ltac:(reflexivity)
              (set_dbLog (dbLog w ++ [Property_findById_op id]) w)
              ltac:(exists img; split; [exact Himg|exact Hbad]))
    as (p & w' & Hrun & Hp & _ & _ & _ & Hdb & _).
  rewrite Hrun. run_handler. rewrite Hp, Hdb. auto.
Qed.

(** C5, at a failing input: with local storage, the owner deletes a
    property whose picture the file system refuses to unlink; the
    handler answers 500 and never issues the delete.  With the cloud
    host the same kind of failure is logged and the property is
    deleted. *)
Theorem local_unlink_error_blocks_property_delete :
  fst (delete_property (H := sample_platform) false olivia "p3" world_locked_file) =
    Sent (json_error 500 "Server error while deleting property") /\
  properties (snd (delete_property (H := sample_platform) false olivia "p3"
                     world_locked_file)) = [cottage] /\
  dbLog (snd (delete_property (H := sample_platform) false olivia "p3" world_locked_file))
    = [Property_findById_op "p3"] /\
  fst (delete_property (H := sample_platform) true olivia "p4" world_host_down) =
    Sent (mkResponse 200 true (Some "Property deleted successfully") NoData) /\
  properties (snd (delete_property (H := sample_platform) true olivia "p4"
                     world_host_down)) = [] /\
  console (snd (delete_property (H := sample_platform) true olivia "p4" world_host_down))
    = ["Error deleting from Cloudinary: property-rental/properties/abc"].
Proof. repeat split; vm_compute; reflexivity. Qed.

(** ** POST /api/properties: the uploads of a failed request *)

(** The cleanup block: with the cloud host it never throws and removes
    every asset the host agrees to destroy; on local disk it removes
    every file when no [unlinkSync] fails. *)
Lemma delete_uploaded_ok (USE_CLOUDINARY : bool) files w0 :
  (USE_CLOUDINARY = true \/ forall f, In f files -> disk w0 !! file_path f <> Some false) ->
  exists w',
    delete_uploaded USE_CLOUDINARY files w0 = (Next tt, w') /\
    properties w' = properties w0 /\
    (if USE_CLOUDINARY
     then forall f, In f files -> file_filename f <> "" ->
                    cloud w0 !! file_filename f <> Some false ->
                    cloud w' !! file_filename f = None
     else forall f, In f files -> disk w' !! file_path f = None).
Proof.
  intros Hcan. unfold delete_uploaded.
  destruct files as [|f0 files].
  { exists w0. cbn. split; [reflexivity|]. split; [reflexivity|].
    destruct USE_CLOUDINARY; intros ? []. }
  cbn [isEmpty negb]. destruct USE_CLOUDINARY.
  - destruct (forEach_destroy
                (fun file => if negb (String.eqb (file_filename file) "")
                             then Some (file_filename file) else None)
                (fun file => if negb (String.eqb (file_filename file) "")
                             then cloudinary_destroy (file_filename file) else ret tt)
                (f0 :: files)
                ltac:(intros x; cbv beta;
                      destruct (negb (String.eqb (file_filename x) "")); reflexivity)
                w0)
      as (w' & Hrun & Hp & _ & _ & _ & _ & _ & Hgone & _).
    exists w'. split; [exact Hrun|]. split; [exact Hp|].
    intros f Hin Hname Hok. apply (Hgone f); [exact Hin| |exact Hok].
    destruct (String.eqb_spec (file_filename f) ""); [contradiction|reflexivity].
  - destruct Hcan as [?|Hcan]; [discriminate|].
    destruct (forEach_unlink_ok file_path
                (fun file => unlink_if_present (file_path file))
                (f0 :: files) ltac:(reflexivity) w0 Hcan)
      as (w' & Hrun & Hp & _ & _ & _ & Hgone & _).
    exists w'. split; [exact Hrun|]. split; [exact Hp|exact Hgone].
Qed.



(** A missing field is reported by the manual validation whenever the
    validation runs to its end. *)
Lemma manual_validation_reports_missing `{Platform} d errors :
  manual_validation d = inr errors ->
  (truthy_field (in_title d) = false -> In ("title", "Title is required") errors) /\
  (truthy_field (in_description d) = false ->
   In ("description", "Description is required") errors) /\
  (truthy_field (in_price d) = false -> In ("price", "Price must be a valid number") errors) /\
  (truthy_field (location_field in_address (in_location d)) = false ->
   In ("location.address", "Address is required") errors) /\
  (truthy_field (location_field in_city (in_location d)) = false ->
   In ("location.city", "City is required") errors) /\
  (truthy_field (location_field in_country (in_location d)) = false ->
   In ("location.country", "Country is required") errors).
Proof.
  unfold manual_validation, and_then.
  assert (Hmiss : forall f m v e, check_text f m v = inr e -> truthy_field v = false ->
                                  In (f, m) e).
  { intros f m v e Hc Hv. unfold check_text in Hc. rewrite Hv in Hc. cbn in Hc.
    injection Hc as <-. left. reflexivity. }
  destruct (check_text "title" _ _) as [?|e1] eqn:H1; [discriminate|].
  destruct (check_text "description" _ _) as [?|e2] eqn:H2; [discriminate|].
  destruct (check_text "location.address" _ _) as [?|e4] eqn:H4; [discriminate|].
  destruct (check_text "location.city" _ _) as [?|e5] eqn:H5; [discriminate|].
  destruct (check_text "location.country" _ _) as [?|e6] eqn:H6; [discriminate|].
  intros Herr. injection Herr as <-.
  repeat split; intros Hv; rewrite !in_app_iff.
  - left. eapply Hmiss; eauto.
  - right. left. eapply Hmiss; eauto.
  - right. right. left. unfold check_price. rewrite Hv. cbn. auto.
  - do 3 right. left. eapply Hmiss; eauto.
  - do 4 right. left. eapply Hmiss; eauto.
  - do 5 right. eapply Hmiss; eauto.
Qed.




(* ================================================================== *)
(** * Properties of the other routes *)

(** ** Bookings: what every sequence of requests preserves *)

Lemma post_booking_effect requser body w :
  exists r, fst (post_booking requser body w) = Sent r /\
  properties (snd (post_booking requser body w)) = properties w /\
  disk (snd (post_booking requser body w)) = disk w /\
  cloud (snd (post_booking requser body w)) = cloud w /\
  clock (snd (post_booking requser body w)) = clock w /\
  ((statusCode r <> 201 /\ bookings (snd (post_booking requser body w)) = bookings w /\
    nextId (snd (post_booking requser body w)) = nextId w) \/
   (statusCode r = 201 /\
    exists propertyId c d g prop,
      body_property body = Some propertyId /\ body_checkIn body = Some c /\
      body_checkOut body = Some d /\ body_guests body = Some g /\
      find (fun p => String.eqb (property_id p) propertyId) (properties w) = Some prop /\
      isAvailable prop = true /\
      find (conflict_query propertyId c d) (bookings w) = None /\
      let doc := new_Booking (fresh_id w)
                   (requested_fields requser prop propertyId c d g
                      (body_specialRequests body)) in
      pre_validate doc = None /\ booking_validators doc = [] /\
      bookings (snd (post_booking requser body w)) = bookings w ++ [doc] /\
      nextId (snd (post_booking requser body w)) = N.succ (nextId w))).
Proof.
  unfold post_booking, post_booking_body.
  destruct (validationResult body) as [|e errors] eqn:Ev.
  - apply validationResult_nil in Ev.
    destruct Ev as (propertyId & c & d & g & Hp & Hne & Hc & Hd & Hg & Hg1).
    rewrite Hp, Hc, Hd, Hg. unfold Property_findById. run_handler.
    destruct (find _ (properties w)) as [prop|] eqn:Hfind.
    + destruct (isAvailable prop) eqn:Hav; run_handler.
      * unfold book_dates, Booking_findOne. run_handler.
        destruct (find (conflict_query _ _ _) (bookings w)) eqn:Hconf.
        -- eexists. split; [reflexivity|]. cbn. repeat split; try reflexivity.
           left. repeat split; try reflexivity. lia.
        -- unfold Booking_create. run_handler.
           fold (requested_fields requser prop propertyId c d g (body_specialRequests body)).
           destruct (pre_validate _) eqn:Hpre; run_handler.
           ++ unfold post_booking_catch. run_handler.
              eexists. split; [reflexivity|]. cbn. repeat split; try reflexivity.
              left. repeat split; try reflexivity. lia.
           ++ destruct (booking_validators _) eqn:Hval; run_handler.
              ** unfold Booking_findById. run_handler.
                 eexists. split; [reflexivity|]. cbn. repeat split; try reflexivity.
                 right. split; [reflexivity|].
                 exists propertyId, c, d, g, prop. repeat split; try assumption; reflexivity.
              ** unfold post_booking_catch. run_handler.
                 eexists. split; [reflexivity|]. cbn. repeat split; try reflexivity.
                 left. repeat split; try reflexivity. lia.
      * eexists. split; [reflexivity|]. cbn. repeat split; try reflexivity.
        left. repeat split; try reflexivity. lia.
    + eexists. split; [reflexivity|]. cbn. repeat split; try reflexivity.
      left. repeat split; try reflexivity. lia.
  - run_handler. eexists. split; [reflexivity|]. cbn. repeat split; try reflexivity.
    left. repeat split; try reflexivity. lia.
Qed.


Lemma put_booking_effect requser id body w :
  exists r, fst (put_booking requser id body w) = Sent r /\
  properties (snd (put_booking requser id body w)) = properties w /\
  disk (snd (put_booking requser id body w)) = disk w /\
  cloud (snd (put_booking requser id body w)) = cloud w /\
  nextId (snd (put_booking requser id body w)) = nextId w /\
  ((statusCode r <> 200 /\ bookings (snd (put_booking requser id body w)) = bookings w) \/
   (exists booking prop doc,
      find (fun b => String.eqb (booking_id b) id) (bookings w) = Some booking /\
      find (fun p => String.eqb (property_id p) (property booking)) (properties w)
        = Some prop /\
      negb (String.eqb (user booking) (user_id requser))
      && negb (String.eqb (owner prop) (user_id requser))
      && negb (String.eqb (role requser) "admin") = false /\
      apply_update booking_paths
        (build_updateData body (String.eqb (owner prop) (user_id requser))
           (String.eqb (role requser) "admin") (clock w)) booking = inr doc /\
      update_validators
        (build_updateData body (String.eqb (owner prop) (user_id requser))
           (String.eqb (role requser) "admin") (clock w)) doc = [] /\
      r = mkResponse 200 true (Some "Booking updated successfully")
            (BookingData (Some doc)) /\
      bookings (snd (put_booking requser id body w)) = replace_first id doc (bookings w))).
Proof.
  assert (Hrefused : forall (code : Z) msg w',
            code <> 200 -> properties w' = properties w -> disk w' = disk w ->
            cloud w' = cloud w -> nextId w' = nextId w -> bookings w' = bookings w ->
            exists r, Sent (json_error code msg) = Sent r /\
              properties w' = properties w /\ disk w' = disk w /\ cloud w' = cloud w /\
              nextId w' = nextId w /\
              ((statusCode r <> 200 /\ bookings w' = bookings w) \/
               (exists booking prop doc,
                  find (fun b => String.eqb (booking_id b) id) (bookings w) = Some booking /\
                  find (fun p => String.eqb (property_id p) (property booking))
                    (properties w) = Some prop /\
                  negb (String.eqb (user booking) (user_id requser))
                  && negb (String.eqb (owner prop) (user_id requser))
                  && negb (String.eqb (role requser) "admin") = false /\
                  apply_update booking_paths
                    (build_updateData body (String.eqb (owner prop) (user_id requser))
                       (String.eqb (role requser) "admin") (clock w)) booking = inr doc /\
                  update_validators
                    (build_updateData body (String.eqb (owner prop) (user_id requser))
                       (String.eqb (role requser) "admin") (clock w)) doc = [] /\
                  r = mkResponse 200 true (Some "Booking updated successfully")
                        (BookingData (Some doc)) /\
                  bookings w' = replace_first id doc (bookings w)))).
  { intros code msg w' Hcode H1 H2 H3 H4 H5. eexists. split; [reflexivity|].
    repeat (split; [assumption|]). left. split; assumption. }
  unfold put_booking, put_booking_body, Booking_findById_populate, Booking_findById,
    Property_findById, put_booking_catch.
  run_handler.
  destruct (find _ (bookings w)) as [booking|] eqn:Hb; run_handler.
  2: { apply Hrefused; [lia|reflexivity..]. }
  destruct (find _ (properties w)) as [prop|] eqn:Hp; run_handler.
  2: { apply Hrefused; [lia|reflexivity..]. }
  destruct (negb _ && negb _ && negb _) eqn:Hauth; run_handler.
  { apply Hrefused; [lia|reflexivity..]. }
  unfold Booking_findByIdAndUpdate. run_handler. rewrite Hb.
  destruct (apply_update _ _ booking) as [e|doc] eqn:Hap; run_handler.
  { apply Hrefused; [lia|reflexivity..]. }
  destruct (update_validators _ doc) eqn:Hval; run_handler.
  - eexists. split; [reflexivity|].
    repeat (split; [reflexivity|]).
    right. exists booking, prop, doc.
    repeat (split; [first [assumption|reflexivity]|]). reflexivity.
  - apply Hrefused; [lia|reflexivity..].
Qed.

Lemma updated_booking_fields body po ad now b doc :
  apply_update booking_paths (build_updateData body po ad now) b = inr doc ->
  booking_id doc = booking_id b /\ property doc = property b /\ user doc = user b /\
  checkIn doc = checkIn b /\ checkOut doc = checkOut b /\ guests doc = guests b /\
  totalPrice doc = totalPrice b /\ specialRequests doc = specialRequests b /\
  (status doc = status b \/ requested_status body = Some (status doc)).
Proof.
  intros Hap. apply apply_update_built_inv in Hap.
  destruct Hap as (x & y & r & -> & Hx & _ & _). cbn.
  repeat split; try reflexivity.
  unfold requested_status.
  destruct (truthy_field (body !! "status")).
  - right. rewrite Hx. reflexivity.
  - left. assumption.
Qed.

Lemma updated_booking_ok body po ad now b doc :
  booking_ok b ->
  apply_update booking_paths (build_updateData body po ad now) b = inr doc ->
  update_validators (build_updateData body po ad now) doc = [] ->
  booking_ok doc.
Proof.
  intros (Hd & Hg & Ht & Hs & Hp & Hsr & Hcr) Hap Hval.
  apply update_validators_built in Hval. destruct Hval as (Vs & Vp & Vc).
  apply apply_update_built_inv in Hap.
  destruct Hap as (x & y & r & -> & Hx & Hy & Hr).
  unfold booking_ok. cbn in *.
  repeat split; try assumption.
  - destruct (truthy_field (body !! "status")); [apply Vs; reflexivity|subst x; assumption].
  - destruct (truthy_field (body !! "paymentStatus") && (po || ad));
      [apply Vp; reflexivity|subst y; assumption].
  - destruct (truthy_field (body !! "status")
              && strict_eq_str (default JNull (body !! "status")) "cancelled"
              && truthy_field (body !! "cancellationReason"));
      [apply Vc; reflexivity|subst r; assumption].
Qed.

Lemma Forall_replace_first (P : Booking -> Prop) id doc l :
  Forall P l -> P doc -> Forall P (replace_first id doc l).
Proof.
  intros Hl Hdoc. induction Hl as [|b rest Hb Hrest IH]; cbn [replace_first].
  - constructor.
  - destruct (String.eqb (booking_id b) id); constructor; assumption.
Qed.

Lemma Forall_remove_booking (P : Booking -> Prop) id l :
  Forall P l -> Forall P (remove_booking id l).
Proof.
  intros Hl. induction Hl as [|b rest Hb Hrest IH]; cbn [remove_booking].
  - constructor.
  - destruct (String.eqb (booking_id b) id); [assumption|constructor; assumption].
Qed.

Lemma delete_booking_effect id w :
  properties (snd (delete_booking id w)) = properties w /\
  disk (snd (delete_booking id w)) = disk w /\
  cloud (snd (delete_booking id w)) = cloud w /\
  nextId (snd (delete_booking id w)) = nextId w /\
  match find (fun b => String.eqb (booking_id b) id) (bookings w) with
  | None =>
      fst (delete_booking id w) = Sent (json_error 404 "Booking not found") /\
      bookings (snd (delete_booking id w)) = bookings w
  | Some _ =>
      fst (delete_booking id w) =
        Sent (mkResponse 200 true (Some "Booking deleted successfully") NoData) /\
      bookings (snd (delete_booking id w)) = remove_booking id (bookings w)
  end.
Proof.
  unfold delete_booking, delete_booking_body, Booking_findById, Booking_findByIdAndDelete.
  run_handler.
  destruct (find _ (bookings w)); run_handler; repeat split; reflexivity.
Qed.

Lemma new_booking_ok id f :
  pre_validate (new_Booking id f) = None -> booking_validators (new_Booking id f) = [] ->
  booking_ok (new_Booking id f).
Proof.
  intros Hpre Hval. apply pre_validate_None in Hpre.
  apply new_Booking_validators in Hval. destruct Hval as (Hg & Ht & Hs).
  unfold booking_ok. cbn in *. repeat split; try assumption; reflexivity.
Qed.

Lemma serve_keeps_bookings_valid w req :
  Forall booking_ok (bookings w) -> Forall booking_ok (bookings (serve w req)).
Proof.
  intros Hw. destruct req as [requser body|requser id body|id]; cbn [serve].
  - destruct (post_booking_effect requser body w)
      as (r & _ & _ & _ & _ & _ & [(_ & -> & _)|(_ & H)]); [assumption|].
    destruct H as (propertyId & c & d & g & prop & _ & _ & _ & _ & _ & _ & _ & H).
    cbv zeta in H. destruct H as (Hpre & Hval & -> & _).
    apply Forall_app. split; [assumption|].
    constructor; [|constructor]. apply new_booking_ok; assumption.
  - destruct (put_booking_effect requser id body w)
      as (r & _ & _ & _ & _ & _ & [(_ & ->)|H]); [assumption|].
    destruct H as (booking & prop & doc & Hb & _ & _ & Hap & Hval & _ & ->).
    apply Forall_replace_first; [assumption|].
    eapply updated_booking_ok; [|exact Hap|exact Hval].
    apply find_some in Hb. rewrite List.Forall_forall in Hw. apply Hw, Hb.
  - destruct (delete_booking_effect id w) as (_ & _ & _ & _ & H).
    destruct (find _ (bookings w)); destruct H as (_ & ->);
      [apply Forall_remove_booking|]; assumption.
Qed.

(** X1: whatever POST, PUT and DELETE requests are served, in whatever
    order and with whatever outcome, every stored booking keeps meeting
    the schema: check-out after check-in, at least one guest, a
    non-negative price, statuses of the enumerations, texts of at most
    500 characters. *)
Theorem stored_bookings_stay_valid (reqs : list BookingRequest) (w : World) :
  Forall booking_ok (bookings w) -> Forall booking_ok (bookings (serve_all w reqs)).
Proof.
  unfold serve_all. revert w.
  induction reqs as [|req rest IH]; intros w Hw; cbn [fold_left].
  - assumption.
  - apply IH, serve_keeps_bookings_valid, Hw.
Qed.

Lemma overlap_sym a b : overlap a b -> overlap b a.
Proof. unfold overlap. intros (Hp & Ha & Hb & H1 & H2). repeat split; auto; lia. Qed.

Lemma no_double_booking_pairs l :
  no_double_booking l <-> ForallOrdPairs (fun a b => ~ overlap a b) l.
Proof.
  split.
  - induction l as [|a l IH]; intros H; constructor.
    + apply List.Forall_forall. intros b Hin.
      apply list_elem_of_In, list_elem_of_lookup_1 in Hin. destruct Hin as [j Hj].
      apply (H 0%nat (S j)); [lia|reflexivity|exact Hj].
    + apply IH. intros i j x y Hij Hi Hj.
      apply (H (S i) (S j)); [lia|exact Hi|exact Hj].
  - induction 1 as [|a l Ha Hl IH]; intros i j x y Hij Hi Hj.
    + rewrite lookup_nil in Hi. discriminate.
    + destruct j as [|j]; [lia|]. cbn in Hj.
      destruct i as [|i]; cbn in Hi.
      * injection Hi as <-. rewrite List.Forall_forall in Ha.
        apply Ha, list_elem_of_In, (list_elem_of_lookup_2 _ j), Hj.
      * apply (IH i j); [lia|assumption..].
Qed.






Lemma In_replace_first_doc id doc l b :
  find (fun b => String.eqb (booking_id b) id) l = Some b ->
  In doc (replace_first id doc l).
Proof.
  induction l as [|a l IH]; cbn [find replace_first]; [discriminate|].
  destruct (String.eqb (booking_id a) id); intros H; [left; reflexivity|].
  right. apply IH, H.
Qed.

Lemma In_replace_first_other id doc l x :
  In x l -> booking_id x <> id -> In x (replace_first id doc l).
Proof.
  intros Hin Hne. induction l as [|a l IH]; cbn [replace_first]; [assumption|].
  destruct (String.eqb (booking_id a) id) eqn:E; destruct Hin as [->|Hin].
  - apply String.eqb_eq in E. contradiction.
  - right. assumption.
  - left. reflexivity.
  - right. apply IH, Hin.
Qed.


Lemma find_all_false {A} (f : A -> bool) (l : list A) :
  (forall x, In x l -> f x = false) -> find f l = None.
Proof.
  induction l as [|a l IH]; intros H; cbn [find]; [reflexivity|].
  rewrite (H a) by (left; reflexivity). apply IH. intros x Hx. apply H. right. exact Hx.
Qed.

Lemma status_update_accepted (body : gmap string JsVal) po ad s :
  body !! "status" = Some (JStr s) -> s = "pending" \/ s = "confirmed" ->
  truthy_field (body !! "paymentStatus") = false ->
  update_accepted body po ad = true.
Proof.
  intros Hst Hs Hpay. unfold update_accepted. rewrite Hst, Hpay.
  destruct Hs as [-> | ->]; reflexivity.
Qed.

Lemma updated_status body po ad now b doc s :
  body !! "status" = Some (JStr s) -> s <> "" ->
  apply_update booking_paths (build_updateData body po ad now) b = inr doc ->
  status doc = s.
Proof.
  intros Hst Hs Hap. apply apply_update_built_inv in Hap.
  destruct Hap as (x & y & r & -> & Hx & _). cbn.
  rewrite Hst in Hx. cbn in Hx.
  destruct (String.eqb s "") eqn:E; [apply String.eqb_eq in E; contradiction|].
  cbn in Hx. congruence.
Qed.

(** X3: PUT /api/bookings/:id runs no conflict query.  When a caller
    entitled to update a booking sets its status to pending or
    confirmed while another active booking of the same property shares
    its dates, the update is accepted and the store holds two active
    bookings that overlap. *)
Theorem status_update_can_double_book requser id body w booking prop other s :
  find (fun b => String.eqb (booking_id b) id) (bookings w) = Some booking ->
  find (fun p => String.eqb (property_id p) (property booking)) (properties w) = Some prop ->
  (user booking = user_id requser \/ owner prop = user_id requser \/
   role requser = "admin") ->
  body !! "status" = Some (JStr s) -> s = "pending" \/ s = "confirmed" ->
  truthy_field (body !! "paymentStatus") = false ->
  In other (bookings w) -> booking_id other <> id ->
  property other = property booking -> active other ->
  checkIn other <= checkOut booking -> checkOut other >= checkIn booking ->
  exists doc,
    fst (put_booking requser id body w) =
      Sent (mkResponse 200 true (Some "Booking updated successfully")
              (BookingData (Some doc))) /\
    status doc = s /\
    In doc (bookings (snd (put_booking requser id body w))) /\
    In other (bookings (snd (put_booking requser id body w))) /\
    overlap other doc /\
    ~ no_double_booking (bookings (snd (put_booking requser id body w))).
Proof.
  intros Hb Hp Hauth Hst Hs Hpay Hin Hne Hprop Hact H1 H2.
  pose proof (put_booking_authorized requser id body w booking prop Hb Hp
                (authorized_bool _ _ _ _ Hauth)) as Hput.
  cbv zeta in Hput.
  rewrite (status_update_accepted body _ _ s Hst Hs Hpay) in Hput.
  destruct Hput as (doc & Hap & Hfst & Hbk).
  assert (Hne' : s <> "") by (destruct Hs as [-> | ->]; discriminate).
  pose proof (updated_status _ _ _ _ _ _ _ Hst Hne' Hap) as Hs'.
  apply updated_booking_fields in Hap.
  destruct Hap as (Hid & Hp' & _ & Hci & Hco & _).
  assert (Hov : overlap other doc).
  { unfold overlap, active. rewrite Hp', Hci, Hco, Hs'. repeat split; auto. }
  assert (Hdoc : In doc (bookings (snd (put_booking requser id body w)))).
  { rewrite Hbk. eapply In_replace_first_doc, Hb. }
  assert (Hoth : In other (bookings (snd (put_booking requser id body w)))).
  { rewrite Hbk. apply In_replace_first_other; assumption. }
  exists doc. repeat (split; [assumption|]).
  intros Hno. apply no_double_booking_pairs in Hno.
  destruct (ForallOrdPairs_In Hno _ _ Hoth Hdoc) as [Heq|[H|H]].
  - apply Hne. rewrite Heq, Hid. apply (find_booking_id _ _ _ Hb).
  - apply H, Hov.
  - apply H, overlap_sym, Hov.
Qed.


Lemma stored_bookings_stay_valid_witness :
  Forall booking_ok (bookings world_booked) /\
  Forall booking_ok (bookings (serve_all world_booked busy_day)).
Proof.
  assert (H : Forall booking_ok (bookings world_booked)).
  { constructor; [|constructor].
    unfold booking_ok. cbn. repeat split; try reflexivity; discriminate. }
  split; [exact H|]. apply (stored_bookings_stay_valid busy_day world_booked H).
Defined.


Lemma status_update_can_double_book_witness :
  exists doc,
    fst (put_booking bob "b2" body_confirm world_reopened) =
      Sent (mkResponse 200 true (Some "Booking updated successfully")
              (BookingData (Some doc))) /\
    status doc = "confirmed" /\
    In doc (bookings (snd (put_booking bob "b2" body_confirm world_reopened))) /\
    In stay_alice (bookings (snd (put_booking bob "b2" body_confirm world_reopened))) /\
    overlap stay_alice doc /\
    ~ no_double_booking (bookings (snd (put_booking bob "b2" body_confirm world_reopened))).
Proof.
  apply (status_update_can_double_book bob "b2" body_confirm world_reopened
           stay_bob flat stay_alice "confirmed").
  - reflexivity.
  - reflexivity.
  - left. reflexivity.
  - reflexivity.
  - right. reflexivity.
  - reflexivity.
  - left. reflexivity.
  - discriminate.
  - reflexivity.
  - left. reflexivity.
  - vm_compute. discriminate.
  - vm_compute. discriminate.
Defined.


Lemma find_remove_booking id l :
  NoDup (map booking_id l) ->
  find (fun b => String.eqb (booking_id b) id) (remove_booking id l) = None.
Proof.
  induction l as [|a l IH]; cbn [remove_booking map find]; intros Hnd; [reflexivity|].
  apply NoDup_cons in Hnd. destruct Hnd as [Ha Hnd].
  destruct (String.eqb (booking_id a) id) eqn:E.
  - apply String.eqb_eq in E. apply find_all_false. intros x Hx.
    apply String.eqb_neq. intros Hid. apply Ha. rewrite E, <- Hid.
    apply list_elem_of_In, in_map, Hx.
  - cbn [find]. rewrite E. apply IH, Hnd.
Qed.

Lemma In_remove_booking id l x :
  NoDup (map booking_id l) ->
  In x (remove_booking id l) <-> In x l /\ booking_id x <> id.
Proof.
  induction l as [|a l IH]; cbn [remove_booking map]; intros Hnd; [tauto|].
  apply NoDup_cons in Hnd. destruct Hnd as [Ha Hnd].
  destruct (String.eqb (booking_id a) id) eqn:E.
  - apply String.eqb_eq in E. split.
    + intros Hx. split; [right; exact Hx|].
      intros Hid. apply Ha. rewrite E, <- Hid. apply list_elem_of_In, in_map, Hx.
    + intros [[->|Hx] Hid]; [contradiction|exact Hx].
  - apply String.eqb_neq in E. cbn [In]. rewrite (IH Hnd). split.
    + intros [->|[Hx Hid]]; [split; [left; reflexivity|exact E]|].
      split; [right; exact Hx|exact Hid].
    + intros [[->|Hx] Hid]; [left; reflexivity|right; split; assumption].
Qed.

Lemma length_remove_booking id l b :
  find (fun b => String.eqb (booking_id b) id) l = Some b ->
  S (length (remove_booking id l)) = length l.
Proof.
  induction l as [|a l IH]; cbn [find remove_booking]; [discriminate|].
  destruct (String.eqb (booking_id a) id); intros H; [reflexivity|].
  cbn [length]. f_equal. apply IH, H.
Qed.

Lemma get_booking_absent users requser id w :
  find (fun b => String.eqb (booking_id b) id) (bookings w) = None ->
  get_booking users requser id w =
  (Sent (json_error 404 "Booking not found"),
   set_dbLog (dbLog w ++ [Booking_findById_op id]) w).
Proof.
  intros H. unfold get_booking, get_booking_body, Booking_findById_populate,
    Booking_findById.
  run_handler. rewrite H. reflexivity.
Qed.

(** X5: DELETE /api/bookings/:id takes exactly the addressed booking
    out of the store.  An unknown id is answered 404 and nothing is
    removed; a known one is answered 200, every other booking stays,
    and from then on GET, PUT and DELETE of that id are answered 404.
    The properties are never touched. *)
Theorem delete_booking_removes_one id w :
  NoDup (map booking_id (bookings w)) ->
  properties (snd (delete_booking id w)) = properties w /\
  match find (fun b => String.eqb (booking_id b) id) (bookings w) with
  | None =>
      fst (delete_booking id w) = Sent (json_error 404 "Booking not found") /\
      bookings (snd (delete_booking id w)) = bookings w
  | Some _ =>
      fst (delete_booking id w) =
        Sent (mkResponse 200 true (Some "Booking deleted successfully") NoData) /\
      (forall b, In b (bookings (snd (delete_booking id w))) <->
                 In b (bookings w) /\ booking_id b <> id) /\
      S (length (bookings (snd (delete_booking id w)))) = length (bookings w) /\
      (forall users requser,
         fst (get_booking users requser id (snd (delete_booking id w))) =
         Sent (json_error 404 "Booking not found")) /\
      (forall requser body,
         fst (put_booking requser id body (snd (delete_booking id w))) =
         Sent (json_error 404 "Booking not found")) /\
      fst (delete_booking id (snd (delete_booking id w))) =
        Sent (json_error 404 "Booking not found")
  end.
Proof.
  intros Hnd. destruct (delete_booking_effect id w) as (Hp & _ & _ & _ & H).
  split; [exact Hp|].
  destruct (find _ (bookings w)) as [b|] eqn:Hb; [|exact H].
  destruct H as (Hfst & Hbk).
  assert (Hgone : find (fun b => String.eqb (booking_id b) id)
                    (bookings (snd (delete_booking id w))) = None)
    by (rewrite Hbk; apply find_remove_booking, Hnd).
  split; [exact Hfst|]. split; [|split; [|split; [|split]]].
  - intros x. rewrite Hbk. apply In_remove_booking, Hnd.
  - rewrite Hbk. eapply length_remove_booking, Hb.
  - intros users requser. rewrite get_booking_absent by exact Hgone. reflexivity.
  - intros requser body.
    pose proof (put_booking_cases requser id body (snd (delete_booking id w))) as Hput.
    rewrite Hgone in Hput. apply Hput.
  - destruct (delete_booking_effect id (snd (delete_booking id w))) as (_ & _ & _ & _ & H).
    rewrite Hgone in H. apply H.
Qed.

Lemma delete_booking_removes_one_witness :
  fst (delete_booking "b1" world_reopened) =
    Sent (mkResponse 200 true (Some "Booking deleted successfully") NoData) /\
  (forall b, In b (bookings (snd (delete_booking "b1" world_reopened))) <->
             In b (bookings world_reopened) /\ booking_id b <> "b1") /\
  fst (get_booking ["alice"; "bob"] alice "b1" (snd (delete_booking "b1" world_reopened))) =
    Sent (json_error 404 "Booking not found").
Proof.
  assert (Hnd : NoDup (map booking_id (bookings world_reopened))).
  { cbn. apply NoDup_cons. split; [|apply NoDup_singleton].
    intros H. apply list_elem_of_In in H. destruct H as [H|[]]. discriminate H. }
  pose proof (delete_booking_removes_one "b1" world_reopened Hnd) as H.
  destruct H as (_ & H).
  change (find (fun b => String.eqb (booking_id b) "b1") (bookings world_reopened))
    with (Some stay_alice) in H.
  destruct H as (H1 & H2 & _ & H3 & _).
  split; [exact H1|]. split; [exact H2|]. apply H3.
Defined.

Lemma duration_ceil b :
  checkIn b < checkOut b ->
  1 <= duration b /\
  MS_PER_DAY * (duration b - 1) < checkOut b - checkIn b <= MS_PER_DAY * duration b.
Proof.
  intros H. unfold duration. change (1000 * 60 * 60 * 24) with MS_PER_DAY.
  split; [apply ceil_div_pos; [reflexivity|lia]|].
  apply ceil_div_bounds. reflexivity.
Qed.


(** X7: the [duration] virtual of a booking whose check-out is after
    its check-in is at least one day and is the stay rounded up to
    whole days: a stay of exactly [n] days has duration [n], one
    millisecond more makes it [n + 1]. *)
Theorem duration_rounds_up b :
  checkIn b < checkOut b ->
  1 <= duration b /\
  86400000 * (duration b - 1) < checkOut b - checkIn b <= 86400000 * duration b /\
  (forall n, checkOut b - checkIn b = n * 86400000 -> duration b = n) /\
  (forall n, checkOut b - checkIn b = n * 86400000 + 1 -> duration b = n + 1).
Proof.
  intros H. destruct (duration_ceil b H) as (H1 & H2).
  change MS_PER_DAY with 86400000 in H2.
  split; [exact H1|]. split; [exact H2|]. split; intros n Hn.
  - unfold duration. apply ceil_div_unique; lia.
  - unfold duration. apply ceil_div_unique; lia.
Qed.

Lemma duration_rounds_up_witness :
  duration stay_alice = 4 /\ 1 <= duration stay_alice.
Proof.
  destruct (duration_rounds_up stay_alice) as (H1 & _ & H2 & _).
  - reflexivity.
  - split; [apply (H2 4); reflexivity|exact H1].
Defined.

(** ** Reading a booking, deleting a property *)

Lemma get_booking_cases users requser id w :
  snd (get_booking users requser id w) =
    match find (fun b => String.eqb (booking_id b) id) (bookings w) with
    | None => set_dbLog (dbLog w ++ [Booking_findById_op id]) w
    | Some b =>
        let w1 := set_dbLog ((dbLog w ++ [Booking_findById_op id])
                               ++ [Property_findById_op (property b)]) w in
        if negb (mem_string (user b) users)
        then set_console (console w1 ++
               ["Get booking error: Cannot read properties of null (reading '_id')"]) w1
        else if negb (String.eqb (user b) (user_id requser))
                && negb (String.eqb (role requser) "admin")
        then match find (fun p => String.eqb (property_id p) (property b)) (properties w) with
             | None => set_console (console w1 ++
                  ["Get booking error: Cannot read properties of null (reading 'owner')"]) w1
             | Some _ => w1
             end
        else w1
    end /\
  fst (get_booking users requser id w) =
    match find (fun b => String.eqb (booking_id b) id) (bookings w) with
    | None => Sent (json_error 404 "Booking not found")
    | Some b =>
        if negb (mem_string (user b) users)
        then Sent (json_error 500 "Server error while fetching booking")
        else if negb (String.eqb (user b) (user_id requser))
                && negb (String.eqb (role requser) "admin")
        then match find (fun p => String.eqb (property_id p) (property b)) (properties w) with
             | None => Sent (json_error 500 "Server error while fetching booking")
             | Some prop =>
                 if negb (String.eqb (owner prop) (user_id requser))
                 then Sent (json_error 403 "Not authorized to view this booking")
                 else Sent (mkResponse 200 true None (BookingData (Some b)))
             end
        else Sent (mkResponse 200 true None (BookingData (Some b)))
    end.
Proof.
  unfold get_booking, get_booking_body, get_booking_catch, Booking_findById_populate,
    Booking_findById, Property_findById.
  run_handler.
  destruct (find _ (bookings w)) as [b|]; run_handler; [|split; reflexivity].
  destruct (negb (mem_string (user b) users)); run_handler; [split; reflexivity|].
  destruct (negb _ && negb _); run_handler; [|split; reflexivity].
  destruct (find _ (properties w)) as [prop|]; run_handler; [|split; reflexivity].
  destruct (negb _); split; reflexivity.
Qed.

(** X8: GET /api/bookings/:id hands a booking only to its user, to an
    admin or to the owner of the booked property, and changes neither
    the bookings nor the properties.  The booking's user and an admin
    are served even when the property is gone; for anyone else the
    missing property is a 500. *)
Theorem get_booking_confidential users requser id w :
  bookings (snd (get_booking users requser id w)) = bookings w /\
  properties (snd (get_booking users requser id w)) = properties w /\
  (forall r b, fst (get_booking users requser id w) = Sent r ->
     data r = BookingData (Some b) ->
     statusCode r = 200 /\
     find (fun b => String.eqb (booking_id b) id) (bookings w) = Some b /\
     (user b = user_id requser \/ role requser = "admin" \/
      exists prop,
        find (fun p => String.eqb (property_id p) (property b)) (properties w) = Some prop /\
        owner prop = user_id requser)) /\
  (forall b, find (fun b => String.eqb (booking_id b) id) (bookings w) = Some b ->
     mem_string (user b) users = true ->
     (user b = user_id requser \/ role requser = "admin" ->
      fst (get_booking users requser id w) =
      Sent (mkResponse 200 true None (BookingData (Some b)))) /\
     (user b <> user_id requser -> role requser <> "admin" ->
      match find (fun p => String.eqb (property_id p) (property b)) (properties w) with
      | None =>
          fst (get_booking users requser id w) =
          Sent (json_error 500 "Server error while fetching booking")
      | Some prop =>
          fst (get_booking users requser id w) =
          if String.eqb (owner prop) (user_id requser)
          then Sent (mkResponse 200 true None (BookingData (Some b)))
          else Sent (json_error 403 "Not authorized to view this booking")
      end)) /\
  (find (fun b => String.eqb (booking_id b) id) (bookings w) = None ->
   fst (get_booking users requser id w) = Sent (json_error 404 "Booking not found")).
Proof.
  destruct (get_booking_cases users requser id w) as [Hw Hr].
  split; [|split; [|split; [|split]]].
  - rewrite Hw. destruct (find _ (bookings w)) as [b|]; [|reflexivity]. cbv zeta.
    destruct (negb (mem_string (user b) users)); [reflexivity|].
    destruct (negb _ && negb _); [|reflexivity].
    destruct (find _ (properties w)); reflexivity.
  - rewrite Hw. destruct (find _ (bookings w)) as [b|]; [|reflexivity]. cbv zeta.
    destruct (negb (mem_string (user b) users)); [reflexivity|].
    destruct (negb _ && negb _); [|reflexivity].
    destruct (find _ (properties w)); reflexivity.
  - intros r b' Hs Hd. rewrite Hr in Hs.
    destruct (find _ (bookings w)) as [b|]; [|injection Hs as <-; discriminate Hd].
    destruct (mem_string (user b) users); cbn [negb] in Hs;
      [|injection Hs as <-; discriminate Hd].
    destruct (String.eqb (user b) (user_id requser)) eqn:E1; cbn [negb andb] in Hs.
    { injection Hs as <-. cbn in Hd. injection Hd as <-.
      apply String.eqb_eq in E1. auto. }
    destruct (String.eqb (role requser) "admin") eqn:E2; cbn [negb] in Hs.
    { injection Hs as <-. cbn in Hd. injection Hd as <-.
      apply String.eqb_eq in E2. auto. }
    destruct (find _ (properties w)) as [prop|] eqn:Hp;
      [|injection Hs as <-; discriminate Hd].
    destruct (String.eqb (owner prop) (user_id requser)) eqn:E3; cbn [negb] in Hs;
      [|injection Hs as <-; discriminate Hd].
    injection Hs as <-. cbn in Hd. injection Hd as <-.
    apply String.eqb_eq in E3. repeat split; try reflexivity.
    right. right. exists prop. split; assumption.
  - intros b Hb Hu. rewrite Hr, Hb, Hu. cbn [negb]. split.
    + intros [H|H].
      * apply String.eqb_eq in H. rewrite H. reflexivity.
      * apply String.eqb_eq in H. rewrite H, andb_false_r. reflexivity.
    + intros H1 H2. apply String.eqb_neq in H1, H2. rewrite H1, H2. cbn [negb andb].
      destruct (find _ (properties w)) as [prop|]; [|reflexivity].
      destruct (String.eqb (owner prop) (user_id requser)); reflexivity.
  - intros Hb. rewrite Hr, Hb. reflexivity.
Qed.

Lemma forEach_unlink_frame {A} (sel : A -> string) (f : A -> Handler unit) (l : list A) :
  (forall x, f x = unlink_if_present (sel x)) ->
  forall w, exists s w',
    forEach l f w = (s, w') /\
    (s = Next tt \/ exists p, s = Raise (FsError p)) /\
    properties w' = properties w /\ bookings w' = bookings w /\ cloud w' = cloud w /\
    (forall p, disk w' !! p = disk w !! p \/
               (disk w' !! p = None /\ exists x, In x l /\ sel x = p)).
Proof.
  intros Hf. induction l as [|x l IH]; intros w.
  - exists (Next tt), w. cbn. repeat split; auto.
  - rewrite forEach_cons, Hf, unlink_if_present_run.
    destruct (disk w !! sel x) as [[|]|] eqn:Hx.
    + destruct (IH (set_disk (delete (sel x) (disk w)) w))
        as (s & w' & Hrun & Hs & Hp & Hb & Hc & Hd).
      exists s, w'. split; [exact Hrun|]. split; [exact Hs|].
      split; [exact Hp|]. split; [exact Hb|]. split; [exact Hc|].
      intros p. destruct (Hd p) as [Hsame|[Hnone (y & Hy & Hsel)]].
      * cbn [disk set_disk] in Hsame.
        destruct (decide (sel x = p)) as [<-|Hne].
        -- rewrite lookup_delete_eq in Hsame.
           right. split; [exact Hsame|]. exists x. split; [left|]; reflexivity.
        -- rewrite lookup_delete_ne in Hsame by exact Hne. left. exact Hsame.
      * right. split; [exact Hnone|]. exists y. split; [right; exact Hy|exact Hsel].
    + exists (Raise (FsError (sel x))), w. repeat split; eauto.
    + destruct (IH w) as (s & w' & Hrun & Hs & Hp & Hb & Hc & Hd).
      exists s, w'. split; [exact Hrun|]. split; [exact Hs|].
      split; [exact Hp|]. split; [exact Hb|]. split; [exact Hc|].
      intros p. destruct (Hd p) as [Hsame|[Hnone (y & Hy & Hsel)]]; [left; exact Hsame|].
      right. split; [exact Hnone|]. exists y. split; [right; exact Hy|exact Hsel].
Qed.

Lemma forEach_destroy_frame {A} (sel : A -> option string) (f : A -> Handler unit)
    (l : list A) :
  (forall x, f x = match sel x with
                   | Some k => cloudinary_destroy k
                   | None => ret tt
                   end) ->
  forall w, exists w',
    forEach l f w = (Next tt, w') /\
    properties w' = properties w /\ bookings w' = bookings w /\ disk w' = disk w /\
    (forall k, cloud w' !! k = cloud w !! k \/
               (cloud w' !! k = None /\ exists x, In x l /\ sel x = Some k)).
Proof.
  intros Hf w.
  destruct (forEach_destroy sel f l Hf w)
    as (w' & Hrun & Hp & Hb & Hd & Hfalse & Hnone & Hother & Hgone & _).
  exists w'. repeat (split; [assumption|]).
  intros k.
  destruct (decide (Exists (fun x => sel x = Some k) l)) as [Hex|Hno].
  - apply List.Exists_exists in Hex. destruct Hex as (x & Hx & Hsel).
    destruct (cloud w !! k) as [[|]|] eqn:Hk.
    + right. split; [|exists x; split; assumption].
      apply (Hgone x k Hx Hsel). rewrite Hk. discriminate.
    + left. apply Hfalse, Hk.
    + left. apply Hnone, Hk.
  - left. apply Hother. intros x Hx Hsel. apply Hno.
    apply List.Exists_exists. exists x. split; assumption.
Qed.

(** What the deletion of the pictures of a property can do to the two
    asset stores *)
Lemma delete_images_frame `{Platform} (USE_CLOUDINARY : bool) imgs w :
  exists s w',
    delete_images USE_CLOUDINARY imgs w = (s, w') /\
    (s = Next tt \/ (USE_CLOUDINARY = false /\ exists p, s = Raise (FsError p))) /\
    properties w' = properties w /\ bookings w' = bookings w /\
    (forall k, cloud w' !! k = cloud w !! k \/
       (USE_CLOUDINARY = true /\ cloud w' !! k = None /\
        exists img m, In img imgs /\ match_public_id img = Some m /\
                      k = "property-rental/properties/" +:+ m)) /\
    (forall p, disk w' !! p = disk w !! p \/
       (USE_CLOUDINARY = false /\ disk w' !! p = None /\
        exists img, In img imgs /\ p = path_join img)).
Proof.
  unfold delete_images. destruct imgs as [|img imgs].
  { exists (Next tt), w. cbn. repeat split; auto. }
  cbn [isEmpty negb]. destruct USE_CLOUDINARY.
  - destruct (forEach_destroy_frame
                (fun imageUrl =>
                   match match_public_id imageUrl with
                   | Some m => Some ("property-rental/properties/" +:+ m)
                   | None => None
                   end)
                (fun imageUrl =>
                   match match_public_id imageUrl with
                   | Some m => cloudinary_destroy ("property-rental/properties/" +:+ m)
                   | None => ret tt
                   end)
                (img :: imgs)
                ltac:(intros x; cbv beta; destruct (match_public_id x); reflexivity) w)
      as (w' & Hrun & Hp & Hb & Hd & Hc).
    exists (Next tt), w'. split; [exact Hrun|]. split; [left; reflexivity|].
    split; [exact Hp|]. split; [exact Hb|]. split.
    + intros k. destruct (Hc k) as [Hsame|[Hnone (x & Hx & Hsel)]]; [left; exact Hsame|].
      right. split; [reflexivity|]. split; [exact Hnone|].
      destruct (match_public_id x) as [m|] eqn:Hm; [|discriminate].
      exists x, m. split; [exact Hx|]. split; [exact Hm|]. congruence.
    + intros p. left. rewrite Hd. reflexivity.
  - destruct (forEach_unlink_frame path_join
                (fun imagePath => unlink_if_present (path_join imagePath))
                (img :: imgs) ltac:(reflexivity) w)
      as (s & w' & Hrun & Hs & Hp & Hb & Hc & Hd).
    exists s, w'. split; [exact Hrun|].
    split; [destruct Hs as [Hs|Hs]; [left; exact Hs|right; split; [reflexivity|exact Hs]]|].
    split; [exact Hp|]. split; [exact Hb|]. split.
    + intros k. left. rewrite Hc. reflexivity.
    + intros p. destruct (Hd p) as [Hsame|[Hnone (x & Hx & Hsel)]]; [left; exact Hsame|].
      right. split; [reflexivity|]. split; [exact Hnone|].
      exists x. split; [exact Hx|]. symmetry. exact Hsel.
Qed.

Lemma delete_property_effect `{Platform} (USE_CLOUDINARY : bool) requser id w :
  exists r,
    fst (delete_property USE_CLOUDINARY requser id w) = Sent r /\
    bookings (snd (delete_property USE_CLOUDINARY requser id w)) = bookings w /\
    match find (fun p => String.eqb (property_id p) id) (properties w) with
    | None =>
        r = json_error 404 "Property not found" /\
        properties (snd (delete_property USE_CLOUDINARY requser id w)) = properties w /\
        disk (snd (delete_property USE_CLOUDINARY requser id w)) = disk w /\
        cloud (snd (delete_property USE_CLOUDINARY requser id w)) = cloud w
    | Some prop =>
        if negb (String.eqb (owner prop) (user_id requser))
           && negb (String.eqb (role requser) "admin")
        then
          r = json_error 403 "Not authorized to delete this property" /\
          properties (snd (delete_property USE_CLOUDINARY requser id w)) = properties w /\
          disk (snd (delete_property USE_CLOUDINARY requser id w)) = disk w /\
          cloud (snd (delete_property USE_CLOUDINARY requser id w)) = cloud w
        else
          ((r = mkResponse 200 true (Some "Property deleted successfully") NoData /\
            properties (snd (delete_property USE_CLOUDINARY requser id w))
              = remove_property id (properties w)) \/
           (USE_CLOUDINARY = false /\
            r = json_error 500 "Server error while deleting property" /\
            properties (snd (delete_property USE_CLOUDINARY requser id w))
              = properties w)) /\
          (forall k,
             cloud (snd (delete_property USE_CLOUDINARY requser id w)) !! k
               = cloud w !! k \/
             (USE_CLOUDINARY = true /\
              cloud (snd (delete_property USE_CLOUDINARY requser id w)) !! k = None /\
              exists img m, In img (images prop) /\ match_public_id img = Some m /\
                            k = "property-rental/properties/" +:+ m)) /\
          (forall p,
             disk (snd (delete_property USE_CLOUDINARY requser id w)) !! p
               = disk w !! p \/
             (USE_CLOUDINARY = false /\
              disk (snd (delete_property USE_CLOUDINARY requser id w)) !! p = None /\
              exists img, In img (images prop) /\ p = path_join img))
    end.
Proof.
  unfold delete_property, delete_property_body, delete_property_catch, Property_findById,
    Property_findByIdAndDelete.
  run_handler.
  destruct (find _ (properties w)) as [prop|] eqn:Hfind; run_handler.
  2: { eexists. repeat split; reflexivity. }
  destruct (negb _ && negb _) eqn:Hgate; run_handler.
  { eexists. repeat split; reflexivity. }
  destruct (delete_images_frame USE_CLOUDINARY (images prop)
              (set_dbLog (dbLog w ++ [Property_findById_op id]) w))
    as (s & w' & Hrun & Hs & Hp & Hb & Hc & Hd).
  rewrite Hrun. cbn [properties bookings cloud disk set_dbLog] in Hp, Hb, Hc, Hd.
  destruct Hs as [->|(Huc & p & ->)]; run_handler.
  - eexists. split; [reflexivity|]. split; [exact Hb|].
    split; [left; split; [reflexivity|rewrite Hp; reflexivity]|].
    split; assumption.
  - eexists. split; [reflexivity|]. split; [exact Hb|].
    split; [right; split; [exact Huc|split; [reflexivity|exact Hp]]|].
    split; assumption.
Qed.

(** X9: DELETE /api/properties/:id by a caller who is neither the
    owner of the property nor an admin is answered 403, and an unknown
    id 404; in both cases the properties, the bookings, the local files
    and the hosted assets are what they were. *)
Theorem delete_property_needs_owner_or_admin `{Platform} (USE_CLOUDINARY : bool)
    requser id w :
  (forall prop,
     find (fun p => String.eqb (property_id p) id) (properties w) = Some prop ->
     owner prop <> user_id requser /\ role requser <> "admin") ->
  fst (delete_property USE_CLOUDINARY requser id w) =
    (match find (fun p => String.eqb (property_id p) id) (properties w) with
     | Some _ => Sent (json_error 403 "Not authorized to delete this property")
     | None => Sent (json_error 404 "Property not found")
     end) /\
  properties (snd (delete_property USE_CLOUDINARY requser id w)) = properties w /\
  bookings (snd (delete_property USE_CLOUDINARY requser id w)) = bookings w /\
  disk (snd (delete_property USE_CLOUDINARY requser id w)) = disk w /\
  cloud (snd (delete_property USE_CLOUDINARY requser id w)) = cloud w.
Proof.
  intros Hno.
  destruct (delete_property_effect USE_CLOUDINARY requser id w) as (r & Hfst & Hb & Hcase).
  rewrite Hfst.
  destruct (find _ (properties w)) as [prop|].
  - destruct (Hno prop eq_refl) as [H1 H2].
    apply String.eqb_neq in H1, H2. rewrite H1, H2 in Hcase. cbn [negb andb] in Hcase.
    destruct Hcase as (-> & Hp & Hd & Hc). auto.
  - destruct Hcase as (-> & Hp & Hd & Hc). auto.
Qed.

Lemma delete_property_needs_owner_or_admin_witness :
  fst (delete_property (H := sample_platform) true bob "p4" world_host_down) =
    Sent (json_error 403 "Not authorized to delete this property") /\
  properties (snd (delete_property (H := sample_platform) true bob "p4" world_host_down))
    = [villa] /\
  cloud (snd (delete_property (H := sample_platform) true bob "p4" world_host_down))
    = cloud world_host_down.
Proof.
  destruct (delete_property_needs_owner_or_admin (H := sample_platform) true bob "p4"
              world_host_down) as (H1 & H2 & _ & _ & H3).
  - intros prop Hfind. injection Hfind as <-. split; discriminate.
  - split; [exact H1|]. split; [exact H2|exact H3].
Defined.

(** X10: whatever its outcome, DELETE /api/properties/:id is answered,
    leaves the bookings alone, and removes from the asset stores only
    pictures of the addressed property: with the cloud host, assets
    whose public id is [property-rental/properties/] followed by the
    segment found in one of its image URLs; with local storage, the
    files its image paths resolve to.  It never adds an asset and never
    touches the other store. *)
Theorem delete_property_removes_only_its_pictures `{Platform} (USE_CLOUDINARY : bool)
    requser id w :
  exists r,
    fst (delete_property USE_CLOUDINARY requser id w) = Sent r /\
    bookings (snd (delete_property USE_CLOUDINARY requser id w)) = bookings w /\
    (forall k,
       cloud (snd (delete_property USE_CLOUDINARY requser id w)) !! k = cloud w !! k \/
       (USE_CLOUDINARY = true /\
        cloud (snd (delete_property USE_CLOUDINARY requser id w)) !! k = None /\
        exists prop img m,
          find (fun p => String.eqb (property_id p) id) (properties w) = Some prop /\
          (owner prop = user_id requser \/ role requser = "admin") /\
          In img (images prop) /\ match_public_id img = Some m /\
          k = "property-rental/properties/" +:+ m)) /\
    (forall p,
       disk (snd (delete_property USE_CLOUDINARY requser id w)) !! p = disk w !! p \/
       (USE_CLOUDINARY = false /\
        disk (snd (delete_property USE_CLOUDINARY requser id w)) !! p = None /\
        exists prop img,
          find (fun p => String.eqb (property_id p) id) (properties w) = Some prop /\
          (owner prop = user_id requser \/ role requser = "admin") /\
          In img (images prop) /\ p = path_join img)) /\
    (properties (snd (delete_property USE_CLOUDINARY requser id w)) = properties w \/
     (statusCode r = 200 /\
      properties (snd (delete_property USE_CLOUDINARY requser id w))
        = remove_property id (properties w))) /\
    (USE_CLOUDINARY = true ->
     forall prop,
       find (fun p => String.eqb (property_id p) id) (properties w) = Some prop ->
       owner prop = user_id requser \/ role requser = "admin" ->
       statusCode r = 200).
Proof.
  destruct (delete_property_effect USE_CLOUDINARY requser id w) as (r & Hfst & Hb & Hcase).
  exists r. split; [exact Hfst|]. split; [exact Hb|].
  destruct (find _ (properties w)) as [prop|] eqn:Hfind.
  - destruct (String.eqb (owner prop) (user_id requser)) eqn:E1;
      [|destruct (String.eqb (role requser) "admin") eqn:E2];
      cbn [negb andb] in Hcase.
    1,2: assert (Hauth : owner prop = user_id requser \/ role requser = "admin")
           by (first [left; apply String.eqb_eq; assumption
                     |right; apply String.eqb_eq; assumption]);
         destruct Hcase as (Hout & Hc & Hd);
         (split; [|split; [|split; [|]]]);
         [ intros k; destruct (Hc k) as [Hs|(Hu & Hn & img & m & Hi & Hm & Hk)];
             [left; exact Hs|];
             right; split; [exact Hu|]; split; [exact Hn|];
             exists prop, img, m; auto
         | intros p; destruct (Hd p) as [Hs|(Hu & Hn & img & Hi & Hk)];
             [left; exact Hs|];
             right; split; [exact Hu|]; split; [exact Hn|];
             exists prop, img; auto
         | destruct Hout as [(-> & Hp)|(_ & _ & Hp)];
             [right; split; [reflexivity|exact Hp]|left; exact Hp]
         | intros Hu prop' Hp' _;
           destruct Hout as [(-> & _)|(Hu' & _)]; [reflexivity|congruence] ].
    destruct Hcase as (-> & Hp & Hd & Hc).
    split; [intros k; left; rewrite Hc; reflexivity|].
    split; [intros p; left; rewrite Hd; reflexivity|].
    split; [left; exact Hp|].
    intros _ prop' Hp' [Ho|Ha]; injection Hp' as <-.
    + apply String.eqb_eq in Ho. congruence.
    + apply String.eqb_eq in Ha. congruence.
  - destruct Hcase as (-> & Hp & Hd & Hc).
    split; [intros k; left; rewrite Hc; reflexivity|].
    split; [intros p; left; rewrite Hd; reflexivity|].
    split; [left; exact Hp|].
    intros _ prop' Hp'. discriminate Hp'.
Qed.

Lemma find_remove_property id l :
  NoDup (map property_id l) ->
  find (fun p => String.eqb (property_id p) id) (remove_property id l) = None.
Proof.
  induction l as [|a l IH]; cbn [remove_property map find]; intros Hnd; [reflexivity|].
  apply NoDup_cons in Hnd. destruct Hnd as [Ha Hnd].
  destruct (String.eqb (property_id a) id) eqn:E.
  - apply String.eqb_eq in E. apply find_all_false. intros x Hx.
    apply String.eqb_neq. intros Hid. apply Ha. rewrite E, <- Hid.
    apply list_elem_of_In, in_map, Hx.
  - cbn [find]. rewrite E. apply IH, Hnd.
Qed.

(** X11: deleting a property does not delete its bookings, and leaves
    them stranded: each stays in the store, no PUT can update or cancel
    it any more (every caller, admins included, gets a 500), a POST for
    the property gets a 404, and only the booking's user and admins can
    still read it. *)
Theorem property_delete_strands_bookings `{Platform} (USE_CLOUDINARY : bool)
    requser id w r bid booking :
  NoDup (map property_id (properties w)) ->
  fst (delete_property USE_CLOUDINARY requser id w) = Sent r -> statusCode r = 200 ->
  find (fun b => String.eqb (booking_id b) bid) (bookings w) = Some booking ->
  property booking = id ->
  let w1 := snd (delete_property USE_CLOUDINARY requser id w) in
  bookings w1 = bookings w /\
  (forall caller body,
     fst (put_booking caller bid body w1) =
       Sent (json_error 500 "Server error while updating booking") /\
     bookings (snd (put_booking caller bid body w1)) = bookings w) /\
  (forall caller request,
     body_property request = Some id ->
     exists r', fst (post_booking caller request w1) = Sent r' /\
                (statusCode r' = 400 \/ statusCode r' = 404) /\
                bookings (snd (post_booking caller request w1)) = bookings w) /\
  (forall users caller,
     mem_string (user booking) users = true ->
     (user booking = user_id caller \/ role caller = "admin" ->
      fst (get_booking users caller bid w1) =
        Sent (mkResponse 200 true None (BookingData (Some booking)))) /\
     (user booking <> user_id caller -> role caller <> "admin" ->
      fst (get_booking users caller bid w1) =
        Sent (json_error 500 "Server error while fetching booking"))).
Proof.
  intros Hnd Hfst Hcode Hb Hprop w1.
  destruct (delete_property_effect USE_CLOUDINARY requser id w) as (r0 & Hfst0 & Hbk & Hcase).
  rewrite Hfst in Hfst0. injection Hfst0 as <-.
  assert (Hgone : find (fun p => String.eqb (property_id p) id) (properties w1) = None).
  { destruct (find _ (properties w)) as [prop|].
    - destruct (negb _ && negb _).
      + destruct Hcase as (-> & _). discriminate Hcode.
      + destruct Hcase as ([(_ & Hp)|(_ & -> & _)] & _); [|discriminate Hcode].
        unfold w1. rewrite Hp. apply find_remove_property, Hnd.
    - destruct Hcase as (-> & _). discriminate Hcode. }
  fold w1 in Hbk.
  assert (Hb1 : find (fun b => String.eqb (booking_id b) bid) (bookings w1) = Some booking)
    by (rewrite Hbk; exact Hb).
  split; [exact Hbk|]. split; [|split].
  - intros caller body.
    pose proof (put_booking_cases caller bid body w1) as Hput.
    rewrite Hb1, Hprop, Hgone in Hput. rewrite <- Hbk. exact Hput.
  - intros caller request Hrp.
    destruct (post_booking_effect caller request w1)
      as (r' & Hr' & _ & _ & _ & _ & [(Hc & Hbk' & _)|(_ & H')]).
    + exists r'. split; [exact Hr'|]. split; [|rewrite Hbk', Hbk; reflexivity].
      destruct (post_booking_gates caller request w1)
        as [(r2 & Hr2 & _ & Hcode2 & _)|H2].
      * rewrite Hr' in Hr2. injection Hr2 as <-. exact Hcode2.
      * destruct H2 as (pid & c & d & g & prop & Hp2 & _ & _ & _ & _ & _ & Hf2 & _).
        rewrite Hrp in Hp2. injection Hp2 as <-. congruence.
    + destruct H' as (pid & c & d & g & prop & Hp2 & _ & _ & _ & Hf2 & _).
      rewrite Hrp in Hp2. injection Hp2 as <-. congruence.
  - intros users caller Hu.
    destruct (get_booking_cases users caller bid w1) as [_ Hget].
    rewrite Hb1, Hu, Hprop, Hgone in Hget. cbn [negb] in Hget. split.
    + intros [Hc|Hc]; apply String.eqb_eq in Hc; rewrite Hget, Hc;
        rewrite ?andb_false_r; reflexivity.
    + intros H1 H2. apply String.eqb_neq in H1, H2. rewrite Hget, H1, H2. reflexivity.
Qed.

Lemma property_delete_strands_bookings_witness :
  bookings (snd (delete_property (H := sample_platform) true olivia "p1" world_booked))
    = [stay_alice] /\
  fst (put_booking alice "b1" body_cancel
         (snd (delete_property (H := sample_platform) true olivia "p1" world_booked))) =
    Sent (json_error 500 "Server error while updating booking") /\
  fst (get_booking ["alice"] alice "b1"
         (snd (delete_property (H := sample_platform) true olivia "p1" world_booked))) =
    Sent (mkResponse 200 true None (BookingData (Some stay_alice))).
Proof.
  pose proof (property_delete_strands_bookings (H := sample_platform) true olivia "p1"
                world_booked
                (mkResponse 200 true (Some "Property deleted successfully") NoData)
                "b1" stay_alice) as H.
  cbv zeta in H.
  destruct H as (H1 & H2 & _ & H3).
  - apply NoDup_singleton.
  - reflexivity.
  - reflexivity.
  - reflexivity.
  - reflexivity.
  - split; [exact H1|]. split; [apply (H2 alice body_cancel)|].
    apply (H3 ["alice"] alice); [reflexivity|left; reflexivity].
Defined.

(** ** Reading properties *)

Lemma replace_property_split id doc l p :
  find (fun p => String.eqb (property_id p) id) l = Some p ->
  exists before after,
    l = before ++ p :: after /\
    (forall q, In q before -> property_id q <> id) /\
    replace_property id doc l = before ++ doc :: after.
Proof.
  induction l as [|a l IH]; cbn [find replace_property]; [discriminate|].
  destruct (String.eqb (property_id a) id) eqn:E; intros Hfind.
  - injection Hfind as ->. exists [], l. repeat split. intros q [].
  - destruct (IH Hfind) as (before & after & -> & Hbefore & Hrep).
    exists (a :: before), after. rewrite Hrep. repeat split.
    intros q [<-|Hq]; [apply String.eqb_neq, E|apply Hbefore, Hq].
Qed.


Lemma bson_leb_total a b : bson_leb a b = true \/ bson_leb b a = true.
Proof.
  destruct a, b; cbn; try (left; reflexivity); try (right; reflexivity).
  - rewrite !Z.leb_le. lia.
  - apply String.leb_total.
  - destruct b, b0; auto.
  - rewrite !Z.leb_le. lia.
Qed.

#[local] Instance sort_rel_total sortBy direction : Total (sort_rel sortBy direction).
Proof.
  intros p q. unfold sort_rel. destruct (direction =? -1).
  - destruct (bson_leb_total (field_value sortBy q) (field_value sortBy p)) as [H|H];
      rewrite H; [left|right]; exact I.
  - destruct (bson_leb_total (field_value sortBy p) (field_value sortBy q)) as [H|H];
      rewrite H; [left|right]; exact I.
Qed.

Lemma Sorted_drop_any {A} (R : relation A) n (l : list A) :
  Sorted R l -> Sorted R (drop n l).
Proof.
  revert l. induction n as [|n IH]; intros l Hl; [exact Hl|].
  destruct l as [|a l]; [constructor|]. cbn [drop]. apply IH.
  apply Sorted_inv in Hl. apply Hl.
Qed.

Lemma Sorted_take_any {A} (R : relation A) n (l : list A) :
  Sorted R l -> Sorted R (take n l).
Proof.
  revert l. induction n as [|n IH]; intros l Hl; [constructor|].
  destruct l as [|a l]; [constructor|]. cbn [take].
  apply Sorted_inv in Hl. destruct Hl as [Hl Hhd].
  constructor; [apply IH, Hl|].
  destruct Hhd as [|b l' Hab]; [destruct n; constructor|].
  destruct n; constructor. exact Hab.
Qed.

Lemma limit_docs_sub {A} n (l : list A) x : In x (limit_docs n l) -> In x l.
Proof.
  unfold limit_docs. destruct (n =? 0); [auto|].
  intros Hx. apply list_elem_of_In. apply list_elem_of_In in Hx.
  eapply subseteq_take, Hx.
Qed.

Lemma limit_docs_length {A} n (l : list A) :
  n <> 0 -> Z.of_nat (length (limit_docs n l)) <= Z.abs n.
Proof.
  intros Hn. unfold limit_docs. apply Z.eqb_neq in Hn. rewrite Hn.
  rewrite length_take. lia.
Qed.

(** X13: the documents GET /api/properties answers with all come from
    the store and meet every filter of the query string (price bounds,
    type, bedrooms, availability, city pattern, text search); they
    are ordered by the requested sort key in the requested direction,
    and there are at most [limit] of them. *)
Theorem listing_respects_query `{Platform} q w r docs pages page total :
  fst (get_properties q w) = Sent r -> data r = PropertyList docs pages page total ->
  statusCode r = 200 /\
  Sorted (sort_rel (default "createdAt" (q_sortBy q))
            (if String.eqb (default "desc" (q_order q)) "desc" then -1 else 1)) docs /\
  (default 10 (q_limit q) <> 0 ->
   Z.of_nat (length docs) <= Z.abs (default 10 (q_limit q))) /\
  Z.of_nat (length docs) <= total /\
  forall p, In p docs ->
    In p (properties w) /\
    (forall s n, q_minPrice q = Some s -> s <> "" -> ToNumber s = Some n -> n <= price p) /\
    (forall s n, q_maxPrice q = Some s -> s <> "" -> ToNumber s = Some n -> price p <= n) /\
    (forall s, q_propertyType q = Some s -> s <> "" -> propertyType p = s) /\
    (forall s n, q_bedrooms q = Some s -> s <> "" -> ToNumber s = Some n ->
                 bedrooms p = Some n) /\
    (forall s, q_isAvailable q = Some s -> isAvailable p = String.eqb s "true") /\
    (forall s, q_city q = Some s -> s <> "" ->
               exists re, RegExp_i s = Some re /\ re (city p) = true) /\
    (forall s, q_search q = Some s -> s <> "" -> text_search s p = true).
Proof.
  intros Hfst Hdata.
  pose proof (get_properties_run q w) as Hrun. cbv zeta in Hrun.
  destruct (build_query q) as [e|query] eqn:Hq.
  { rewrite Hrun in Hfst. injection Hfst as <-. discriminate Hdata. }
  destruct (negb (query_casts query) || _) eqn:Hok.
  { rewrite Hrun in Hfst. injection Hfst as <-. discriminate Hdata. }
  rewrite Hrun in Hfst. injection Hfst as <-. cbn [data] in Hdata.
  injection Hdata as <- <- <- <-.
  split; [reflexivity|].
  set (found := filter (fun p => Is_true (matches query p)) (properties w)).
  set (R := sort_rel _ _).
  assert (Hsorted : Sorted R (drop (Z.to_nat ((default 1 (q_page q) - 1)
                                              * default 10 (q_limit q)))
                                (merge_sort R found))).
  { apply Sorted_drop_any. unfold R. apply Sorted_merge_sort. apply sort_rel_total. }
  split.
  { unfold limit_docs. destruct (_ =? 0); [exact Hsorted|].
    apply Sorted_take_any, Hsorted. }
  split.
  { intros Hl. rewrite Z.mul_1_r. apply limit_docs_length. exact Hl. }
  split.
  { apply Nat2Z.inj_le.
    transitivity (length (drop (Z.to_nat ((default 1 (q_page q) - 1)
                                          * default 10 (q_limit q)))
                            (merge_sort R found))).
    - unfold limit_docs. destruct (_ =? 0); [reflexivity|]. rewrite length_take. lia.
    - rewrite length_drop.
      rewrite (Permutation_length (merge_sort_Permutation R found)). lia. }
  intros p Hp. apply limit_docs_sub in Hp.
  apply list_elem_of_In in Hp. apply subseteq_drop in Hp.
  rewrite merge_sort_Permutation in Hp.
  apply list_elem_of_filter in Hp. destruct Hp as [Hm Hin].
  apply list_elem_of_In in Hin. split; [exact Hin|].
  apply Is_true_true in Hm.
  assert (Hgiven : forall s, s <> "" -> given (Some s) = true).
  { intros s Hs. cbn. apply negb_true_iff, String.eqb_neq, Hs. }
  assert (Hfields :
            query_text query = (if given (q_search q) then q_search q else None) /\
            query_price_gte query =
              (if (given (q_minPrice q) || given (q_maxPrice q)) && given (q_minPrice q)
               then Some (ToNumber (default "" (q_minPrice q))) else None) /\
            query_price_lte query =
              (if (given (q_minPrice q) || given (q_maxPrice q)) && given (q_maxPrice q)
               then Some (ToNumber (default "" (q_maxPrice q))) else None) /\
            query_propertyType query =
              (if given (q_propertyType q) then q_propertyType q else None) /\
            query_bedrooms query =
              (if given (q_bedrooms q)
               then Some (ToNumber (default "" (q_bedrooms q))) else None) /\
            query_isAvailable query =
              match q_isAvailable q with
              | Some s => Some (String.eqb s "true")
              | None => None
              end /\
            (given (q_city q) = true ->
             exists re, RegExp_i (default "" (q_city q)) = Some re /\
                        query_city query = Some re)).
  { unfold build_query in Hq. destruct (given (q_city q)).
    - destruct (RegExp_i (default "" (q_city q))) as [re|]; [|discriminate Hq].
      injection Hq as <-. cbn. repeat split. intros _. exists re. split; reflexivity.
    - injection Hq as <-. cbn. repeat split. discriminate. }
  destruct Hfields as (Ftext & Fgte & Flte & Ftype & Fbeds & Favail & Fcity).
  unfold matches in Hm.
  apply andb_true_iff in Hm. destruct Hm as [Hm Mavail].
  apply andb_true_iff in Hm. destruct Hm as [Hm Mbeds].
  apply andb_true_iff in Hm. destruct Hm as [Hm Mtype].
  apply andb_true_iff in Hm. destruct Hm as [Hm Mlte].
  apply andb_true_iff in Hm. destruct Hm as [Hm Mgte].
  apply andb_true_iff in Hm. destruct Hm as [Mtext Mcity].
  split; [|split; [|split; [|split; [|split; [|split]]]]].
  - intros s n Hs Hne Hn. rewrite Fgte, Hs, (Hgiven s Hne) in Mgte.
    cbn in Mgte. rewrite Hn in Mgte. cbn in Mgte. lia.
  - intros s n Hs Hne Hn. rewrite Flte, Hs, (Hgiven s Hne), orb_true_r in Mlte.
    cbn in Mlte. rewrite Hn in Mlte. cbn in Mlte. lia.
  - intros s Hs Hne. rewrite Ftype, Hs, (Hgiven s Hne) in Mtype.
    cbn in Mtype. apply String.eqb_eq, Mtype.
  - intros s n Hs Hne Hn. rewrite Fbeds, Hs, (Hgiven s Hne) in Mbeds.
    cbn in Mbeds. rewrite Hn in Mbeds. cbn in Mbeds.
    apply bool_decide_eq_true_1 in Mbeds. exact Mbeds.
  - intros s Hs. rewrite Favail, Hs in Mavail. cbn in Mavail.
    apply Bool.eqb_prop, Mavail.
  - intros s Hs Hne. rewrite Hs in Fcity. destruct (Fcity (Hgiven s Hne)) as (re & Hre & Hc).
    rewrite Hc in Mcity. cbn in Mcity, Hre. exists re. split; assumption.
  - intros s Hs Hne. rewrite Ftext, Hs, (Hgiven s Hne) in Mtext. cbn in Mtext. exact Mtext.
Qed.

Lemma listing_respects_query_witness :
  fst (get_properties (H := decimal_platform) from_90_up world_two) =
    Sent (mkResponse 200 true None (PropertyList [flat] (Some 1) 1 1)) /\
  forall p, In p [flat] -> In p (properties world_two) /\ 90 <= price p.
Proof.
  assert (Hrun : fst (get_properties (H := decimal_platform) from_90_up world_two) =
                 Sent (mkResponse 200 true None (PropertyList [flat] (Some 1) 1 1)))
    by (vm_compute; reflexivity).
  split; [exact Hrun|].
  destruct (listing_respects_query (H := decimal_platform) from_90_up world_two
              (mkResponse 200 true None (PropertyList [flat] (Some 1) 1 1))
              [flat] (Some 1) 1 1 Hrun eq_refl) as (_ & _ & _ & _ & Hdocs).
  intros p Hp. destruct (Hdocs p Hp) as (Hin & Hmin & _).
  split; [exact Hin|]. apply (Hmin "90" 90); [reflexivity|discriminate|reflexivity].
Defined.

(** X14: GET /api/properties answers 500, with the message of a server
    error, to a query string the client got wrong: a price bound or a
    bedroom count that is not a number, a city that is not a valid
    pattern, a page before the first. *)
Theorem listing_rejects_bad_parameters `{Platform} q w :
  (exists s, q_minPrice q = Some s /\ s <> "" /\ ToNumber s = None) \/
  (exists s, q_maxPrice q = Some s /\ s <> "" /\ ToNumber s = None) \/
  (exists s, q_bedrooms q = Some s /\ s <> "" /\ ToNumber s = None) \/
  (exists s, q_city q = Some s /\ s <> "" /\ RegExp_i s = None) \/
  (default 1 (q_page q) - 1) * default 10 (q_limit q) < 0 ->
  fst (get_properties q w) = Sent (json_error 500 "Server error while fetching properties").
Proof.
  intros Hbad.
  assert (Hgiven : forall s, s <> "" -> given (Some s) = true).
  { intros s Hs. cbn. apply negb_true_iff, String.eqb_neq, Hs. }
  pose proof (get_properties_run q w) as Hrun. cbv zeta in Hrun.
  destruct (build_query q) as [e|query] eqn:Hq; [exact Hrun|].
  assert (Hrej : negb (query_casts query)
                 || ((default 1 (q_page q) - 1) * default 10 (q_limit q) <? 0) = true);
    [|rewrite Hrej in Hrun; exact Hrun].
  unfold build_query in Hq.
  destruct Hbad as [(s & Hs & Hne & Hn)|[(s & Hs & Hne & Hn)|[(s & Hs & Hne & Hn)
                   |[(s & Hs & Hne & Hn)|Hpage]]]].
  - apply orb_true_iff. left. apply negb_true_iff.
    rewrite Hs, (Hgiven s Hne) in Hq. cbn [orb andb from_option id] in Hq. rewrite Hn in Hq.
    destruct (given (q_city q)); [destruct (RegExp_i _); [|discriminate Hq]|];
      injection Hq as <-; reflexivity.
  - apply orb_true_iff. left. apply negb_true_iff.
    rewrite Hs, (Hgiven s Hne), orb_true_r in Hq. cbn [andb from_option id] in Hq.
    rewrite Hn in Hq.
    destruct (given (q_city q)); [destruct (RegExp_i _); [|discriminate Hq]|];
      injection Hq as <-; unfold query_casts; cbn [query_price_gte query_price_lte];
      rewrite andb_false_r; reflexivity.
  - apply orb_true_iff. left. apply negb_true_iff.
    rewrite Hs, (Hgiven s Hne) in Hq. cbn [from_option id] in Hq. rewrite Hn in Hq.
    destruct (given (q_city q)); [destruct (RegExp_i _); [|discriminate Hq]|];
      injection Hq as <-; unfold query_casts; cbn [query_bedrooms];
      rewrite andb_false_r; reflexivity.
  - rewrite Hs, (Hgiven s Hne) in Hq. cbn [from_option id] in Hq. rewrite Hn in Hq.
    discriminate Hq.
  - apply orb_true_iff. right. apply Z.ltb_lt, Hpage.
Qed.

Lemma listing_rejects_bad_parameters_witness :
  fst (get_properties (H := decimal_platform) from_cheap_up world_two) =
  Sent (json_error 500 "Server error while fetching properties").
Proof.
  apply (listing_rejects_bad_parameters (H := decimal_platform) from_cheap_up world_two).
  left. exists "cheap". split; [reflexivity|]. split; [discriminate|reflexivity].
Defined.

(** ** Listing bookings and properties of a caller *)

Lemma get_bookings_run requser q w :
  let page := default 1 (bq_page q) in
  let limit := default 10 (bq_limit q) in
  let query := bookings_query requser (bq_status q) in
  get_bookings requser q w =
  if (page - 1) * limit <? 0
  then (Refused (json_error 500 "Server error while fetching bookings"),
        set_console (console w ++ ["Get bookings error: skip value must be non-negative"]) w)
  else (Data (mkBookingPage
                (limit_docs (limit * 1)
                   (drop (Z.to_nat ((page - 1) * limit))
                      (rev (List.filter query (bookings w)))))
                (total_pages (Z.of_nat (length (List.filter query (bookings w)))) limit)
                page
                (Z.of_nat (length (List.filter query (bookings w))))),
        w).
Proof.
  cbv zeta. unfold get_bookings, try_catch_data, get_bookings_body, get_bookings_catch,
    Booking_find_page, Booking_find, Booking_countDocuments, send.
  destruct ((default 1 (bq_page q) - 1) * default 10 (bq_limit q) <? 0);
    run_handler; reflexivity.
Qed.

Lemma bookings_query_spec requser st b :
  bookings_query requser st b = true <->
  (role requser = "admin" \/ user b = user_id requser) /\
  (forall s, st = Some s -> s <> "" -> status b = s).
Proof.
  unfold bookings_query. rewrite andb_true_iff, orb_true_iff, !String.eqb_eq.
  destruct st as [s|]; cbn [given from_option id].
  - destruct (String.eqb s "") eqn:E; cbn [negb].
    + apply String.eqb_eq in E. subst s. split.
      * intros [H _]. split; [exact H|]. intros s [= <-] Hne. contradiction.
      * intros [H _]. split; [exact H|reflexivity].
    + apply String.eqb_neq in E. rewrite String.eqb_eq. split.
      * intros [H Hs]. split; [exact H|]. intros s' [= <-] _. exact Hs.
      * intros [H Hs]. split; [exact H|]. apply (Hs s eq_refl E).
  - split; intros [H _]; (split; [exact H|]); [intros s Hs; discriminate Hs|reflexivity].
Qed.

(** X15: GET /api/bookings never shows a caller who is not an admin a
    booking of somebody else.  Every request is answered; the answer
    changes nothing in the store; each booking of the page is a stored
    booking of the caller (any stored booking for an admin) with the
    requested status; the total is the number of such bookings, and
    the first page holds all of them, latest first, when the limit
    allows. *)
Theorem get_bookings_shows_own_bookings requser q w :
  bookings (snd (get_bookings requser q w)) = bookings w /\
  properties (snd (get_bookings requser q w)) = properties w /\
  match fst (get_bookings requser q w) with
  | Data page =>
      (forall b, In b (page_bookings page) ->
         In b (bookings w) /\
         (role requser = "admin" \/ user b = user_id requser) /\
         (forall s, bq_status q = Some s -> s <> "" -> status b = s)) /\
      page_total page =
        Z.of_nat (length (List.filter (bookings_query requser (bq_status q)) (bookings w))) /\
      page_totalPages page = total_pages (page_total page) (default 10 (bq_limit q)) /\
      page_currentPage page = default 1 (bq_page q) /\
      Z.of_nat (length (page_bookings page)) <= page_total page /\
      (default 10 (bq_limit q) <> 0 ->
       Z.of_nat (length (page_bookings page)) <= Z.abs (default 10 (bq_limit q))) /\
      (default 1 (bq_page q) = 1 -> page_total page <= Z.abs (default 10 (bq_limit q)) ->
       page_bookings page =
         rev (List.filter (bookings_query requser (bq_status q)) (bookings w)))
  | Refused r =>
      r = json_error 500 "Server error while fetching bookings" /\
      (default 1 (bq_page q) - 1) * default 10 (bq_limit q) < 0
  | Escaped _ => False
  end.
Proof.
  pose proof (get_bookings_run requser q w) as Hrun. cbv zeta in Hrun. rewrite Hrun.
  destruct (_ <? 0) eqn:Hskip; cbn [fst snd].
  - repeat split. apply Z.ltb_lt, Hskip.
  - split; [reflexivity|]. split; [reflexivity|].
    cbn [page_bookings page_total page_totalPages page_currentPage].
    set (found := List.filter _ (bookings w)).
    split; [|split; [reflexivity|split; [reflexivity|split; [reflexivity|split; [|split]]]]].
    + intros b Hb. apply limit_docs_sub in Hb.
      apply list_elem_of_In in Hb. apply subseteq_drop in Hb.
      apply list_elem_of_In in Hb. apply in_rev in Hb.
      apply filter_In in Hb. destruct Hb as [Hin Hq].
      apply bookings_query_spec in Hq. destruct Hq as [Hwho Hst]. auto.
    + apply Nat2Z.inj_le. unfold limit_docs.
      destruct (_ =? 0).
      * rewrite length_drop, length_rev. lia.
      * rewrite length_take, length_drop, length_rev. lia.
    + intros Hl. rewrite Z.mul_1_r. apply limit_docs_length, Hl.
    + intros Hpage Htotal. rewrite Hpage. cbn [Z.sub Z.mul Z.to_nat]. 
      change (Z.to_nat ((1 - 1) * default 10 (bq_limit q))) with 0%nat.
      cbn [drop]. unfold limit_docs. rewrite Z.mul_1_r.
      destruct (_ =? 0); [reflexivity|].
      apply take_ge. rewrite length_rev. lia.
Qed.

Lemma get_property_bookings_run requser propertyId w :
  get_property_bookings requser propertyId w =
  match find (fun p => String.eqb (property_id p) propertyId) (properties w) with
  | None => (Refused (json_error 404 "Property not found"),
             set_dbLog (dbLog w ++ [Property_findById_op propertyId]) w)
  | Some prop =>
      if negb (String.eqb (owner prop) (user_id requser))
         && negb (String.eqb (role requser) "admin")
      then (Refused (json_error 403 "Not authorized to view property bookings"),
            set_dbLog (dbLog w ++ [Property_findById_op propertyId]) w)
      else (Data (rev (List.filter (fun b => String.eqb (property b) propertyId)
                         (bookings w))),
            set_dbLog (dbLog w ++ [Property_findById_op propertyId]) w)
  end.
Proof.
  unfold get_property_bookings, try_catch_data, get_property_bookings_body,
    Property_findById, Booking_find, send.
  run_handler.
  destruct (find _ (properties w)) as [prop|]; run_handler; [|reflexivity].
  destruct (negb _ && negb _); run_handler; reflexivity.
Qed.

(** X16: GET /api/bookings/property/:propertyId gives the bookings of
    a property to its owner and to admins only, and gives them all of
    them: the answer holds exactly the stored bookings of that
    property, latest first.  Anyone else gets a 403, an unknown
    property a 404, and the store is left as it was. *)
Theorem get_property_bookings_for_owner_only requser propertyId w :
  bookings (snd (get_property_bookings requser propertyId w)) = bookings w /\
  properties (snd (get_property_bookings requser propertyId w)) = properties w /\
  match fst (get_property_bookings requser propertyId w) with
  | Data found =>
      (exists prop,
         find (fun p => String.eqb (property_id p) propertyId) (properties w) = Some prop /\
         (owner prop = user_id requser \/ role requser = "admin")) /\
      (forall b, In b found <-> In b (bookings w) /\ property b = propertyId) /\
      found = rev (List.filter (fun b => String.eqb (property b) propertyId) (bookings w))
  | Refused r =>
      match find (fun p => String.eqb (property_id p) propertyId) (properties w) with
      | None => r = json_error 404 "Property not found"
      | Some prop =>
          r = json_error 403 "Not authorized to view property bookings" /\
          owner prop <> user_id requser /\ role requser <> "admin"
      end
  | Escaped _ => False
  end.
Proof.
  rewrite get_property_bookings_run.
  destruct (find _ (properties w)) as [prop|] eqn:Hfind; [|repeat split; reflexivity].
  destruct (String.eqb (owner prop) (user_id requser)) eqn:E1;
    [|destruct (String.eqb (role requser) "admin") eqn:E2]; cbn [negb andb fst snd].
  1,2: (split; [reflexivity|]; split; [reflexivity|];
        split; [exists prop; split; [reflexivity|];
                first [left; apply String.eqb_eq; assumption
                      |right; apply String.eqb_eq; assumption]|];
        split; [|reflexivity];
        intros b; rewrite <- in_rev, filter_In, String.eqb_eq; reflexivity).
  apply String.eqb_neq in E1, E2. repeat split; assumption.
Qed.

Lemma my_properties_run requser w :
  my_properties requser w =
  (Data (merge_sort (sort_rel "createdAt" (-1))
           (List.filter (fun p => String.eqb (owner p) (user_id requser)) (properties w))),
   set_dbLog (dbLog w ++ [Property_find_op]) w).
Proof.
  unfold my_properties, try_catch_data, my_properties_body, send. run_handler. reflexivity.
Qed.

(** X17: GET /api/properties/user/my-properties answers with exactly
    the stored properties the caller owns, each as often as it is
    stored, latest first, and changes nothing in the store. *)
Theorem my_properties_are_the_callers requser w :
  exists found,
    fst (my_properties requser w) = Data found /\
    found ≡ₚ List.filter (fun p => String.eqb (owner p) (user_id requser)) (properties w) /\
    (forall p, In p found <-> In p (properties w) /\ owner p = user_id requser) /\
    Sorted newest_first found /\
    properties (snd (my_properties requser w)) = properties w /\
    bookings (snd (my_properties requser w)) = bookings w.
Proof.
  rewrite my_properties_run. eexists. split; [reflexivity|].
  split; [apply merge_sort_Permutation|].
  split; [|split; [|split; reflexivity]].
  - intros p. rewrite <- !list_elem_of_In, merge_sort_Permutation, !list_elem_of_In.
    rewrite filter_In, String.eqb_eq. reflexivity.
  - apply Sorted_newest_first, Sorted_merge_sort. apply sort_rel_createdAt_total.
Qed.

(** ** Creating and updating a property *)

(** What the deletion of the files of a request can do to the stores *)
Lemma delete_uploaded_frame (USE_CLOUDINARY : bool) files w :
  exists s w',
    delete_uploaded USE_CLOUDINARY files w = (s, w') /\
    (s = Next tt \/ (USE_CLOUDINARY = false /\ exists p, s = Raise (FsError p))) /\
    properties w' = properties w /\ bookings w' = bookings w /\
    (forall k, cloud w' !! k = cloud w !! k \/
       (USE_CLOUDINARY = true /\ cloud w' !! k = None /\
        exists f, In f files /\ file_filename f = k)) /\
    (forall p, disk w' !! p = disk w !! p \/
       (USE_CLOUDINARY = false /\ disk w' !! p = None /\
        exists f, In f files /\ file_path f = p)).
Proof.
  unfold delete_uploaded. destruct files as [|f0 files].
  { exists (Next tt), w. cbn. repeat split; auto. }
  cbn [isEmpty negb]. destruct USE_CLOUDINARY.
  - destruct (forEach_destroy_frame
                (fun file => if negb (String.eqb (file_filename file) "")
                             then Some (file_filename file) else None)
                (fun file => if negb (String.eqb (file_filename file) "")
                             then cloudinary_destroy (file_filename file) else ret tt)
                (f0 :: files)
                ltac:(intros x; cbv beta;
                      destruct (negb (String.eqb (file_filename x) "")); reflexivity)
                w)
      as (w' & Hrun & Hp & Hb & Hd & Hc).
    exists (Next tt), w'. split; [exact Hrun|]. split; [left; reflexivity|].
    split; [exact Hp|]. split; [exact Hb|]. split.
    + intros k. destruct (Hc k) as [Hsame|[Hnone (x & Hx & Hsel)]]; [left; exact Hsame|].
      right. split; [reflexivity|]. split; [exact Hnone|].
      exists x. split; [exact Hx|].
      destruct (negb (String.eqb (file_filename x) "")); congruence.
    + intros p. left. rewrite Hd. reflexivity.
  - destruct (forEach_unlink_frame file_path
                (fun file => unlink_if_present (file_path file))
                (f0 :: files) ltac:(reflexivity) w)
      as (s & w' & Hrun & Hs & Hp & Hb & Hc & Hd).
    exists s, w'. split; [exact Hrun|].
    split; [destruct Hs as [Hs|Hs]; [left; exact Hs|right; split; [reflexivity|exact Hs]]|].
    split; [exact Hp|]. split; [exact Hb|]. split.
    + intros k. left. rewrite Hc. reflexivity.
    + intros p. destruct (Hd p) as [Hsame|[Hnone (x & Hx & Hsel)]]; [left; exact Hsame|].
      right. split; [reflexivity|]. split; [exact Hnone|]. exists x. split; assumption.
Qed.

Lemma delete_uploaded_raises files w :
  (exists f, In f files /\ disk w !! file_path f = Some false) ->
  exists p w',
    delete_uploaded false files w = (Raise (FsError p), w') /\
    properties w' = properties w /\ bookings w' = bookings w /\ cloud w' = cloud w /\
    console w' = console w /\
    (forall q, disk w !! q = Some false -> disk w' !! q = Some false).
Proof.
  intros Hbad. unfold delete_uploaded.
  destruct files as [|f0 files]; [destruct Hbad as (f & [] & _)|].
  cbn [isEmpty negb].
  destruct (forEach_unlink_raises file_path
              (fun file => unlink_if_present (file_path file))
              (f0 :: files) ltac:(reflexivity) w Hbad)
    as (p & w' & Hrun & Hp & Hb & Hc & Hco & _ & Hd).
  exists p, w'. repeat (split; [assumption|]). exact Hd.
Qed.

(** The catch block of a handler of routes/properties.js, when a file
    of the request cannot be unlinked: the exception of [unlinkSync]
    leaves the block. *)
Lemma cleanup_in_catch_raises files line (r : Response) w :
  (exists f, In f files /\ disk w !! file_path f = Some false) ->
  exists p w',
    (console_error line ;; delete_uploaded false files ;; reply (A := Empty_set) r) w =
      (Raise (FsError p), w') /\
    properties w' = properties w /\ bookings w' = bookings w.
Proof.
  intros Hbad. run_handler.
  destruct (delete_uploaded_raises files (set_console (console w ++ [line]) w) Hbad)
    as (p & w' & Hrun & Hp & Hb & _).
  rewrite Hrun. exists p, w'. repeat split; assumption.
Qed.

(** X18: with local storage, an uploaded file that cannot be unlinked
    turns every failure path of POST and PUT /api/properties into no
    answer at all.  The clean-up of the failure path throws, the catch
    block runs the same clean-up and throws again, and the exception
    leaves the handler; no property is created or changed. *)
Theorem stuck_upload_leaves_request_unanswered `{Platform} requser files w
    (cast : PropertyInput -> Property -> Exn + Property) :
  (exists f, In f files /\ disk w !! file_path f = Some false) ->
  (forall data,
     match data with
     | Malformed => True
     | Parsed d => manual_validation d <> inr []
     end ->
     exists p, fst (post_property false requser files data w) = Unhandled (FsError p) /\
               properties (snd (post_property false requser files data w)) = properties w) /\
  (forall id data,
     (forall prop,
        find (fun p => String.eqb (property_id p) id) (properties w) = Some prop ->
        owner prop <> user_id requser /\ role requser <> "admin") ->
     exists p, fst (put_property cast false requser id files data w) = Unhandled (FsError p) /\
               properties (snd (put_property cast false requser id files data w))
               = properties w).
Proof.
  intros Hbad. split.
  - intros data Hfail. unfold post_property, try_catch, post_property_body.
    destruct data as [|d].
    + run_handler. unfold post_property_catch.
      destruct (cleanup_in_catch_raises files
                  ("Create property error: "
                   +:+ exn_message (SyntaxError "Unexpected token in JSON"))
                  (json_error 500 "Server error while creating property") w Hbad)
        as (p & w' & Hrun & Hp & _).
      rewrite Hrun. exists p. split; [reflexivity|exact Hp].
    + destruct (manual_validation d) as [e|[|e errors]]; [|contradiction|];
        unfold lift; run_handler; run_handler.
      * unfold post_property_catch.
        destruct (cleanup_in_catch_raises files
                    ("Create property error: " +:+ exn_message e)
                    (json_error 500 "Server error while creating property") w Hbad)
          as (p & w' & Hrun & Hp & _).
        rewrite Hrun. exists p. split; [reflexivity|exact Hp].
      * destruct (delete_uploaded_raises files w Hbad)
          as (p0 & w0 & Hrun0 & Hp0 & _ & _ & _ & Hd0).
        rewrite Hrun0. unfold post_property_catch.
        assert (Hbad0 : exists f, In f files /\ disk w0 !! file_path f = Some false).
        { destruct Hbad as (f & Hf & Hdisk). exists f. split; [exact Hf|]. apply Hd0, Hdisk. }
        destruct (cleanup_in_catch_raises files
                    ("Create property error: " +:+ exn_message (FsError p0))
                    (json_error 500 "Server error while creating property") w0 Hbad0)
          as (p & w' & Hrun & Hp & _).
        rewrite Hrun. exists p. split; [reflexivity|]. cbn [snd]. congruence.
  - intros id data Hno.
    unfold put_property, try_catch, put_property_body, Property_findById.
    run_handler.
    set (w1 := set_dbLog (dbLog w ++ [Property_findById_op id]) w).
    assert (Hbad1 : exists f, In f files /\ disk w1 !! file_path f = Some false) by exact Hbad.
    destruct (delete_uploaded_raises files w1 Hbad1)
      as (p0 & w0 & Hrun0 & Hp0 & _ & _ & _ & Hd0).
    assert (Hbad0 : exists f, In f files /\ disk w0 !! file_path f = Some false).
    { destruct Hbad as (f & Hf & Hdisk). exists f. split; [exact Hf|]. apply Hd0, Hdisk. }
    destruct (cleanup_in_catch_raises files
                ("Update property error: " +:+ exn_message (FsError p0))
                (json_error 500 "Server error while updating property") w0 Hbad0)
      as (p & w' & Hrun & Hp & _).
    destruct (find _ (properties w)) as [prop|] eqn:Hfind.
    + destruct (Hno prop eq_refl) as [H1 H2]. apply String.eqb_neq in H1, H2.
      rewrite H1, H2. cbn [negb andb]. run_handler. rewrite Hrun0.
      unfold put_property_catch. rewrite Hrun.
      exists p. split; [reflexivity|]. cbn [snd]. rewrite Hp, Hp0. reflexivity.
    + run_handler. rewrite Hrun0. unfold put_property_catch. rewrite Hrun.
      exists p. split; [reflexivity|]. cbn [snd]. rewrite Hp, Hp0. reflexivity.
Qed.

Lemma stuck_upload_leaves_request_unanswered_witness :
  (exists p, fst (post_property (H := sample_platform) false alice [upload_local] Malformed
                    world_upload_locked) = Unhandled (FsError p)) /\
  (exists p, fst (put_property cast_price_and_images false bob "p4" [upload_local]
                    (Parsed (new_price 10)) world_upload_locked) = Unhandled (FsError p)).
Proof.
  destruct (stuck_upload_leaves_request_unanswered (H := sample_platform) alice
              [upload_local] world_upload_locked cast_price_and_images) as [Hpost _].
  { exists upload_local. split; [left; reflexivity|reflexivity]. }
  destruct (stuck_upload_leaves_request_unanswered (H := sample_platform) bob
              [upload_local] world_upload_locked cast_price_and_images) as [_ Hput].
  { exists upload_local. split; [left; reflexivity|reflexivity]. }
  split.
  - destruct (Hpost Malformed I) as (p & Hp & _). exists p. exact Hp.
  - destruct (Hput "p4" (Parsed (new_price 10))) as (p & Hp & _).
    + intros prop Hfind. injection Hfind as <-. split; discriminate.
    + exists p. exact Hp.
Defined.

(** X19: PUT /api/properties/:id by a caller who is neither the owner
    of the property nor an admin is answered 403, and an unknown id
    404; nothing is changed in the store, and the files uploaded with
    the request are removed again (as far as the asset store lets
    them go). *)
Theorem put_property_needs_owner_or_admin
    (cast : PropertyInput -> Property -> Exn + Property) (USE_CLOUDINARY : bool)
    requser id files data w :
  (USE_CLOUDINARY = true \/ forall f, In f files -> disk w !! file_path f <> Some false) ->
  (forall prop,
     find (fun p => String.eqb (property_id p) id) (properties w) = Some prop ->
     owner prop <> user_id requser /\ role requser <> "admin") ->
  fst (put_property cast USE_CLOUDINARY requser id files data w) =
    (match find (fun p => String.eqb (property_id p) id) (properties w) with
     | Some _ => Sent (json_error 403 "Not authorized to update this property")
     | None => Sent (json_error 404 "Property not found")
     end) /\
  properties (snd (put_property cast USE_CLOUDINARY requser id files data w))
    = properties w /\
  (if USE_CLOUDINARY
   then forall f, In f files -> file_filename f <> "" ->
                  cloud w !! file_filename f <> Some false ->
                  cloud (snd (put_property cast USE_CLOUDINARY requser id files data w))
                  !! file_filename f = None
   else forall f, In f files ->
                  disk (snd (put_property cast USE_CLOUDINARY requser id files data w))
                  !! file_path f = None).
Proof.
  intros Hcan Hno.
  unfold put_property, try_catch, put_property_body, Property_findById.
  run_handler.
  destruct (delete_uploaded_ok USE_CLOUDINARY files
              (set_dbLog (dbLog w ++ [Property_findById_op id]) w) Hcan)
    as (w' & Hrun & Hp & Hgone).
  destruct (find _ (properties w)) as [prop|] eqn:Hfind.
  - destruct (Hno prop eq_refl) as [H1 H2]. apply String.eqb_neq in H1, H2.
    rewrite H1, H2. cbn [negb andb]. run_handler. rewrite Hrun.
    split; [reflexivity|]. split; [exact Hp|exact Hgone].
  - run_handler. rewrite Hrun.
    split; [reflexivity|]. split; [exact Hp|exact Hgone].
Qed.

Lemma put_property_needs_owner_or_admin_witness :
  fst (put_property cast_price_and_images false bob "p4" [upload_local]
         (Parsed (new_price 10)) (set_properties [villa] world_upload_local)) =
    Sent (json_error 403 "Not authorized to update this property") /\
  properties (snd (put_property cast_price_and_images false bob "p4" [upload_local]
                     (Parsed (new_price 10)) (set_properties [villa] world_upload_local)))
    = [villa] /\
  disk (snd (put_property cast_price_and_images false bob "p4" [upload_local]
               (Parsed (new_price 10)) (set_properties [villa] world_upload_local)))
    !! file_path upload_local = None.
Proof.
  destruct (put_property_needs_owner_or_admin cast_price_and_images false bob "p4"
              [upload_local] (Parsed (new_price 10))
              (set_properties [villa] world_upload_local)) as (H1 & H2 & H3).
  - right. intros f [<-|[]]. vm_compute. discriminate.
  - intros prop Hfind. injection Hfind as <-. split; discriminate.
  - split; [exact H1|]. split; [exact H2|]. apply H3. left. reflexivity.
Defined.

(** X20: PUT /api/properties/:id changes at most one stored property,
    the first one with the requested id, and only for its owner or an
    admin; the new document is what the store makes of the submitted
    data, with the paths of the uploaded files appended to the images
    it had.  The bookings are never touched, and an accepted update
    keeps the uploaded files. *)
Theorem put_property_updates_one (cast : PropertyInput -> Property -> Exn + Property)
    (USE_CLOUDINARY : bool) requser id files data w :
  bookings (snd (put_property cast USE_CLOUDINARY requser id files data w)) = bookings w /\
  (properties (snd (put_property cast USE_CLOUDINARY requser id files data w))
     = properties w \/
   exists prop d doc before after,
     find (fun p => String.eqb (property_id p) id) (properties w) = Some prop /\
     (owner prop = user_id requser \/ role requser = "admin") /\
     data = Parsed d /\
     cast (if negb (isEmpty files)
           then with_images (images prop ++ uploaded_images USE_CLOUDINARY files) d
           else d) prop = inr doc /\
     fst (put_property cast USE_CLOUDINARY requser id files data w) =
       Sent (mkResponse 200 true (Some "Property updated successfully")
               (PropertyData doc)) /\
     properties w = before ++ prop :: after /\
     (forall q, In q before -> property_id q <> id) /\
     properties (snd (put_property cast USE_CLOUDINARY requser id files data w))
       = before ++ doc :: after /\
     disk (snd (put_property cast USE_CLOUDINARY requser id files data w)) = disk w /\
     cloud (snd (put_property cast USE_CLOUDINARY requser id files data w)) = cloud w).
Proof.
  assert (Hcatch : forall e w0,
            properties w0 = properties w -> bookings w0 = bookings w ->
            exists o w', (match put_property_catch USE_CLOUDINARY files e w0 with
                          | (Next x, _) => match x with end
                          | (Reply r, w'') => (Sent r, w'')
                          | (Raise e', w'') => (Unhandled e', w'')
                          end) = (o, w') /\
                         properties w' = properties w /\ bookings w' = bookings w).
  { intros e w0 Hp0 Hb0. unfold put_property_catch. run_handler.
    destruct (delete_uploaded_frame USE_CLOUDINARY files
                (set_console (console w0 ++ ["Update property error: " +:+ exn_message e])
                   w0))
      as (s & w' & Hrun & Hs & Hp & Hb & _).
    cbn [properties bookings set_console] in Hp, Hb.
    rewrite Hrun. destruct Hs as [->|(_ & p & ->)]; eexists; eexists;
      (split; [reflexivity|]); split; congruence. }
  unfold put_property, try_catch, put_property_body, Property_findById.
  run_handler.
  destruct (delete_uploaded_frame USE_CLOUDINARY files
              (set_dbLog (dbLog w ++ [Property_findById_op id]) w))
    as (s & w1 & Hrun1 & Hs1 & Hp1 & Hb1 & _).
  cbn [properties bookings set_dbLog] in Hp1, Hb1.
  assert (Hrefused : forall r : Response,
            let out := match (let (s0, w') := delete_uploaded USE_CLOUDINARY files
                                 (set_dbLog (dbLog w ++ [Property_findById_op id]) w) in
                              match s0 with
                              | Next _ => (Reply (A := Empty_set) r, w')
                              | Reply r0 => (Reply r0, w')
                              | Raise e => (Raise e, w')
                              end) with
                       | (Next x, _) => match x with end
                       | (Reply r0, w') => (Sent r0, w')
                       | (Raise e, w') =>
                           match put_property_catch USE_CLOUDINARY files e w' with
                           | (Next x, _) => match x with end
                           | (Reply r0, w'') => (Sent r0, w'')
                           | (Raise e', w'') => (Unhandled e', w'')
                           end
                       end in
            bookings (snd out) = bookings w /\ properties (snd out) = properties w).
  { intros r. cbv zeta. rewrite Hrun1.
    destruct Hs1 as [->|(_ & p & ->)].
    - split; assumption.
    - destruct (Hcatch (FsError p) w1 Hp1 Hb1) as (o & w' & -> & Hp & Hb).
      split; assumption. }
  destruct (find _ (properties w)) as [prop|] eqn:Hfind; run_handler.
  2: { destruct (Hrefused (json_error 404 "Property not found")) as [Hb Hp].
       split; [exact Hb|left; exact Hp]. }
  destruct (negb _ && negb _) eqn:Hgate; run_handler.
  { destruct (Hrefused (json_error 403 "Not authorized to update this property"))
      as [Hb Hp].
    split; [exact Hb|left; exact Hp]. }
  assert (Hauth : owner prop = user_id requser \/ role requser = "admin").
  { apply andb_false_iff in Hgate. destruct Hgate as [Hg|Hg];
      apply negb_false_iff, String.eqb_eq in Hg; auto. }
  destruct data as [|d]; run_handler.
  { destruct (Hcatch (SyntaxError "Unexpected token in JSON")
                (set_dbLog (dbLog w ++ [Property_findById_op id]) w) eq_refl eq_refl)
      as (o & w' & -> & Hp & Hb).
    split; [exact Hb|left; exact Hp]. }
  unfold Property_findByIdAndUpdate. run_handler. rewrite Hfind.
  destruct (cast _ prop) as [e|doc] eqn:Hcast; run_handler.
  { destruct (Hcatch e (set_dbLog (dbLog w ++ [Property_findById_op id]) w) eq_refl eq_refl)
      as (o & w' & -> & Hp & Hb).
    split; [exact Hb|left; exact Hp]. }
  split; [reflexivity|]. right.
  destruct (replace_property_split id doc _ _ Hfind) as (before & after & Heq & Hbefore & Hrep).
  exists prop, d, doc, before, after.
  split; [reflexivity|]. split; [exact Hauth|]. split; [reflexivity|].
  split; [exact Hcast|]. split; [reflexivity|]. split; [exact Heq|].
  split; [exact Hbefore|]. split; [exact Hrep|]. split; reflexivity.
Qed.




(** ** The public id of a hosted picture *)

Lemma append_cons c a b : String c a +:+ b = String c (a +:+ b).
Proof. reflexivity. Qed.

Lemma append_assoc3 a b c : (a +:+ b) +:+ c = a +:+ (b +:+ c).
Proof.
  induction a as [|x a IH]; [reflexivity|]. rewrite !append_cons, IH. reflexivity.
Qed.

Lemma length_append a b : String.length (a +:+ b) = (String.length a + String.length b)%nat.
Proof.
  induction a as [|x a IH]; [reflexivity|]. rewrite append_cons. cbn [String.length].
  rewrite IH. reflexivity.
Qed.

Lemma prefix_split p s :
  String.prefix p s = true -> s = p +:+ string_drop (String.length p) s.
Proof.
  revert s. induction p as [|a p IH]; intros s; [reflexivity|].
  destruct s as [|b s]; cbn [String.prefix]; [discriminate|].
  destruct (ascii_dec a b) as [->|]; [|discriminate].
  intros Hp. rewrite append_cons. cbn [String.length string_drop]. f_equal. apply IH, Hp.
Qed.

Lemma prefix_append p x : String.prefix p (p +:+ x) = true.
Proof.
  induction p as [|a p IH]; [destruct x; reflexivity|].
  rewrite append_cons. cbn [String.prefix].
  destruct (ascii_dec a a); [exact IH|contradiction].
Qed.

Lemma string_drop_append p x : string_drop (String.length p) (p +:+ x) = x.
Proof. induction p as [|a p IH]; [reflexivity|exact IH]. Qed.

Lemma prefix_shorter p s t :
  String.prefix p (s +:+ t) = true -> (String.length p <= String.length s)%nat ->
  String.prefix p s = true.
Proof.
  revert s. induction p as [|a p IH]; intros s Hp Hlen; [destruct s; reflexivity|].
  destruct s as [|b s]; [cbn in Hlen; lia|].
  rewrite append_cons in Hp. cbn [String.prefix] in *.
  destruct (ascii_dec a b); [|discriminate].
  apply IH; [exact Hp|cbn in Hlen; lia].
Qed.

Lemma segment_split s :
  exists post, s = segment s +:+ post /\ ends_segment post = true.
Proof.
  induction s as [|c s IH]; [exists ""; split; reflexivity|].
  cbn [segment]. destruct (Ascii.eqb c "/" || Ascii.eqb c ".") eqn:E.
  - exists (String c s). split; [reflexivity|exact E].
  - destruct IH as (post & Hs & Hpost). exists post.
    rewrite append_cons, <- Hs. split; [reflexivity|exact Hpost].
Qed.

Lemma segment_plain s : plain_segment (segment s) = true.
Proof.
  induction s as [|c s IH]; [reflexivity|].
  cbn [segment]. destruct (Ascii.eqb c "/" || Ascii.eqb c ".") eqn:E; [reflexivity|].
  unfold plain_segment. cbn [list_ascii_of_string forallb]. rewrite E. exact IH.
Qed.

Lemma segment_append m post :
  plain_segment m = true -> ends_segment post = true -> segment (m +:+ post) = m.
Proof.
  intros Hm Hpost. induction m as [|c m IH].
  - destruct post as [|c post]; [reflexivity|].
    change ("" +:+ String c post) with (String c post). cbn [segment].
    cbn [ends_segment] in Hpost. rewrite Hpost. reflexivity.
  - unfold plain_segment in Hm. cbn [list_ascii_of_string forallb] in Hm.
    apply andb_true_iff in Hm. destruct Hm as [Hc Hm]. apply negb_true_iff in Hc.
    rewrite append_cons. cbn [segment]. rewrite Hc. f_equal. apply IH, Hm.
Qed.

Lemma match_public_id_eq imageUrl :
  match_public_id imageUrl =
  let here :=
    if String.prefix folder_prefix imageUrl
    then segment (string_drop (String.length folder_prefix) imageUrl)
    else EmptyString in
  if negb (String.eqb here "") then Some here
  else
    match imageUrl with
    | EmptyString => None
    | String _ rest => match_public_id rest
    end.
Proof. destruct imageUrl; reflexivity. Qed.

(** X22: the public id DELETE /api/properties/:id derives from an image
    URL is always read off the URL itself: the segment it captures is
    not empty, holds no slash and no dot, stands in the URL right after
    [/property-rental/properties/], and ends where the URL ends or at
    the next slash or dot. *)
Theorem match_public_id_captures_a_segment imageUrl m :
  match_public_id imageUrl = Some m ->
  m <> "" /\ plain_segment m = true /\
  exists before after,
    imageUrl = before +:+ folder_prefix +:+ m +:+ after /\ ends_segment after = true.
Proof.
  induction imageUrl as [|c rest IH]; rewrite match_public_id_eq; cbv zeta.
  - cbn. discriminate.
  - destruct (String.prefix folder_prefix (String c rest)) eqn:Hp.
    + remember (segment (string_drop (String.length folder_prefix) (String c rest)))
        as seg eqn:Hseg.
      destruct (String.eqb_spec seg "") as [He|Hne]; cbn [negb].
      * intros Hm. destruct (IH Hm) as (H1 & H2 & before & after & Heq & Hend).
        split; [exact H1|]. split; [exact H2|].
        exists (String c before), after. rewrite append_cons, <- Heq. auto.
      * intros Hm. injection Hm as Hm. subst m.
        split; [exact Hne|]. split; [rewrite Hseg; apply segment_plain|].
        destruct (segment_split (string_drop (String.length folder_prefix) (String c rest)))
          as (after & Hs & Hend).
        rewrite <- Hseg in Hs.
        exists "", after. split; [|exact Hend].
        change ("" +:+ folder_prefix +:+ seg +:+ after)
          with (folder_prefix +:+ (seg +:+ after)).
        rewrite <- Hs. apply prefix_split, Hp.
    + cbn [String.eqb negb]. intros Hm.
      destruct (IH Hm) as (H1 & H2 & before & after & Heq & Hend).
      split; [exact H1|]. split; [exact H2|].
      exists (String c before), after. rewrite append_cons, <- Heq. auto.
Qed.

(** X23: for an image URL of the layout the cloud host gives the
    uploads, [base/property-rental/properties/name.ext], where the
    folder occurs nowhere earlier in the URL, DELETE
    /api/properties/:id derives the public id
    [property-rental/properties/name]. *)
Theorem match_public_id_round_trip base m after :
  m <> "" -> plain_segment m = true -> ends_segment after = true ->
  occurs folder_prefix (base +:+ "/property-rental/properties") = false ->
  match_public_id (base +:+ folder_prefix +:+ m +:+ after) = Some m.
Proof.
  intros Hne Hm Hafter. induction base as [|c base IH]; intros Hocc.
  - change ("" +:+ ?x) with x. rewrite match_public_id_eq. cbv zeta.
    rewrite prefix_append, string_drop_append, segment_append by assumption.
    destruct (String.eqb_spec m ""); [contradiction|reflexivity].
  - rewrite append_cons in Hocc. cbn [occurs] in Hocc.
    apply orb_false_iff in Hocc. destruct Hocc as [Hhere Hocc].
    rewrite append_cons, match_public_id_eq. cbv zeta.
    assert (Hp : String.prefix folder_prefix
                   (String c (base +:+ folder_prefix +:+ m +:+ after)) = false).
    { destruct (String.prefix folder_prefix
                  (String c (base +:+ folder_prefix +:+ m +:+ after))) eqn:Hp;
        [|reflexivity].
      rewrite <- Hhere. symmetry.
      apply (prefix_shorter _ _ ("/" +:+ m +:+ after)).
      - rewrite append_cons, append_assoc3. exact Hp.
      - cbn [String.length]. rewrite length_append. cbn. lia. }
    rewrite Hp. cbn [String.eqb negb]. apply IH, Hocc.
Qed.

Lemma match_public_id_round_trip_witness :
  match_public_id
    "https://res.cloudinary.com/demo/image/upload/v1/property-rental/properties/abc.jpg"
  = Some "abc".
Proof.
  apply (match_public_id_round_trip "https://res.cloudinary.com/demo/image/upload/v1"
           "abc" ".jpg").
  - discriminate.
  - reflexivity.
  - reflexivity.
  - vm_compute. reflexivity.
Defined.

Lemma match_public_id_captures_a_segment_witness :
  exists before after,
    "https://res.cloudinary.com/demo/image/upload/v1/property-rental/properties/abc.jpg"
    = before +:+ folder_prefix +:+ "abc" +:+ after /\ ends_segment after = true.
Proof.
  destruct (match_public_id_captures_a_segment
              "https://res.cloudinary.com/demo/image/upload/v1/property-rental/properties/abc.jpg"
              "abc") as (_ & _ & H).
  - vm_compute. reflexivity.
  - exact H.
Defined.

(** X24: a DELETE /api/properties/:id that its owner or an admin sends
    takes the pictures of the property with it.  With the cloud host
    the request is answered 200, the property is gone, and every asset
    named by one of its image URLs is destroyed unless the host refuses;
    with local storage the same holds when the file system lets every
    file go, and then none of its files is left. *)
Theorem delete_property_deletes_pictures `{Platform} (USE_CLOUDINARY : bool)
    requser id w prop :
  find (fun p => String.eqb (property_id p) id) (properties w) = Some prop ->
  (owner prop = user_id requser \/ role requser = "admin") ->
  (USE_CLOUDINARY = true \/
   forall img, In img (images prop) -> disk w !! path_join img <> Some false) ->
  fst (delete_property USE_CLOUDINARY requser id w) =
    Sent (mkResponse 200 true (Some "Property deleted successfully") NoData) /\
  properties (snd (delete_property USE_CLOUDINARY requser id w))
    = remove_property id (properties w) /\
  (if USE_CLOUDINARY
   then forall img m,
          In img (images prop) -> match_public_id img = Some m ->
          cloud w !! ("property-rental/properties/" +:+ m) <> Some false ->
          cloud (snd (delete_property USE_CLOUDINARY requser id w))
            !! ("property-rental/properties/" +:+ m) = None
   else forall img,
          In img (images prop) ->
          disk (snd (delete_property USE_CLOUDINARY requser id w)) !! path_join img = None).
Proof.
  intros Hfind Hauth Hcan.
  assert (Hgate : negb (String.eqb (owner prop) (user_id requser))
                  && negb (String.eqb (role requser) "admin") = false).
  { destruct Hauth as [-> | ->]; rewrite String.eqb_refl; cbn;
      rewrite ?andb_false_r; reflexivity. }
  unfold delete_property, delete_property_body, delete_property_catch, Property_findById,
    Property_findByIdAndDelete.
  run_handler. rewrite Hfind, Hgate. run_handler.
  unfold delete_images.
  destruct (images prop) as [|img imgs] eqn:Himgs.
  { run_handler. split; [reflexivity|]. split; [reflexivity|].
    destruct USE_CLOUDINARY; intros ? ; [intros ? []|intros []]. }
  cbn [isEmpty negb]. destruct USE_CLOUDINARY.
  - destruct (forEach_destroy
                (fun imageUrl =>
                   match match_public_id imageUrl with
                   | Some m => Some ("property-rental/properties/" +:+ m)
                   | None => None
                   end)
                (fun imageUrl =>
                   match match_public_id imageUrl with
                   | Some m => cloudinary_destroy ("property-rental/properties/" +:+ m)
                   | None => ret tt
                   end)
                (img :: imgs)
                ltac:(intros x; cbv beta; destruct (match_public_id x); reflexivity)
                (set_dbLog (dbLog w ++ [Property_findById_op id]) w))
      as (w' & Hrun & Hp & _ & _ & _ & _ & _ & Hgone & _).
    rewrite Hrun. run_handler. split; [reflexivity|]. split; [rewrite Hp; reflexivity|].
    intros url m Hin Hm Hok.
    apply (Hgone url); [exact Hin|rewrite Hm; reflexivity|exact Hok].
  - destruct Hcan as [?|Hcan]; [discriminate|].
    destruct (forEach_unlink_ok path_join
                (fun imagePath => unlink_if_present (path_join imagePath))
                (img :: imgs) ltac:(reflexivity)
                (set_dbLog (dbLog w ++ [Property_findById_op id]) w) Hcan)
      as (w' & Hrun & Hp & _ & _ & _ & Hgone & _).
    rewrite Hrun. run_handler. split; [reflexivity|]. split; [rewrite Hp; reflexivity|].
    exact Hgone.
Qed.

Lemma delete_property_deletes_pictures_witness :
  fst (delete_property (H := sample_platform) true olivia "p4"
         (set_cloud {[ "property-rental/properties/abc" := true ]} world_host_down)) =
    Sent (mkResponse 200 true (Some "Property deleted successfully") NoData) /\
  cloud (snd (delete_property (H := sample_platform) true olivia "p4"
                (set_cloud {[ "property-rental/properties/abc" := true ]} world_host_down)))
    !! "property-rental/properties/abc" = None.
Proof.
  destruct (delete_property_deletes_pictures (H := sample_platform) true olivia "p4"
              (set_cloud {[ "property-rental/properties/abc" := true ]} world_host_down)
              villa) as (H1 & _ & H2).
  - reflexivity.
  - left. reflexivity.
  - left. reflexivity.
  - split; [exact H1|].
    apply (H2 "https://res.cloudinary.com/demo/image/upload/v1/property-rental/properties/abc.jpg"
              "abc").
    + left. reflexivity.
    + vm_compute. reflexivity.
    + vm_compute. discriminate.
Defined.

(** ** One booking at a time *)

Lemma replace_first_split id doc l b :
  find (fun b => String.eqb (booking_id b) id) l = Some b ->
  exists before after,
    l = before ++ b :: after /\
    (forall q, In q before -> booking_id q <> id) /\
    replace_first id doc l = before ++ doc :: after.
Proof.
  induction l as [|a l IH]; cbn [find replace_first]; [discriminate|].
  destruct (String.eqb (booking_id a) id) eqn:E; intros Hfind.
  - injection Hfind as ->. exists [], l. repeat split. intros q [].
  - destruct (IH Hfind) as (before & after & -> & Hbefore & Hrep).
    exists (a :: before), after. rewrite Hrep. repeat split.
    intros q [<-|Hq]; [apply String.eqb_neq, E|apply Hbefore, Hq].
Qed.

(** X25: PUT /api/bookings/:id is all or nothing and touches one
    booking.  Every request is answered and the properties are never
    changed; an answer other than 200 leaves the bookings as they
    were; a 200 puts the updated document in the place of the first
    booking with the requested id and leaves every other booking, and
    the order of the store, as it was.  The updated document keeps the
    id, the property, the user, the dates, the guests and the price of
    the booking it replaces. *)
Theorem put_booking_changes_one requser id body w :
  exists r,
    fst (put_booking requser id body w) = Sent r /\
    properties (snd (put_booking requser id body w)) = properties w /\
    (statusCode r <> 200 -> bookings (snd (put_booking requser id body w)) = bookings w) /\
    (statusCode r = 200 ->
     exists booking doc before after,
       r = mkResponse 200 true (Some "Booking updated successfully")
             (BookingData (Some doc)) /\
       bookings w = before ++ booking :: after /\
       (forall q, In q before -> booking_id q <> id) /\
       bookings (snd (put_booking requser id body w)) = before ++ doc :: after /\
       booking_id doc = id /\ property doc = property booking /\
       user doc = user booking /\ checkIn doc = checkIn booking /\
       checkOut doc = checkOut booking /\ guests doc = guests booking /\
       totalPrice doc = totalPrice booking).
Proof.
  destruct (put_booking_effect requser id body w)
    as (r & Hfst & Hp & _ & _ & _ & [(Hc & Hb)|H]).
  - exists r. split; [exact Hfst|]. split; [exact Hp|]. split; [intros _; exact Hb|].
    intros; contradiction.
  - destruct H as (booking & prop & doc & Hb & _ & _ & Hap & _ & -> & Hbk).
    eexists. split; [exact Hfst|]. split; [exact Hp|].
    split; [intros Hc; exfalso; apply Hc; reflexivity|]. intros _.
    destruct (replace_first_split id doc _ _ Hb) as (before & after & Heq & Hbefore & Hrep).
    apply updated_booking_fields in Hap.
    destruct Hap as (Hid & Hpr & Hu & Hci & Hco & Hg & Ht & _).
    exists booking, doc, before, after.
    split; [reflexivity|]. split; [exact Heq|]. split; [exact Hbefore|].
    split; [rewrite Hbk; exact Hrep|].
    split; [rewrite Hid; apply (find_booking_id _ _ _ Hb)|]. auto 10.
Qed.

(** X26: POST /api/bookings checks the body, then the property, then
    its availability, and stops at the first check that fails: a body
    the validators reject is answered 400 with their errors before the
    store is read at all; an unknown property is answered 404 and an
    unavailable one 400, both after the one lookup of the property and
    before any booking is looked at; in each case no booking is
    created. *)
Theorem post_booking_stops_at_first_failed_check requser body w :
  (validationResult body <> [] ->
   post_booking requser body w =
   (Sent (mkResponse 400 false (Some "Validation failed")
            (ErrorList (validationResult body))), w)) /\
  (forall propertyId,
     validationResult body = [] -> body_property body = Some propertyId ->
     match find (fun p => String.eqb (property_id p) propertyId) (properties w) with
     | None =>
         post_booking requser body w =
         (Sent (json_error 404 "Property not found"),
          set_dbLog (dbLog w ++ [Property_findById_op propertyId]) w)
     | Some prop =>
         isAvailable prop = false ->
         post_booking requser body w =
         (Sent (json_error 400 "Property is not available for booking"),
          set_dbLog (dbLog w ++ [Property_findById_op propertyId]) w)
     end).
Proof.
  split.
  - intros Hbad. unfold post_booking, post_booking_body.
    destruct (validationResult body) as [|e errors]; [contradiction|].
    run_handler. reflexivity.
  - intros propertyId Hok Hp. unfold post_booking, post_booking_body.
    rewrite Hok. apply validationResult_nil in Hok.
    destruct Hok as (pid & c & d & g & Hp' & _ & Hc & Hd & Hg & _).
    rewrite Hp in Hp'. injection Hp' as <-.
    rewrite Hp, Hc, Hd, Hg. unfold Property_findById. run_handler.
    destruct (find _ (properties w)) as [prop|]; [|reflexivity].
    intros Hav. rewrite Hav. run_handler. reflexivity.
Qed.

Lemma post_booking_stops_at_first_failed_check_witness :
  post_booking bob (mkBookingBody (Some "p1") (Some (jan_2024 9)) None (Some 0) None)
    world_booked =
  (Sent (mkResponse 400 false (Some "Validation failed")
           (ErrorList [("checkOut", "Valid check-out date is required");
                       ("guests", "Number of guests must be at least 1")])),
   world_booked) /\
  post_booking bob (mkBookingBody (Some "p9") (Some (jan_2024 9)) (Some (jan_2024 10))
                      (Some 1) None) world_booked =
  (Sent (json_error 404 "Property not found"),
   set_dbLog (dbLog world_booked ++ [Property_findById_op "p9"]) world_booked).
Proof.
  destruct (post_booking_stops_at_first_failed_check bob
              (mkBookingBody (Some "p1") (Some (jan_2024 9)) None (Some 0) None)
              world_booked) as [H1 _].
  destruct (post_booking_stops_at_first_failed_check bob
              (mkBookingBody (Some "p9") (Some (jan_2024 9)) (Some (jan_2024 10))
                 (Some 1) None) world_booked) as [_ H2].
  split.
  - apply H1. discriminate.
  - apply (H2 "p9"); reflexivity.
Defined.
